(** * OSTrails proxy service: a shallow embedding of [main.py]

    The first half holds the model, the second half its properties.

    - [Json]      Python objects as [model_dump(mode="json")] and
                  [Response.json()] produce them, and the payload sanitizer
                  [remove_empty] of [submit_record];
    - [Str]       the string operations the source uses;
    - [Http]      requests, responses and Python exceptions;
    - [Rdf]       RDF terms and graphs;
    - [Platform]  what the service takes from its environment;
    - Extractor   [_extract_record_info];
    - Monad       the state-and-exception monad in which the [async]
                  functions are written;
    - Github      [commit_rdf_to_github];
    - Registry    [fetch_internal_id], [resolve_subject_domain_ids] and the
                  body of [submit_record];
    - [Scripted]  a platform with a scripted transport, to run the service.

    Library code the source calls (the Turtle parser of rdflib,
    [urllib.parse.urlparse], [base64.b64encode], the HTTP transport of
    httpx) is not part of the repository; it is a field of the class
    [Platform].  The route handlers of FastAPI, [print] and the time-outs
    of the requests are outside the model. *)

From Stdlib Require Import List String Ascii ZArith Bool Lia.
Import ListNotations.
Local Open Scope list_scope.
Local Open Scope string_scope.

(* ================================================================== *)
(** ** JSON values and the payload sanitizer                           *)
(* ================================================================== *)

Module Json.

(** A Python object built from [None], [bool], [int], [str], [list] and
    [dict] with string keys.  A [dict] keeps its insertion order, so it is
    an association list; Python guarantees that its keys are distinct.
    Numbers are opaque to every function of [main.py]: only
    their truth value is ever inspected. *)
Unset Elimination Schemes.
Inductive value : Type :=
| JNull
| JBool (b : bool)
| JNum (n : Z)
| JStr (s : string)
| JList (l : list value)
| JDict (m : list (string * value)).
Set Elimination Schemes.

(** Structural induction that reaches below lists and dictionaries. *)
Section value_induction.
Variable P : value -> Prop.
Hypothesis Hnull : P JNull.
Hypothesis Hbool : forall b, P (JBool b).
Hypothesis Hnum : forall n, P (JNum n).
Hypothesis Hstr : forall s, P (JStr s).
Hypothesis Hlist : forall l, Forall P l -> P (JList l).
Hypothesis Hdict : forall m, Forall (fun kv => P (snd kv)) m -> P (JDict m).

Fixpoint value_ind (v : value) : P v :=
  match v with
  | JNull => Hnull
  | JBool b => Hbool b
  | JNum n => Hnum n
  | JStr s => Hstr s
  | JList l =>
      Hlist l ((fix all (l : list value) : Forall P l :=
                  match l with
                  | [] => Forall_nil P
                  | x :: l' => Forall_cons x (value_ind x) (all l')
                  end) l)
  | JDict m =>
      Hdict m ((fix all (m : list (string * value))
                  : Forall (fun kv => P (snd kv)) m :=
                  match m with
                  | [] => Forall_nil _
                  | kv :: m' =>
                      Forall_cons (P := fun kv => P (snd kv)) kv
                                  (value_ind (snd kv)) (all m')
                  end) m)
  end.
End value_induction.

(** [v in (None, "", [], {})].  Python compares with [==]; no number or
    boolean equals [None], a string, a list or a dict, so the test holds
    for exactly these four values. *)
Definition in_empties (v : value) : bool :=
  match v with
  | JNull => true
  | JStr "" => true
  | JList [] => true
  | JDict [] => true
  | _ => false
  end.

(** [v != {}] *)
Definition ne_empty_dict (v : value) : bool :=
  match v with
  | JDict [] => false
  | _ => true
  end.

(** [remove_empty], nested in [submit_record].  The two inner loops are the
    dict comprehension and the first list comprehension of the source; the
    second list comprehension is the outer [filter]. *)
Fixpoint remove_empty (obj : value) : value :=
  match obj with
  | JDict items =>
      JDict ((fix comp (items : list (string * value)) : list (string * value) :=
                match items with
                | [] => []
                | (k, v) :: rest =>
                    if negb (in_empties v) && ne_empty_dict (remove_empty v)
                    then (k, remove_empty v) :: comp rest
                    else comp rest
                end) items)
  | JList l =>
      let cleaned :=
        (fix comp (l : list value) : list value :=
           match l with
           | [] => []
           | v :: rest =>
               if negb (in_empties v)
               then remove_empty v :: comp rest
               else comp rest
           end) l in
      JList (filter ne_empty_dict cleaned)
  | _ => obj
  end.

(** The comprehension loops of [remove_empty], as list functions. *)
Definition kept_items (m : list (string * value)) : list (string * value) :=
  flat_map
    (fun kv =>
       if negb (in_empties (snd kv)) && ne_empty_dict (remove_empty (snd kv))
       then [(fst kv, remove_empty (snd kv))] else [])
    m.

Definition cleaned_elements (l : list value) : list value :=
  flat_map (fun v => if negb (in_empties v) then [remove_empty v] else []) l.

(** Python truth value: [if x], [if not x], [x and ...]. *)
Definition truthy (v : value) : bool :=
  match v with
  | JNull => false
  | JBool b => b
  | JNum n => negb (Z.eqb n 0)
  | JStr s => negb (String.eqb s "")
  | JList l => match l with [] => false | _ => true end
  | JDict m => match m with [] => false | _ => true end
  end.

(** [d.get(k)]: the value bound to [k]. *)
Fixpoint dict_get (k : string) (m : list (string * value)) : option value :=
  match m with
  | [] => None
  | (k', v) :: rest => if String.eqb k k' then Some v else dict_get k rest
  end.

(** [d[k] = v]: an existing key keeps its position, a new key goes last. *)
Fixpoint dict_set (k : string) (v : value) (m : list (string * value))
  : list (string * value) :=
  match m with
  | [] => [(k, v)]
  | (k', v') :: rest =>
      if String.eqb k k' then (k, v) :: rest else (k', v') :: dict_set k v rest
  end.

(** A field of a value that is a dictionary. *)
Definition get_field (k : string) (v : value) : option value :=
  match v with JDict m => dict_get k m | _ => None end.

(** *** The sanitizer as the specification words it

    "For a mapping: recursively sanitize each value; drop a key if its
    original value is one of null, empty string, empty sequence, empty
    mapping, or if the recursively-sanitized value is itself an empty
    mapping.  For a sequence: drop elements that are [one of the four]
    before recursing, recurse on the rest, then drop any element whose
    sanitized result is an empty mapping.  Scalars pass through
    unchanged." *)
Definition is_empty_mapping (v : value) : bool :=
  match v with JDict [] => true | _ => false end.

Definition is_blank (v : value) : bool :=
  match v with
  | JNull | JStr EmptyString | JList [] | JDict [] => true
  | _ => false
  end.

Fixpoint sanitize (v : value) : value :=
  match v with
  | JDict m =>
      JDict
        (flat_map
           (fun kv =>
              if is_blank (snd kv) || is_empty_mapping (sanitize (snd kv))
              then []                                (* the key is dropped *)
              else [(fst kv, sanitize (snd kv))])
           m)
  | JList l =>
      let recursed :=
        flat_map (fun x => if is_blank x then [] else [sanitize x]) l in
      JList (filter (fun y => negb (is_empty_mapping y)) recursed)
  | scalar => scalar
  end.

(** *** Measures used to state when the sanitizer is idempotent *)

(** Number of constructors of a value. *)
Fixpoint size (v : value) : nat :=
  match v with
  | JList l =>
      S ((fix sum (l : list value) : nat :=
            match l with [] => 0 | x :: r => size x + sum r end) l)
  | JDict m =>
      S ((fix sum (m : list (string * value)) : nat :=
            match m with [] => 0 | kv :: r => size (snd kv) + sum r end) m)
  | _ => 1
  end.

Definition is_empty_list (v : value) : bool :=
  match v with JList [] => true | _ => false end.

(** No empty sequence occurs as an element of a sequence or as a value of a
    mapping, at any depth. *)
Fixpoint no_empty_list_inside (v : value) : bool :=
  match v with
  | JList l =>
      (fix all (l : list value) : bool :=
         match l with
         | [] => true
         | x :: r => negb (is_empty_list x) && no_empty_list_inside x && all r
         end) l
  | JDict m =>
      (fix all (m : list (string * value)) : bool :=
         match m with
         | [] => true
         | kv :: r =>
             negb (is_empty_list (snd kv)) && no_empty_list_inside (snd kv)
             && all r
         end) m
  | _ => true
  end.

(** No sequence occurs at all. *)
Fixpoint list_free (v : value) : bool :=
  match v with
  | JList _ => false
  | JDict m =>
      (fix all (m : list (string * value)) : bool :=
         match m with
         | [] => true
         | kv :: r => list_free (snd kv) && all r
         end) m
  | _ => true
  end.

End Json.

Import Json.

(* ================================================================== *)
(** ** Strings                                                         *)
(* ================================================================== *)

Module Str.

Definition LF : ascii := ascii_of_nat 10.
Definition nl : string := String LF EmptyString.
Definition dquote : string := String (ascii_of_nat 34) EmptyString.

(** [s.split(sep)] for a one-character separator: the pieces between the
    separators, empty pieces included; never the empty list. *)
Fixpoint split (sep : ascii) (s : string) : list string :=
  match s with
  | EmptyString => [EmptyString]
  | String c r =>
      if Ascii.eqb c sep then EmptyString :: split sep r
      else match split sep r with
           | [] => [String c EmptyString]
           | piece :: pieces => String c piece :: pieces
           end
  end.

(** The truth value of a [str]: non-empty. *)
Definition nonempty (s : string) : bool :=
  match s with EmptyString => false | _ => true end.

Fixpoint drop_leading (c : ascii) (l : list ascii) : list ascii :=
  match l with
  | [] => []
  | x :: r => if Ascii.eqb x c then drop_leading c r else l
  end.

(** [s.rstrip(c)] for a one-character set. *)
Definition rstrip (c : ascii) (s : string) : string :=
  string_of_list_ascii
    (rev (drop_leading c (rev (list_ascii_of_string s)))).

(** [needle in haystack] on two [str]. *)
Definition contains (needle haystack : string) : bool :=
  match index 0 needle haystack with Some _ => true | None => false end.

(** ASCII lower case; the only characters that match [t] and [l] under
    [re.IGNORECASE] are their two ASCII cases. *)
Definition lower (c : ascii) : ascii :=
  let n := nat_of_ascii c in
  if (65 <=? n)%nat && (n <=? 90)%nat then ascii_of_nat (n + 32) else c.

Definition ci_eqb (a b : ascii) : bool := Ascii.eqb (lower a) (lower b).

(** On a reversed string: does the string end with [.ttl] in any case?
    Returns what is in front of it, still reversed. *)
Definition ends_dot_ttl (r : list ascii) : option (list ascii) :=
  match r with
  | c4 :: c3 :: c2 :: c1 :: front =>
      if Ascii.eqb c1 "." && ci_eqb c2 "t" && ci_eqb c3 "t" && ci_eqb c4 "l"
      then Some front else None
  | _ => None
  end.

(** [re.sub(r"\.ttl$", "", filename, flags=re.IGNORECASE)].  Without
    [re.MULTILINE] the anchor [$] matches at the very end of the string and
    also just before a line feed that is its last character, so the pattern
    has at most one match: the four characters in front of one of these two
    positions. *)
Definition re_sub_ttl (filename : string) : string :=
  let r := rev (list_ascii_of_string filename) in
  match ends_dot_ttl r with
  | Some front => string_of_list_ascii (rev front)
  | None =>
      match r with
      | c :: r' =>
          if Ascii.eqb c LF then
            match ends_dot_ttl r' with
            | Some front => string_of_list_ascii (rev (c :: front))
            | None => filename
            end
          else filename
      | [] => filename
      end
  end.

(** The spec's wording of the same step: a trailing [.ttl], in any case, is
    taken off the segment. *)
Definition strip_ttl_suffix (segment : string) : string :=
  match ends_dot_ttl (rev (list_ascii_of_string segment)) with
  | Some front => string_of_list_ascii (rev front)
  | None => segment
  end.

(** The four characters [.ttl], in any case. *)
Definition is_ttl_extension (ext : string) : bool :=
  match ext with
  | String c1 (String c2 (String c3 (String c4 EmptyString))) =>
      Ascii.eqb c1 "." && ci_eqb c2 "t" && ci_eqb c3 "t" && ci_eqb c4 "l"
  | _ => false
  end.

Definition has_char (c : ascii) (s : string) : bool :=
  existsb (Ascii.eqb c) (list_ascii_of_string s).

End Str.

(* ================================================================== *)
(** ** HTTP, exceptions and the platform                               *)
(* ================================================================== *)

Module Http.

Inductive method := GET | PUT | POST.

(** What the client hands to the transport.  Time-outs are not part of the
    model. *)
Record request := {
  req_method : method;
  req_url : string;
  req_headers : list (string * string);
  req_json : option value
}.

(** [json] is [None] when the body is not a JSON document, in which case
    [Response.json()] raises. *)
Record response := {
  status_code : Z;
  text : string;
  json : option value
}.

(** The Python exceptions that occur in [main.py]. *)
Inductive exn :=
| HTTPException (code : Z) (detail : string)   (* fastapi.HTTPException *)
| HTTPStatusError (resp : response)            (* httpx, from raise_for_status *)
| TransportError (msg : string)                (* any other httpx.HTTPError *)
| JSONDecodeError
| AttributeError
| TypeError
| KeyError
| IndexError
| ValueError (msg : string).

(** [isinstance(e, httpx.HTTPError)] *)
Definition is_httpx_HTTPError (e : exn) : bool :=
  match e with
  | HTTPStatusError _ | TransportError _ => true
  | _ => false
  end.

End Http.

Import Http.

Module Rdf.

(** RDF terms as rdflib has them. *)
Inductive node :=
| URIRef (iri : string)
| BNode (label : string)
| Literal (lexical : string).

Definition node_eqb (a b : node) : bool :=
  match a, b with
  | URIRef x, URIRef y => String.eqb x y
  | BNode x, BNode y => String.eqb x y
  | Literal x, Literal y => String.eqb x y
  | _, _ => false
  end.

Definition triple : Type := node * node * node.

(** A parsed graph, as the list of its triples in the order in which
    [Graph.triples] enumerates them. *)
Definition graph : Type := list triple.

End Rdf.

Import Rdf.

(** The environment of the service: library functions, the remote servers
    and the process configuration. *)
Class Platform := {
  (** rdflib: [Graph().parse(data=..., format="turtle")]; [inl] is the text
      of the parser's exception. *)
  turtle_parse : string -> string + graph;
  (** [urlparse(u).path]; [inl] is the text of the [ValueError] that
      [urlparse] raises on some URLs. *)
  urlparse_path : string -> string + string;
  (** [base64.b64encode(s.encode()).decode()] *)
  b64encode : string -> string;
  (** [str(e)] of an exception, as an f-string prints it. *)
  str_of_exn : exn -> string;
  (** [str(v)] of an object that is not a [str]. *)
  str_of_value : value -> string;
  (** The state of everything reachable over the network, and the outcome of
      one request: a response, or the exception the client raises. *)
  World : Type;
  send : request -> World -> (exn + response) * World;
  (** [os.getenv] at import time. *)
  AUTH_URL : option string;
  DATA_URL : option string;
  USERNAME : option string;
  PASSWORD : option string;
  GITHUB_TOKEN : option string
}.

(* ================================================================== *)
(** ** The RDF identity extractor                                      *)
(* ================================================================== *)

Section Extractor.
Context {platform : Platform}.

(** [DCTERMS = Namespace("http://purl.org/dc/terms/")], then
    [DCTERMS.identifier]. *)
Definition DCTERMS_identifier : node :=
  URIRef ("http://purl.org/dc/terms/" ++ "identifier").

(** [g.triples((None, p, None))] *)
Definition triples_with_predicate (p : node) (g : graph) : list triple :=
  filter (fun t => node_eqb (snd (fst t)) p) g.

(** The [for ... break] loop: the first subject that is a [URIRef]. *)
Fixpoint first_uri_subject (ts : list triple) : option string :=
  match ts with
  | [] => None
  | (s, _, _) :: rest =>
      match s with
      | URIRef iri => Some iri
      | _ => first_uri_subject rest
      end
  end.

(** [[p for p in path.split("/") if p]] *)
Definition path_parts (path : string) : list string :=
  filter Str.nonempty (Str.split "/" path).

(** [l[-k]] for [1 <= k <= len(l)] *)
Definition from_end (l : list string) (k : nat) : string :=
  nth (List.length l - k) l EmptyString.

Definition _extract_record_info (rdf_text : string)
  : exn + (string * string * string) :=
  match turtle_parse rdf_text with
  | inl e => inl (HTTPException 400 ("Invalid RDF format: " ++ e))
  | inr g =>
      match first_uri_subject (triples_with_predicate DCTERMS_identifier g) with
      | None =>
          inl (HTTPException 400
                 "No valid identifier or subject URI found in RDF.")
      | Some uri_candidate =>
          match urlparse_path uri_candidate with
          | inl msg => inl (ValueError msg)
          | inr path =>
              let parts := path_parts path in
              if (List.length parts <? 2)%nat then
                inl (HTTPException 400
                       ("URI '" ++ uri_candidate ++
                        "' is malformed or missing path structure."))
              else
                let filename := from_end parts 1 in
                let category := from_end parts 2 in
                let record_id := Str.re_sub_ttl filename in
                inr (record_id, category, uri_candidate)
          end
      end
  end.

End Extractor.

(* ================================================================== *)
(** ** The monad of the [async] functions                              *)
(* ================================================================== *)

Section Monad.
Context {platform : Platform}.

(** The world and the requests sent so far, oldest first. *)
Definition state : Type := World * list request.

(** A computation either raises or returns. *)
Definition M (A : Type) : Type := state -> (exn + A) * state.

Definition ret {A} (a : A) : M A := fun s => (inr a, s).

Definition raise {A} (e : exn) : M A := fun s => (inl e, s).

Definition bind {A B} (c : M A) (k : A -> M B) : M B :=
  fun s =>
    match c s with
    | (inl e, s') => (inl e, s')
    | (inr a, s') => k a s'
    end.

(** [try: c except Exception as e: handler(e)] *)
Definition try_except {A} (c : M A) (handler : exn -> M A) : M A :=
  fun s =>
    match c s with
    | (inl e, s') => handler e s'
    | (inr a, s') => (inr a, s')
    end.

(** One round trip: the request is recorded, the world answers. *)
Definition client_send (r : request) : M response :=
  fun s =>
    let (w, sent) := s in
    let (outcome, w') := send r w in
    (outcome, (w', (sent ++ [r])%list)).

(** [client.get], [client.put], [client.post].  httpx refuses a URL that is
    [None] with a [TypeError] before anything is sent. *)
Definition client_request (m : method) (url : option string)
    (headers : list (string * string)) (body : option value) : M response :=
  match url with
  | None => raise TypeError
  | Some u =>
      client_send {| req_method := m; req_url := u;
                     req_headers := headers; req_json := body |}
  end.

(** [resp.raise_for_status()]: httpx raises unless the status is 2xx. *)
Definition raise_for_status (resp : response) : M unit :=
  if (200 <=? status_code resp)%Z && (status_code resp <=? 299)%Z
  then ret tt else raise (HTTPStatusError resp).

(** [resp.json()] *)
Definition response_json (resp : response) : M value :=
  match json resp with
  | Some v => ret v
  | None => raise JSONDecodeError
  end.

(** [obj.get(key, default)]: only a [dict] has the method. *)
Definition py_get (obj : value) (key : string) (default : value) : M value :=
  match obj with
  | JDict m =>
      ret (match dict_get key m with Some v => v | None => default end)
  | _ => raise AttributeError
  end.

(** [obj[key]] with a [str] key. *)
Definition py_getitem (obj : value) (key : string) : M value :=
  match obj with
  | JDict m =>
      match dict_get key m with Some v => ret v | None => raise KeyError end
  | _ => raise TypeError
  end.

(** [key in obj] with a [str] key: a key of a [dict], an element of a
    [list], a substring of a [str]; other objects are not containers. *)
Definition py_contains (key : string) (obj : value) : M bool :=
  match obj with
  | JDict m => ret (match dict_get key m with Some _ => true | None => false end)
  | JList l =>
      ret (existsb (fun x => match x with
                             | JStr s => String.eqb s key
                             | _ => false
                             end) l)
  | JStr s => ret (Str.contains key s)
  | _ => raise TypeError
  end.

(** [obj[key] = v] with a [str] key. *)
Definition py_setitem (obj : value) (key : string) (v : value) : M value :=
  match obj with
  | JDict m => ret (JDict (dict_set key v m))
  | _ => raise TypeError
  end.

(** [isinstance(v, list)] *)
Definition is_list (v : value) : bool :=
  match v with JList _ => true | _ => false end.

(** [f"{v}"] *)
Definition py_format (v : value) : string :=
  match v with JStr s => s | _ => str_of_value v end.

(** An environment variable inside a JSON body. *)
Definition env_json (x : option string) : value :=
  match x with Some s => JStr s | None => JNull end.

(** The truth value of an environment variable or constant. *)
Definition env_truthy (x : option string) : bool :=
  match x with Some s => Str.nonempty s | None => false end.

End Monad.

Declare Scope py_scope.
Delimit Scope py_scope with py.
Notation "x <- c ;; k" := (bind c (fun x => k))
  (at level 61, c at next level, right associativity) : py_scope.
Notation "c ;;; k" := (bind c (fun _ => k))
  (at level 61, right associativity) : py_scope.

(* ================================================================== *)
(** ** The content store: [commit_rdf_to_github]                       *)
(* ================================================================== *)

Section Github.
Context {platform : Platform}.
Local Open Scope py_scope.

Definition GITHUB_OWNER : string := "OSTrails".
Definition GITHUB_REPO : string := "assessment-component-metadata-records".
Definition GITHUB_BRANCH : string := "main".

(** [f"{category.rstrip('/')}/{record_id}.ttl"] *)
Definition store_path (record_id category : string) : string :=
  Str.rstrip "/" category ++ "/" ++ record_id ++ ".ttl".

Definition contents_url (path : string) : string :=
  "https://api.github.com/repos/" ++ GITHUB_OWNER ++ "/" ++ GITHUB_REPO ++
  "/contents/" ++ path.

Definition github_headers : list (string * string) :=
  [ ("Authorization",
     "Bearer " ++ match GITHUB_TOKEN with Some t => t | None => "None" end);
    ("Accept", "application/vnd.github+json") ].

(** The body of the [PUT]; the [sha] entry is spliced in last, and only for
    a [sha] that counts as true. *)
Definition put_payload (rdf_text record_id category : string) (sha : value)
  : value :=
  JDict ([ ("message",
            JStr ("Add or update RDF record '" ++ record_id ++
                  "' in category '" ++ category ++ "'."));
           ("content", JStr (b64encode rdf_text));
           ("branch", JStr GITHUB_BRANCH) ]
         ++ (if truthy sha then [("sha", sha)] else []))%list.

Definition get_request (url : string) : request :=
  {| req_method := GET; req_url := url;
     req_headers := github_headers; req_json := None |}.

Definition put_request (url : string) (payload : value) : request :=
  {| req_method := PUT; req_url := url;
     req_headers := github_headers; req_json := Some payload |}.

(** The preflight [GET] and what it makes of the answer. *)
Definition preflight (url : string) : M value :=
  pre <- client_send (get_request url) ;;
  if (status_code pre =? 200)%Z then
    body <- response_json pre ;;
    py_get body "sha" JNull
  else if negb (status_code pre =? 404)%Z then
    raise (HTTPException 500 ("GitHub preflight failed: " ++ text pre))
  else ret JNull.

(** The rest of the [try] block once the [PUT] has been answered:
    [put.raise_for_status()], [put.json()] and the returned dictionary. *)
Definition commit_result (record_id category : string) (sha : value)
    (put : response) : M value :=
  raise_for_status put ;;;
  commit_data <- response_json put ;;
  commit <- py_get commit_data "commit" (JDict []) ;;
  commit_url <- py_get commit "html_url" JNull ;;
  content <- py_get commit_data "content" (JDict []) ;;
  file_url <- py_get content "html_url" JNull ;;
  ret (JDict
         [ ("status", JStr "success");
           ("action", JStr (if truthy sha then "update" else "create"));
           ("record_id", JStr record_id);
           ("category", JStr category);
           ("commit_url", commit_url);
           ("file_url", file_url);
           ("message",
            JStr ("RDF record '" ++ record_id ++ "' successfully " ++
                  (if truthy sha then "updated" else "created") ++
                  " in GitHub repository '" ++ GITHUB_REPO ++ "'.")) ]).

(** An answer to the [PUT] on which none of these steps raises: a 2xx
    status and a JSON object whose [commit] and [content], if present, are
    objects. *)
Definition write_accepted (put : response) : bool :=
  (200 <=? status_code put)%Z && (status_code put <=? 299)%Z &&
  match json put with
  | Some (JDict cd) =>
      match dict_get "commit" cd with
      | Some (JDict _) | None => true
      | _ => false
      end &&
      match dict_get "content" cd with
      | Some (JDict _) | None => true
      | _ => false
      end
  | _ => false
  end.

(** The two [except] clauses. *)
Definition commit_handler (e : exn) : M value :=
  if is_httpx_HTTPError e
  then raise (HTTPException 500 ("GitHub request failed: " ++ str_of_exn e))
  else raise (HTTPException 500
                ("Unexpected error during GitHub commit: " ++ str_of_exn e)).

Definition commit_rdf_to_github (rdf_text : string) : M value :=
  if negb (env_truthy GITHUB_TOKEN && Str.nonempty GITHUB_OWNER
           && Str.nonempty GITHUB_REPO)
  then raise (HTTPException 500 "GitHub credentials or configuration missing.")
  else
    match _extract_record_info rdf_text with
    | inl e => raise e
    | inr (record_id, category, uri_candidate) =>
        let path := store_path record_id category in
        let url := contents_url path in
        try_except
          (sha <- preflight url ;;
           let payload := put_payload rdf_text record_id category sha in
           put <- client_send (put_request url payload) ;;
           commit_result record_id category sha put)
          commit_handler
    end.

(** The push flow stops with [e] before anything is sent: the state, and
    with it the list of requests, is unchanged.  Without a token the flow
    stops even earlier, with the configuration error. *)
Definition fails_offline (rdf_text : string) (e : exn) : Prop :=
  forall s : state,
    exists e', commit_rdf_to_github rdf_text s = (inl e', s) /\
               (env_truthy GITHUB_TOKEN = true -> e' = e).

End Github.

(* ================================================================== *)
(** ** The registry: [submit_record] and its nested helpers            *)
(* ================================================================== *)

Section Registry.
Context {platform : Platform}.
Local Open Scope py_scope.

Definition FAIRSHARING_GRAPHQL_ENDPOINT : string :=
  "https://api.fairsharing.org/graphql".
Definition FAIRSHARING_GRAPHQL_KEY : string :=
  "484de7ca-4496-4ee7-8cbf-578d2923c08f".

(** The f-string of the GraphQL document, line by line. *)
Definition graphql_query (query_field : string) (iri : value) : value :=
  JDict
    [ ("query",
       JStr (Str.nl ++
             "            query {" ++ Str.nl ++
             "              " ++ query_field ++ "(q: " ++ Str.dquote ++
               py_format iri ++ Str.dquote ++ ") {" ++ Str.nl ++
             "                id" ++ Str.nl ++
             "                iri" ++ Str.nl ++
             "              }" ++ Str.nl ++
             "            }" ++ Str.nl ++
             "            ")) ].

Definition graphql_request (query_field : string) (iri : value) : request :=
  {| req_method := POST;
     req_url := FAIRSHARING_GRAPHQL_ENDPOINT;
     req_headers := [("x-graphql-key", FAIRSHARING_GRAPHQL_KEY)];
     req_json := Some (graphql_query query_field iri) |}.

(** The [try] block of [fetch_internal_id]; it returns [None] ([JNull])
    where the source falls through to the final [return None]. *)
Definition fetch_attempt (query_field : string) (iri : value) : M value :=
  resp <- client_send (graphql_request query_field iri) ;;
  raise_for_status resp ;;;
  data <- response_json resp ;;
  inner <- py_get data "data" (JDict []) ;;
  results <- py_get inner query_field (JList []) ;;
  match results with
  | JList (first :: _) =>
      id <- py_get first "id" JNull ;;
      if truthy id then py_getitem first "id" else ret JNull
  | _ => ret JNull
  end.

Definition fetch_internal_id (iri : value) (type_ : string) : M value :=
  if String.eqb type_ "subject" then
    try_except (fetch_attempt "searchSubjects" iri) (fun _ => ret JNull)
  else if String.eqb type_ "domain" then
    try_except (fetch_attempt "searchDomains" iri) (fun _ => ret JNull)
  else raise (ValueError "Unknown type_").

(** [internal_id is not None] *)
Definition is_not_None (v : value) : bool :=
  match v with JNull => false | _ => true end.

(** The [for iri in record[...]] loop; [resolved] is the list being
    appended to. *)
Fixpoint resolve_loop (type_ : string) (iris : list value)
    (resolved : list value) : M (list value) :=
  match iris with
  | [] => ret resolved
  | iri :: rest =>
      internal_id <- fetch_internal_id iri type_ ;;
      if is_not_None internal_id
      then resolve_loop type_ rest (resolved ++ [internal_id])%list
      else resolve_loop type_ rest resolved
  end.

(** One of the two blocks "Resolve subjects" / "Resolve domains", which
    differ in the key and in the kind only. *)
Definition resolve_block (key type_ : string) (record : value) : M value :=
  present <- py_contains key record ;;
  if present then
    current <- py_getitem record key ;;
    match current with
    | JList iris =>
        resolved <- resolve_loop type_ iris [] ;;
        py_setitem record key (JList resolved)
    | _ => ret record
    end
  else ret record.

Definition resolve_subject_domain_ids (body_dict : list (string * value))
  : M (list (string * value)) :=
  let record :=
    match dict_get "fairsharing_record" body_dict with
    | Some r => r
    | None => JDict []
    end in
  record <- resolve_block "subject_ids" "subject" record ;;
  record <- resolve_block "domain_ids" "domain" record ;;
  ret (dict_set "fairsharing_record" record body_dict).

Definition json_headers : list (string * string) :=
  [("Accept", "application/json"); ("Content-Type", "application/json")].

Definition login_payload : value :=
  JDict [("user", JDict [("login", env_json USERNAME);
                         ("password", env_json PASSWORD)])].

(** The second [async with] block of [submit_record]. *)
Definition authenticate_and_send (body_dict : value) : M value :=
  auth <- client_request POST AUTH_URL json_headers (Some login_payload) ;;
  raise_for_status auth ;;;
  auth_body <- response_json auth ;;
  token <- py_get auth_body "jwt" JNull ;;
  if negb (truthy token) then raise (HTTPException 500 "Missing jwt token")
  else
    let headers :=
      (json_headers ++
       [("Authorization", ("Bearer " ++ py_format token)%string)])%list in
    data_response <- client_request POST DATA_URL headers (Some body_dict) ;;
    raise_for_status data_response ;;;
    response_body <- response_json data_response ;;
    ret (JDict [ ("status", JStr "success");
                 ("data_status_code", JNum (status_code data_response));
                 ("response", response_body) ]).

(** [submit_record], from the dictionary that [body.model_dump(mode="json")]
    returns. *)
Definition submit_record (body_dict : list (string * value)) : M value :=
  body_dict <- resolve_subject_domain_ids body_dict ;;
  let body_dict := remove_empty (JDict body_dict) in
  authenticate_and_send body_dict.

(** *** Notions used to state the properties of the registry flow *)

(** The search operation of a kind. *)
Definition query_field_of (type_ : string) : string :=
  if String.eqb type_ "subject" then "searchSubjects" else "searchDomains".

(** The ID of the first entry of the result list, when the query was
    answered with a 2xx status and a body of the shape
    [{"data": {<query_field>: [{"id": ..., "iri": ...}, ...]}}]. *)
Definition first_result_id (query_field : string) (outcome : exn + response)
  : option value :=
  match outcome with
  | inl _ => None
  | inr resp =>
      if (200 <=? status_code resp)%Z && (status_code resp <=? 299)%Z then
        match json resp with
        | Some (JDict data) =>
            match dict_get "data" data with
            | Some (JDict inner) =>
                match dict_get query_field inner with
                | Some (JList (JDict first :: _)) => dict_get "id" first
                | _ => None
                end
            | _ => None
            end
        | _ => None
        end
      else None
  end.

(** The internal ID that an answer resolves to: the first entry's ID if it
    counts as true, otherwise "unresolved". *)
Definition resolved_id (query_field : string) (outcome : exn + response)
  : value :=
  match first_result_id query_field outcome with
  | Some id => if truthy id then id else JNull
  | None => JNull
  end.

(** Every identifier resolved on its own, in the order of the input: the
    list of the outcomes, [JNull] for "unresolved". *)
Fixpoint fetch_each (type_ : string) (iris : list value) : M (list value) :=
  match iris with
  | [] => ret []
  | iri :: rest =>
      outcome <- fetch_internal_id iri type_ ;;
      outcomes <- fetch_each type_ rest ;;
      ret (outcome :: outcomes)
  end.

Definition auth_request (url : string) : request :=
  {| req_method := POST; req_url := url;
     req_headers := json_headers; req_json := Some login_payload |}.

Definition data_request (url : string) (token payload : value) : request :=
  {| req_method := POST; req_url := url;
     req_headers :=
       (json_headers ++
        [("Authorization", ("Bearer " ++ py_format token)%string)])%list;
     req_json := Some payload |}.

(** The session token of an answer of the authentication endpoint: the
    [jwt] field of a 2xx answer whose body is a JSON object, if it counts
    as true. *)
Definition usable_token (outcome : exn + response) : option value :=
  match outcome with
  | inl _ => None
  | inr auth =>
      if (200 <=? status_code auth)%Z && (status_code auth <=? 299)%Z then
        match json auth with
        | Some (JDict body) =>
            match dict_get "jwt" body with
            | Some token => if truthy token then Some token else None
            | None => None
            end
        | _ => None
        end
      else None
  end.

(** A query of the resolver: a request to the GraphQL endpoint under the
    GraphQL key. *)
Definition is_registry_query (r : request) : Prop :=
  req_url r = FAIRSHARING_GRAPHQL_ENDPOINT /\
  req_headers r = [("x-graphql-key", FAIRSHARING_GRAPHQL_KEY)].

(** A number, a string or a boolean. *)
Definition is_scalar (v : value) : bool :=
  match v with
  | JBool _ | JNum _ | JStr _ => true
  | _ => false
  end.

End Registry.

(* ================================================================== *)
(** ** A scripted platform, to run the service on concrete inputs      *)
(* ================================================================== *)

Module Scripted.

Definition record_uri : string :=
  "https://example.org/records/survey/item123.ttl".

(** Three Turtle documents and the graphs rdflib builds from them. *)
Definition doc_record : string :=
  "<https://example.org/records/survey/item123.ttl> " ++
  "<http://purl.org/dc/terms/identifier> <urn:item123> .".
Definition doc_no_identifier : string :=
  "<https://example.org/records/survey/item123.ttl> " ++
  "<http://purl.org/dc/terms/title> <urn:item123> .".
Definition doc_short_path : string :=
  "<https://example.org/item123.ttl> " ++
  "<http://purl.org/dc/terms/identifier> <urn:item123> .".

Definition parse (text : string) : string + graph :=
  if String.eqb text doc_record then
    inr [(URIRef record_uri,
          URIRef "http://purl.org/dc/terms/identifier", URIRef "urn:item123")]
  else if String.eqb text doc_no_identifier then
    inr [(URIRef record_uri,
          URIRef "http://purl.org/dc/terms/title", URIRef "urn:item123")]
  else if String.eqb text doc_short_path then
    inr [(URIRef "https://example.org/item123.ttl",
          URIRef "http://purl.org/dc/terms/identifier", URIRef "urn:item123")]
  else inl "Bad syntax".

(** The path of an [https://example.org] URL. *)
Definition path_of (u : string) : string + string :=
  if prefix "https://example.org" u
  then inr (substring 19 (String.length u - 19) u)
  else inl "Invalid IPv6 URL".

(** The transport replays a tape of outcomes, one per request, and refuses
    the connection when the tape is used up. *)
Definition replay (r : request) (tape : list (exn + response))
  : (exn + response) * list (exn + response) :=
  match tape with
  | outcome :: rest => (outcome, rest)
  | [] => (inl (TransportError "connection refused"), [])
  end.

Definition platform : Platform := {|
  turtle_parse := parse;
  urlparse_path := path_of;
  b64encode := fun s => s;            (* the encoding is opaque to the service *)
  str_of_exn := fun _ => "error";
  str_of_value := fun _ => "object";
  World := list (exn + response);
  send := replay;
  AUTH_URL := Some "https://registry.example/users/sign_in";
  DATA_URL := Some "https://registry.example/fairsharing_records";
  USERNAME := Some "user";
  PASSWORD := Some "secret";
  GITHUB_TOKEN := Some "token"
|}.

Definition ok (status : Z) (body : value) : exn + response :=
  inr {| status_code := status; text := "json"; json := Some body |}.

(** The content store: where the record goes, and what GitHub answers to a
    read and to a write. *)
Definition file_url : string :=
  "https://api.github.com/repos/OSTrails/" ++
  "assessment-component-metadata-records/contents/survey/item123.ttl".

Definition found : exn + response := ok 200 (JDict [("sha", JStr "95b966a")]).
Definition found_without_hash : exn + response := ok 200 (JDict []).
Definition not_found : exn + response :=
  ok 404 (JDict [("message", JStr "Not Found")]).
Definition forbidden : exn + response :=
  ok 403 (JDict [("message", JStr "Forbidden")]).
Definition written (status : Z) : exn + response :=
  ok status
     (JDict [ ("content", JDict [("html_url", JStr "https://github.com/f")]);
              ("commit", JDict [("html_url", JStr "https://github.com/c")]) ]).

(** The registry: an answer of the query endpoint, one of its entries, and
    the answers of the authentication and data endpoints. *)
Definition entry (id : value) (iri : string) : value :=
  JDict [("id", id); ("iri", JStr iri)].

Definition answer (query_field : string) (entries : list value)
  : exn + response :=
  ok 200 (JDict [("data", JDict [(query_field, JList entries)])]).

Definition signed_in : exn + response :=
  ok 200 (JDict [("jwt", JStr "eyJhbGciOi")]).
Definition signed_in_without_jwt : exn + response :=
  ok 200 (JDict [("message", JStr "ok")]).
Definition recorded : exn + response :=
  ok 201 (JDict [("id", JNum 7)]).

(** A submission whose two subjects are [http://x/1] and [http://x/2]. *)
Definition submission : list (string * value) :=
  [ ("fairsharing_record",
     JDict [ ("name", JStr "Record");
             ("homepage", JStr "");
             ("subject_ids", JList [JStr "http://x/1"; JStr "http://x/2"]) ]) ].

(** The same submission once the second subject has resolved to 42. *)
Definition submission_resolved : list (string * value) :=
  [ ("fairsharing_record",
     JDict [ ("name", JStr "Record");
             ("homepage", JStr "");
             ("subject_ids", JList [JNum 42]) ]) ].

(** The transport tapes of scenario 3 and scenario 4. *)
Definition tape_signed_in : list (exn + response) :=
  [ answer "searchSubjects" [];
    answer "searchSubjects" [entry (JNum 42) "http://x/2"];
    signed_in; recorded ].

Definition tape_without_jwt : list (exn + response) :=
  [ answer "searchSubjects" [];
    answer "searchSubjects" [entry (JNum 42) "http://x/2"];
    signed_in_without_jwt; recorded ].

(** A record whose only field is a sequence of nulls. *)
Definition only_nulls : value := JDict [("subject_ids", JList [JNull])].

End Scripted.

(* ================================================================== *)
(** ** The push endpoint: [githubpush]                                 *)
(* ================================================================== *)

Module PyStr.

(** A byte [10xxxxxx] continues the UTF-8 encoding of a character. *)
Definition is_continuation (b : ascii) : bool :=
  (128 <=? nat_of_ascii b)%nat && (nat_of_ascii b <=? 191)%nat.

(** The characters of a text: every leading byte with the continuation
    bytes that follow it. *)
Fixpoint chars (l : list ascii) : list (list ascii) :=
  match l with
  | [] => []
  | b :: r =>
      match r with
      | c :: _ =>
          if is_continuation c then
            match chars r with
            | g :: gs => (b :: g) :: gs
            | [] => [[b]]
            end
          else [b] :: chars r
      | [] => [[b]]
      end
  end.

(** [c.isspace()]: the characters U+0009..U+000D, U+001C..U+0020, U+0085,
    U+00A0, U+1680, U+2000..U+200A, U+2028, U+2029, U+202F, U+205F and
    U+3000, in UTF-8. *)
Definition is_space (c : list ascii) : bool :=
  match map nat_of_ascii c with
  | [n] => ((9 <=? n) && (n <=? 13) || (28 <=? n) && (n <=? 32))%nat
  | [194; n] => ((n =? 133) || (n =? 160))%nat
  | [225; 154; 128] => true
  | [226; 128; n] =>
      ((128 <=? n) && (n <=? 138) || (n =? 168) || (n =? 169) || (n =? 175))%nat
  | [226; 129; 159] => true
  | [227; 128; 128] => true
  | _ => false
  end.

Fixpoint drop_spaces (cs : list (list ascii)) : list (list ascii) :=
  match cs with
  | [] => []
  | c :: r => if is_space c then drop_spaces r else cs
  end.

(** [s.strip()] *)
Definition strip (s : string) : string :=
  string_of_list_ascii
    (List.concat (rev (drop_spaces
                    (rev (drop_spaces (chars (list_ascii_of_string s))))))).

(** Every character of the text is white space. *)
Definition all_spaces (s : string) : bool :=
  forallb is_space (chars (list_ascii_of_string s)).

End PyStr.

(** What the route handler takes from the interpreter: the decoding of the
    request body, [inl] being the text of the [UnicodeDecodeError] (a
    [ValueError]), and the lines of [traceback.format_exc()]. *)
Class Runtime := {
  decode_utf8 : string -> string + string;
  format_exc_lines : exn -> list string
}.

(** [JSONResponse(status_code=..., content=...)] *)
Record JSONResponse := {
  response_status : Z;
  content : value
}.

Section Push.
Context {platform : Platform} {runtime : Runtime}.

(** [l[-5:]] *)
Definition last_five (l : list string) : list string :=
  skipn (List.length l - 5) l.

(** The [try] block of [githubpush]. *)
Definition push_attempt (body : string) : M value :=
  match decode_utf8 body with
  | inl msg => raise (ValueError msg)
  | inr rdf_text =>
      if negb (Str.nonempty (PyStr.strip rdf_text))
      then raise (HTTPException 400 "Empty RDF body received.")
      else commit_rdf_to_github rdf_text
  end.

(** [githubpush]: the two [except] clauses turn every exception into a
    response. *)
Definition githubpush (body : string) (s : state) : JSONResponse * state :=
  match push_attempt body s with
  | (inr response, s') =>
      ({| response_status := 200; content := response |}, s')
  | (inl (HTTPException code detail), s') =>
      ({| response_status := code;
          content := JDict [("status", JStr "error");
                            ("message", JStr detail)] |}, s')
  | (inl e, s') =>
      ({| response_status := 500;
          content :=
            JDict [("status", JStr "error");
                   ("message",
                    JStr ("Unexpected internal error: " ++ str_of_exn e));
                   ("trace",
                    JList (map JStr (last_five (format_exc_lines e))))] |},
       s')
  end.

End Push.

(* ================================================================== *)
(** ** Notions used to state further properties                        *)
(* ================================================================== *)

Module Shape.

(** Null, the empty string or the empty mapping. *)
Definition is_void (v : value) : bool :=
  match v with
  | JNull | JStr EmptyString | JDict [] => true
  | _ => false
  end.

(** No null, empty string or empty mapping is an element of a sequence or
    a value of a mapping, at any depth. *)
Fixpoint no_void_inside (v : value) : bool :=
  match v with
  | JList l =>
      (fix all (l : list value) : bool :=
         match l with
         | [] => true
         | x :: r => negb (is_void x) && no_void_inside x && all r
         end) l
  | JDict m =>
      (fix all (m : list (string * value)) : bool :=
         match m with
         | [] => true
         | kv :: r => negb (is_void (snd kv)) && no_void_inside (snd kv) && all r
         end) m
  | _ => true
  end.

(** No null, empty string, empty sequence or empty mapping is an element
    of a sequence or a value of a mapping, at any depth. *)
Fixpoint tidy (v : value) : bool :=
  match v with
  | JList l =>
      (fix all (l : list value) : bool :=
         match l with
         | [] => true
         | x :: r => negb (in_empties x) && tidy x && all r
         end) l
  | JDict m =>
      (fix all (m : list (string * value)) : bool :=
         match m with
         | [] => true
         | kv :: r => negb (in_empties (snd kv)) && tidy (snd kv) && all r
         end) m
  | _ => true
  end.

(** The keys of every dictionary inside a value are distinct, as Python
    has it. *)
Fixpoint distinct_keys (v : value) : Prop :=
  match v with
  | JList l =>
      (fix all (l : list value) : Prop :=
         match l with [] => True | x :: r => distinct_keys x /\ all r end) l
  | JDict m =>
      NoDup (map fst m) /\
      (fix all (m : list (string * value)) : Prop :=
         match m with
         | [] => True
         | kv :: r => distinct_keys (snd kv) /\ all r
         end) m
  | _ => True
  end.

End Shape.

Module Cases.

(** A record with an empty field, a field emptied by the sanitizer and a
    field that stays. *)
Definition record : list (string * value) :=
  [ ("name", JStr "Record");
    ("homepage", JStr "");
    ("support", JDict [("email", JNull)]);
    ("subject_ids", JList [JNum 42]) ].

(** A document whose first identifier triple hangs on a blank node and
    which names two URI subjects after it, and one whose subject is not
    accepted by [urlparse]. *)
Definition doc_two_subjects : string :=
  "_:b <http://purl.org/dc/terms/identifier> <urn:b> . " ++
  "<https://example.org/records/survey/first.TTL> " ++
  "<http://purl.org/dc/terms/identifier> <urn:1> . " ++
  "<https://example.org/records/tool/second.ttl> " ++
  "<http://purl.org/dc/terms/identifier> <urn:2> .".

Definition doc_bad_host : string :=
  "<http://[::1/records/survey/item123.ttl> " ++
  "<http://purl.org/dc/terms/identifier> <urn:item123> .".

Definition parse (text : string) : string + graph :=
  if String.eqb text doc_two_subjects then
    inr [ (BNode "b", URIRef "http://purl.org/dc/terms/identifier",
           URIRef "urn:b");
          (URIRef "https://example.org/records/survey/first.TTL",
           URIRef "http://purl.org/dc/terms/identifier", URIRef "urn:1");
          (URIRef "https://example.org/records/tool/second.ttl",
           URIRef "http://purl.org/dc/terms/identifier", URIRef "urn:2") ]
  else if String.eqb text doc_bad_host then
    inr [ (URIRef "http://[::1/records/survey/item123.ttl",
           URIRef "http://purl.org/dc/terms/identifier", URIRef "urn:item123") ]
  else Scripted.parse text.

(** The scripted platform with these documents, with and without the
    GitHub token and the data URL. *)
Definition platform : Platform := {|
  turtle_parse := parse;
  urlparse_path := Scripted.path_of;
  b64encode := fun s => s;            (* the encoding is opaque to the service *)
  str_of_exn := fun _ => "error";
  str_of_value := fun _ => "object";
  World := list (exn + response);
  send := Scripted.replay;
  AUTH_URL := Some "https://registry.example/users/sign_in";
  DATA_URL := Some "https://registry.example/fairsharing_records";
  USERNAME := Some "user";
  PASSWORD := Some "secret";
  GITHUB_TOKEN := Some "token"
|}.

Definition unconfigured : Platform := {|
  turtle_parse := parse;
  urlparse_path := Scripted.path_of;
  b64encode := fun s => s;
  str_of_exn := fun _ => "error";
  str_of_value := fun _ => "object";
  World := list (exn + response);
  send := Scripted.replay;
  AUTH_URL := Some "https://registry.example/users/sign_in";
  DATA_URL := None;
  USERNAME := Some "user";
  PASSWORD := Some "secret";
  GITHUB_TOKEN := None
|}.

(** A body of white space: a space, a line feed and a no-break space; and
    a body that starts with the byte 0xFF. *)
Definition blank_body : string :=
  " " ++ Str.nl ++ String (ascii_of_nat 194) (String (ascii_of_nat 160) "").

Definition undecodable_body : string := String (ascii_of_nat 255) "abc".

(** An interpreter that refuses a body starting with 0xFF and prints seven
    lines of traceback. *)
Definition runtime : Runtime := {|
  decode_utf8 := fun body =>
    match body with
    | String c _ =>
        if (nat_of_ascii c =? 255)%nat then inl "invalid start byte"
        else inr body
    | EmptyString => inr body
    end;
  format_exc_lines := fun _ =>
    ["Traceback (most recent call last):"; "line 2"; "line 3"; "line 4";
     "line 5"; "line 6"; "ValueError"]
|}.

(** Submissions: one with a subject and two domains, one without a
    record, one whose record is null. *)
Definition body_with_domains : list (string * value) :=
  [ ("curator", JStr "ana");
    ("fairsharing_record",
     JDict [ ("name", JStr "Record");
             ("subject_ids", JList [JStr "http://s/1"]);
             ("domain_ids", JList [JStr "http://d/1"; JStr "http://d/2"]) ]) ].

Definition body_without_record : list (string * value) :=
  [ ("curator", JStr "ana") ].

Definition body_null_record : list (string * value) :=
  [ ("curator", JStr "ana"); ("fairsharing_record", JNull) ].

Definition tape_none_resolves : list (exn + response) :=
  [ Scripted.answer "searchSubjects" [];
    Scripted.answer "searchSubjects" [];
    Scripted.signed_in; Scripted.recorded ].

Definition unprocessable : exn + response :=
  Scripted.ok 422 (JDict [("error", JStr "name has already been taken")]).

Definition tape_refused : list (exn + response) :=
  [ Scripted.answer "searchSubjects" [];
    Scripted.answer "searchSubjects" [Scripted.entry (JNum 42) "http://x/2"];
    Scripted.signed_in; unprocessable ].

Definition tape_domains : list (exn + response) :=
  [ Scripted.answer "searchSubjects" [];
    Scripted.answer "searchDomains" [Scripted.entry (JNum 5) "http://d/1"];
    Scripted.answer "searchDomains" [Scripted.entry (JNum 6) "http://d/2"];
    Scripted.signed_in; Scripted.recorded ].

End Cases.

Module Answer.

(** [answer.get(key, {}).get("html_url")] on the body of the store's answer
    to the write, for an answer on which the two [get] do not raise. *)
Definition html_url_of (key : string) (put : response) : value :=
  match json put with
  | Some (JDict body) =>
      match dict_get key body with
      | Some (JDict entry) =>
          match dict_get "html_url" entry with
          | Some url => url
          | None => JNull
          end
      | _ => JNull
      end
  | _ => JNull
  end.

(** The three shapes of what a commit has sent: nothing, the read, or the
    read and then the write to the same URL. *)
Definition commit_trace {platform : Platform} (new : list request) : Prop :=
  new = [] \/
  (exists url, new = [get_request url]) \/
  (exists url payload, new = [get_request url; put_request url payload]).

End Answer.

Module Flow.

(** The identifiers under a key of a record: the elements of a list, and
    nothing for a missing key or another kind of value. *)
Definition ids_of (key : string) (record : list (string * value)) : list value :=
  match dict_get key record with
  | Some (JList iris) => iris
  | _ => []
  end.

(** What [submit_record] sends after the resolver's queries: nothing, the
    login, or the login followed by one post to the data endpoint. *)
Definition submission_tail {platform : Platform} (rest : list request) : Prop :=
  rest = [] \/
  (exists auth_url, rest = [auth_request auth_url]) \/
  (exists auth_url data_url token payload,
     rest = [auth_request auth_url; data_request data_url token payload]).

End Flow.

(* ================================================================== *)
(** * Properties                                                       *)
(* ================================================================== *)

(** ** The payload sanitizer *)

Section SanitizerFacts.

Lemma remove_empty_JDict (m : list (string * value)) :
  remove_empty (JDict m) = JDict (kept_items m).
Proof.
  unfold kept_items. simpl. f_equal.
  induction m as [|[k v] m IH]; simpl; [reflexivity|].
  destruct (negb (in_empties v) && ne_empty_dict (remove_empty v));
    simpl; now rewrite IH.
Qed.

Lemma remove_empty_JList (l : list value) :
  remove_empty (JList l) = JList (filter ne_empty_dict (cleaned_elements l)).
Proof.
  unfold cleaned_elements. simpl. do 2 f_equal.
  induction l as [|v l IH]; simpl; [reflexivity|].
  destruct (negb (in_empties v)); simpl; now rewrite IH.
Qed.

Lemma is_blank_in_empties (v : value) : is_blank v = in_empties v.
Proof. destruct v as [| | |s|l|m]; try reflexivity; now destruct s. Qed.

Lemma is_empty_mapping_ne (v : value) :
  is_empty_mapping v = negb (ne_empty_dict v).
Proof. destruct v as [| | | |l|m]; try reflexivity; now destruct m. Qed.

(** C5. On a mapping, a sequence and a scalar [remove_empty] does what the
    specification describes: it agrees everywhere with [sanitize], the
    transcription of the specification's three rules (drop a key whose
    original value is null, the empty string, the empty sequence or the
    empty mapping, or whose sanitized value is the empty mapping; drop such
    elements of a sequence before recursing and elements sanitized to the
    empty mapping afterwards; leave scalars alone). *)
Theorem remove_empty_meets_spec (x : value) : remove_empty x = sanitize x.
Proof.
  induction x as [| b | n | s | l IH | m IH] using Json.value_ind;
    try reflexivity.
  - rewrite remove_empty_JList. unfold cleaned_elements. simpl sanitize.
    f_equal.
    assert (E : flat_map (fun v => if negb (in_empties v)
                                   then [remove_empty v] else []) l
                = flat_map (fun x => if is_blank x then [] else [sanitize x]) l).
    { induction IH as [|v l Hv _ IHl]; simpl; [reflexivity|].
      rewrite IHl, <- (is_blank_in_empties v), Hv.
      now destruct (is_blank v). }
    rewrite E. apply filter_ext. intro y.
    rewrite is_empty_mapping_ne. now rewrite negb_involutive.
  - rewrite remove_empty_JDict. unfold kept_items. simpl sanitize. f_equal.
    induction IH as [|[k v] m Hv _ IHm]; simpl; [reflexivity|].
    simpl in Hv. rewrite IHm, <- (is_blank_in_empties v), Hv.
    rewrite (is_empty_mapping_ne (sanitize v)).
    destruct (is_blank v); simpl; [reflexivity|].
    now destruct (ne_empty_dict (sanitize v)).
Qed.

(** *** Idempotence *)

Lemma no_empty_list_inside_JList (l : list value) :
  no_empty_list_inside (JList l)
  = forallb (fun x => negb (is_empty_list x) && no_empty_list_inside x) l.
Proof.
  simpl. induction l as [|x l IH]; simpl; [reflexivity|]. now rewrite IH.
Qed.

Lemma no_empty_list_inside_JDict (m : list (string * value)) :
  no_empty_list_inside (JDict m)
  = forallb (fun kv => negb (is_empty_list (snd kv))
                       && no_empty_list_inside (snd kv)) m.
Proof.
  simpl. induction m as [|x m IH]; simpl; [reflexivity|]. now rewrite IH.
Qed.

Lemma size_JList (l : list value) :
  size (JList l) = S (list_sum (map size l)).
Proof.
  simpl. f_equal. induction l as [|x l IH]; simpl; [reflexivity|].
  now rewrite IH.
Qed.

Lemma size_JDict (m : list (string * value)) :
  size (JDict m) = S (list_sum (map (fun kv => size (snd kv)) m)).
Proof.
  simpl. f_equal. induction m as [|x m IH]; simpl; [reflexivity|].
  now rewrite IH.
Qed.

Lemma size_pos (v : value) : 1 <= size v.
Proof. destruct v; simpl; lia. Qed.

(** What survives one pass is never null, the empty string or the empty
    mapping; only the empty sequence can reappear. *)
Lemma survivor_not_blank (v : value) :
  in_empties v = false ->
  ne_empty_dict (remove_empty v) = true ->
  is_empty_list (remove_empty v) = false ->
  in_empties (remove_empty v) = false.
Proof.
  destruct v as [| b | n | s | l | m]; try (intros H _ _; exact H).
  - rewrite remove_empty_JList. intros _ _ H.
    destruct (filter ne_empty_dict (cleaned_elements l)); [discriminate H|].
    reflexivity.
  - rewrite remove_empty_JDict. intros _ H _.
    destruct (kept_items m); [discriminate H|]. reflexivity.
Qed.

Lemma cleaned_elements_fixed (l : list value) :
  Forall (fun v => no_empty_list_inside (remove_empty v) = true ->
                   remove_empty (remove_empty v) = remove_empty v) l ->
  forallb (fun x => negb (is_empty_list x) && no_empty_list_inside x)
          (filter ne_empty_dict (cleaned_elements l)) = true ->
  filter ne_empty_dict (cleaned_elements (filter ne_empty_dict (cleaned_elements l)))
  = filter ne_empty_dict (cleaned_elements l).
Proof.
  unfold cleaned_elements.
  induction 1 as [|v l Hv _ IHl]; simpl; [reflexivity|].
  destruct (in_empties v) eqn:Ev; simpl; [exact IHl|].
  destruct (ne_empty_dict (remove_empty v)) eqn:En; simpl; [|exact IHl].
  intros H. apply andb_prop in H as [H Hrest].
  apply andb_prop in H as [Hl Hin]. apply negb_true_iff in Hl.
  rewrite (survivor_not_blank v Ev En Hl). simpl.
  rewrite (Hv Hin), En. f_equal. now apply IHl.
Qed.

Lemma kept_items_fixed (m : list (string * value)) :
  Forall (fun kv => no_empty_list_inside (remove_empty (snd kv)) = true ->
                    remove_empty (remove_empty (snd kv)) = remove_empty (snd kv))
         m ->
  forallb (fun kv => negb (is_empty_list (snd kv))
                     && no_empty_list_inside (snd kv)) (kept_items m) = true ->
  kept_items (kept_items m) = kept_items m.
Proof.
  unfold kept_items.
  induction 1 as [|[k v] m Hv _ IHm]; simpl; [reflexivity|].
  simpl in Hv.
  destruct (in_empties v) eqn:Ev; simpl; [exact IHm|].
  destruct (ne_empty_dict (remove_empty v)) eqn:En; simpl; [|exact IHm].
  intros H. apply andb_prop in H as [H Hrest].
  apply andb_prop in H as [Hl Hin]. apply negb_true_iff in Hl.
  rewrite (survivor_not_blank v Ev En Hl). simpl.
  rewrite (Hv Hin), En. simpl. f_equal. now apply IHm.
Qed.

(** A sanitized value without an empty sequence inside is a fixed point. *)
Lemma remove_empty_fixed (x : value) :
  no_empty_list_inside (remove_empty x) = true ->
  remove_empty (remove_empty x) = remove_empty x.
Proof.
  induction x as [| b | n | s | l IH | m IH] using Json.value_ind;
    try reflexivity.
  - rewrite remove_empty_JList, no_empty_list_inside_JList, remove_empty_JList.
    intros H. f_equal. now apply cleaned_elements_fixed.
  - rewrite remove_empty_JDict, no_empty_list_inside_JDict, remove_empty_JDict.
    intros H. f_equal. now apply kept_items_fixed.
Qed.

(** One pass never grows a value, and it shrinks a value that has an empty
    sequence inside. *)
Lemma cleaned_elements_size (l : list value) :
  Forall (fun v => size (remove_empty v) <= size v) l ->
  list_sum (map size (filter ne_empty_dict (cleaned_elements l)))
  <= list_sum (map size l).
Proof.
  unfold cleaned_elements.
  induction 1 as [|v l Hv _ IHl]; simpl; [lia|].
  destruct (in_empties v); simpl; [lia|].
  destruct (ne_empty_dict (remove_empty v)); simpl; lia.
Qed.

Lemma kept_items_size (m : list (string * value)) :
  Forall (fun kv => size (remove_empty (snd kv)) <= size (snd kv)) m ->
  list_sum (map (fun kv => size (snd kv)) (kept_items m))
  <= list_sum (map (fun kv => size (snd kv)) m).
Proof.
  unfold kept_items.
  induction 1 as [|[k v] m Hv _ IHm]; simpl; [lia|].
  simpl in Hv.
  destruct (in_empties v); simpl; [lia|].
  destruct (ne_empty_dict (remove_empty v)); simpl; lia.
Qed.

Lemma size_remove_empty_le (x : value) : size (remove_empty x) <= size x.
Proof.
  induction x as [| b | n | s | l IH | m IH] using Json.value_ind;
    try (simpl; lia).
  - rewrite remove_empty_JList, !size_JList.
    apply le_n_S. now apply cleaned_elements_size.
  - rewrite remove_empty_JDict, !size_JDict.
    apply le_n_S. now apply kept_items_size.
Qed.

Lemma cleaned_elements_shrinks (l : list value) :
  Forall (fun v => no_empty_list_inside v = false ->
                   size (remove_empty v) < size v) l ->
  forallb (fun x => negb (is_empty_list x) && no_empty_list_inside x) l = false ->
  list_sum (map size (filter ne_empty_dict (cleaned_elements l)))
  < list_sum (map size l).
Proof.
  induction 1 as [|v l Hv _ IHl]; simpl; [discriminate|].
  intros H.
  assert (Hrest : list_sum (map size (filter ne_empty_dict (cleaned_elements l)))
                  <= list_sum (map size l)).
  { apply cleaned_elements_size, Forall_forall.
    intros y _. apply size_remove_empty_le. }
  pose proof (size_remove_empty_le v) as Hle.
  pose proof (size_pos v) as Hpos.
  unfold cleaned_elements in *. simpl.
  apply andb_false_iff in H as [H | H].
  - apply andb_false_iff in H as [H | H].
    + apply negb_false_iff in H.
      destruct v as [| | | |[|? ?]|]; try discriminate H. simpl. lia.
    + specialize (Hv H).
      destruct (in_empties v); simpl; [lia|].
      destruct (ne_empty_dict (remove_empty v)); simpl; lia.
  - specialize (IHl H).
    destruct (in_empties v); simpl; [lia|].
    destruct (ne_empty_dict (remove_empty v)); simpl; lia.
Qed.

Lemma kept_items_shrinks (m : list (string * value)) :
  Forall (fun kv => no_empty_list_inside (snd kv) = false ->
                    size (remove_empty (snd kv)) < size (snd kv)) m ->
  forallb (fun kv => negb (is_empty_list (snd kv))
                     && no_empty_list_inside (snd kv)) m = false ->
  list_sum (map (fun kv => size (snd kv)) (kept_items m))
  < list_sum (map (fun kv => size (snd kv)) m).
Proof.
  induction 1 as [|[k v] m Hv _ IHm]; simpl; [discriminate|].
  intros H. simpl in Hv.
  assert (Hrest : list_sum (map (fun kv => size (snd kv)) (kept_items m))
                  <= list_sum (map (fun kv => size (snd kv)) m)).
  { apply kept_items_size, Forall_forall.
    intros y _. apply size_remove_empty_le. }
  pose proof (size_remove_empty_le v) as Hle.
  pose proof (size_pos v) as Hpos.
  unfold kept_items in *. simpl.
  apply andb_false_iff in H as [H | H].
  - apply andb_false_iff in H as [H | H].
    + apply negb_false_iff in H.
      destruct v as [| | | |[|? ?]|]; try discriminate H. simpl. lia.
    + specialize (Hv H).
      destruct (in_empties v); simpl; [lia|].
      destruct (ne_empty_dict (remove_empty v)); simpl; lia.
  - specialize (IHm H).
    destruct (in_empties v); simpl; [lia|].
    destruct (ne_empty_dict (remove_empty v)); simpl; lia.
Qed.

Lemma size_remove_empty_lt (y : value) :
  no_empty_list_inside y = false -> size (remove_empty y) < size y.
Proof.
  induction y as [| b | n | s | l IH | m IH] using Json.value_ind;
    try discriminate.
  - rewrite no_empty_list_inside_JList, remove_empty_JList, !size_JList.
    intros H. apply -> Nat.succ_lt_mono. now apply cleaned_elements_shrinks.
  - rewrite no_empty_list_inside_JDict, remove_empty_JDict, !size_JDict.
    intros H. apply -> Nat.succ_lt_mono. now apply kept_items_shrinks.
Qed.

(** C2, as the code has it.  Sanitizing twice gives the same as sanitizing
    once exactly when the sanitized value has no empty sequence left as an
    element of a sequence or as a value of a mapping. *)
Theorem remove_empty_idempotent_iff (x : value) :
  remove_empty (remove_empty x) = remove_empty x
  <-> no_empty_list_inside (remove_empty x) = true.
Proof.
  split.
  - intros Hfix.
    destruct (no_empty_list_inside (remove_empty x)) eqn:E; [reflexivity|].
    apply size_remove_empty_lt in E. rewrite Hfix in E. lia.
  - apply remove_empty_fixed.
Qed.

(** In particular the sanitizer is idempotent on values without
    sequences. *)
Lemma list_free_JDict (m : list (string * value)) :
  list_free (JDict m) = forallb (fun kv => list_free (snd kv)) m.
Proof.
  simpl. induction m as [|kv m IH]; simpl; [reflexivity|]. now rewrite IH.
Qed.

Lemma list_free_no_empty_list (y : value) :
  list_free y = true -> no_empty_list_inside y = true.
Proof.
  induction y as [| b | n | s | l IH | m IH] using Json.value_ind;
    try reflexivity; [discriminate|].
  rewrite list_free_JDict, no_empty_list_inside_JDict.
  induction IH as [|[k v] m Hv _ IHm]; simpl; [reflexivity|].
  intros H. apply andb_prop in H as [Hfree Hrest]. simpl in Hv.
  rewrite (Hv Hfree), (IHm Hrest).
  destruct v; try reflexivity; discriminate Hfree.
Qed.

Lemma list_free_remove_empty (x : value) :
  list_free x = true -> list_free (remove_empty x) = true.
Proof.
  induction x as [| b | n | s | l IH | m IH] using Json.value_ind;
    try reflexivity; [discriminate|].
  rewrite remove_empty_JDict, !list_free_JDict. unfold kept_items.
  induction IH as [|[k v] m Hv _ IHm]; simpl; [reflexivity|].
  intros H. apply andb_prop in H as [Hfree Hrest]. simpl in Hv.
  destruct (negb (in_empties v) && ne_empty_dict (remove_empty v)); simpl.
  - now rewrite (Hv Hfree), (IHm Hrest).
  - now apply IHm.
Qed.

Corollary remove_empty_idempotent_list_free (x : value) :
  list_free x = true -> remove_empty (remove_empty x) = remove_empty x.
Proof.
  intros H. apply remove_empty_fixed, list_free_no_empty_list.
  now apply list_free_remove_empty.
Qed.

(** C2, as the claim has it, fails: a mapping whose only value is a
    sequence holding a null is sanitized to a mapping with an empty
    sequence, and that one to the empty mapping. *)
Lemma remove_empty_not_idempotent :
  remove_empty Scripted.only_nulls = JDict [("subject_ids", JList [])] /\
  remove_empty (remove_empty Scripted.only_nulls) = JDict [] /\
  remove_empty (remove_empty Scripted.only_nulls)
  <> remove_empty Scripted.only_nulls.
Proof.
  repeat split. discriminate.
Qed.

End SanitizerFacts.

(** ** The RDF identity extractor *)

Section ExtractorFacts.
Context {platform : Platform}.

Lemma node_eqb_eq (a b : node) : node_eqb a b = true <-> a = b.
Proof.
  destruct a, b; simpl; try (split; [discriminate | intros H; discriminate H]);
    rewrite String.eqb_eq; split; intros H; congruence.
Qed.


Lemma first_uri_subject_none (ts : list triple) :
  (forall u p o, ~ In (URIRef u, p, o) ts) -> first_uri_subject ts = None.
Proof.
  induction ts as [|[[s p] o] ts IH]; simpl; [reflexivity|].
  intros H. destruct s as [iri | label | lexical].
  - exfalso. apply (H iri p o). now left.
  - apply IH. intros u p' o' Hin. apply (H u p' o'). now right.
  - apply IH. intros u p' o' Hin. apply (H u p' o'). now right.
Qed.

Lemma triples_with_predicate_In (p : node) (g : graph) (s q o : node) :
  In (s, q, o) (triples_with_predicate p g) <-> In (s, q, o) g /\ q = p.
Proof.
  unfold triples_with_predicate. rewrite filter_In. simpl.
  now rewrite node_eqb_eq.
Qed.


Lemma from_end_last (front : list string) (cat file : string) :
  from_end (front ++ [cat; file])%list 1 = file.
Proof.
  unfold from_end. rewrite length_app. simpl.
  replace (List.length front + 2 - 1) with (List.length front + 1) by lia.
  rewrite app_nth2 by lia.
  replace (List.length front + 1 - List.length front) with 1 by lia.
  reflexivity.
Qed.

Lemma from_end_before_last (front : list string) (cat file : string) :
  from_end (front ++ [cat; file])%list 2 = cat.
Proof.
  unfold from_end. rewrite length_app. simpl.
  replace (List.length front + 2 - 2) with (List.length front) by lia.
  rewrite app_nth2 by lia. now rewrite Nat.sub_diag.
Qed.

(** Without a line feed in the file name, [$] can only match at its end,
    and the substitution is the removal of the suffix. *)
Lemma re_sub_ttl_strips_suffix (file : string) :
  Str.has_char Str.LF file = false ->
  Str.re_sub_ttl file = Str.strip_ttl_suffix file.
Proof.
  unfold Str.has_char, Str.re_sub_ttl, Str.strip_ttl_suffix. intros H.
  destruct (Str.ends_dot_ttl (rev (list_ascii_of_string file))); [reflexivity|].
  destruct (rev (list_ascii_of_string file)) as [|c r] eqn:E; [reflexivity|].
  destruct (Ascii.eqb c Str.LF) eqn:Ec; [|reflexivity].
  exfalso. apply Ascii.eqb_eq in Ec. subst c.
  assert (Hin : In Str.LF (list_ascii_of_string file)).
  { apply in_rev. rewrite E. now left. }
  assert (Hex : existsb (Ascii.eqb Str.LF) (list_ascii_of_string file) = true).
  { apply existsb_exists. exists Str.LF. split; [exact Hin|].
    apply Ascii.eqb_refl. }
  congruence.
Qed.

Lemma list_ascii_of_string_app (a b : string) :
  list_ascii_of_string (a ++ b)
  = (list_ascii_of_string a ++ list_ascii_of_string b)%list.
Proof. induction a as [|c a IH]; simpl; [reflexivity|]. now rewrite IH. Qed.

Lemma strip_ttl_suffix_extension (id ext : string) :
  Str.is_ttl_extension ext = true -> Str.strip_ttl_suffix (id ++ ext) = id.
Proof.
  destruct ext as [|c1 [|c2 [|c3 [|c4 [|? ?]]]]]; try discriminate.
  unfold Str.strip_ttl_suffix, Str.is_ttl_extension. intros H.
  rewrite list_ascii_of_string_app, rev_app_distr. simpl.
  unfold Str.ends_dot_ttl. rewrite H.
  now rewrite rev_involutive, string_of_list_ascii_of_string.
Qed.

Lemma extract_after_parse (rdf_text : string) (g : graph) (uri path : string) :
  turtle_parse rdf_text = inr g ->
  first_uri_subject (triples_with_predicate DCTERMS_identifier g) = Some uri ->
  urlparse_path uri = inr path ->
  _extract_record_info rdf_text
  = if (List.length (path_parts path) <? 2)%nat
    then inl (HTTPException 400
                ("URI '" ++ uri ++ "' is malformed or missing path structure."))
    else inr (Str.re_sub_ttl (from_end (path_parts path) 1),
              from_end (path_parts path) 2, uri).
Proof.
  intros Hparse Hfirst Hpath. unfold _extract_record_info.
  now rewrite Hparse, Hfirst, Hpath.
Qed.


End ExtractorFacts.

(** The steps of the extractor on the URI of scenario 1, and the two
    positions at which [$] matches. *)
Example path_parts_of_record :
  path_parts "/records/survey/item123.ttl" = ["records"; "survey"; "item123.ttl"].
Proof. reflexivity. Qed.

Example re_sub_ttl_upper_case : Str.re_sub_ttl "item123.TTL" = "item123".
Proof. reflexivity. Qed.

Example re_sub_ttl_inner : Str.re_sub_ttl "item.ttl.bak" = "item.ttl.bak".
Proof. reflexivity. Qed.

Example re_sub_ttl_before_final_line_feed :
  Str.re_sub_ttl ("item.ttl" ++ Str.nl) = "item" ++ Str.nl /\
  Str.strip_ttl_suffix ("item.ttl" ++ Str.nl) = "item.ttl" ++ Str.nl.
Proof. split; reflexivity. Qed.


Section RejectionFacts.
Context {platform : Platform}.

Lemma commit_stops_at_extraction (rdf_text : string) (e : exn) :
  _extract_record_info rdf_text = inl e -> fails_offline rdf_text e.
Proof.
  intros He s. unfold commit_rdf_to_github.
  destruct (env_truthy GITHUB_TOKEN); simpl.
  - exists e. rewrite He. split; [reflexivity | trivial].
  - eexists. split; [reflexivity | discriminate].
Qed.

(** C9. For a document that parses: without a Dublin Core identifier
    triple on a URI subject the extractor raises the 400 error "No valid
    identifier or subject URI found in RDF."; when the path of the chosen
    subject has fewer than two non-empty segments it raises the 400 error
    "URI ... is malformed or missing path structure."; and in both cases
    the push flow stops without having sent any request. *)
Theorem extraction_rejects (rdf_text : string) (g : graph) :
  turtle_parse rdf_text = inr g ->
  ((forall u o, ~ In (URIRef u, DCTERMS_identifier, o) g) ->
   let e := HTTPException 400
              "No valid identifier or subject URI found in RDF." in
   _extract_record_info rdf_text = inl e /\ fails_offline rdf_text e)
  /\
  (forall uri path,
     first_uri_subject (triples_with_predicate DCTERMS_identifier g) = Some uri ->
     urlparse_path uri = inr path ->
     List.length (path_parts path) < 2 ->
     let e := HTTPException 400
                ("URI '" ++ uri ++ "' is malformed or missing path structure.") in
     _extract_record_info rdf_text = inl e /\ fails_offline rdf_text e).
Proof.
  intros Hparse. split.
  - intros Hnone e.
    assert (E : _extract_record_info rdf_text = inl e).
    { unfold _extract_record_info. rewrite Hparse.
      rewrite first_uri_subject_none; [reflexivity|].
      intros u p o Hin. apply triples_with_predicate_In in Hin as [Hin ->].
      exact (Hnone u o Hin). }
    split; [exact E | now apply commit_stops_at_extraction].
  - intros uri path Hfirst Hpath Hlen e.
    assert (E : _extract_record_info rdf_text = inl e).
    { rewrite (extract_after_parse rdf_text g uri path Hparse Hfirst Hpath).
      apply Nat.ltb_lt in Hlen. now rewrite Hlen. }
    split; [exact E | now apply commit_stops_at_extraction].
Qed.

End RejectionFacts.

Lemma extraction_rejects_witness :
  @_extract_record_info Scripted.platform Scripted.doc_no_identifier
  = inl (HTTPException 400 "No valid identifier or subject URI found in RDF.")
  /\
  @_extract_record_info Scripted.platform Scripted.doc_short_path
  = inl (HTTPException 400
           "URI 'https://example.org/item123.ttl' is malformed or missing path structure.")
  /\
  @commit_rdf_to_github Scripted.platform Scripted.doc_short_path ([], [])
  = (inl (HTTPException 400
            "URI 'https://example.org/item123.ttl' is malformed or missing path structure."),
     ([], [])).
Proof.
  split; [| split].
  - refine (proj1 (proj1 (@extraction_rejects Scripted.platform
                            Scripted.doc_no_identifier _ eq_refl) _)).
    intros u o [E | []]. discriminate E.
  - refine (proj1 (proj2 (@extraction_rejects Scripted.platform
                            Scripted.doc_short_path _ eq_refl)
                     "https://example.org/item123.ttl" "/item123.ttl"
                     eq_refl eq_refl _)).
    simpl. lia.
  - reflexivity.
Defined.

(** ** The content store *)

Ltac run_monad :=
  cbv beta iota delta
    [bind ret raise try_except client_request client_send
     raise_for_status response_json py_get py_getitem] in *.

Section GithubFacts.
Context {platform : Platform}.

(** After the [PUT] nothing more is sent, and a returned dictionary names
    the action after the truth value of [sha]. *)
Lemma commit_result_spec (record_id category : string) (sha : value)
    (put : response) (s : state) :
  exists outcome,
    commit_result record_id category sha put s = (outcome, s) /\
    (forall res, outcome = inr res ->
       get_field "action" res
       = Some (JStr (if truthy sha then "update" else "create"))).
Proof.
  unfold commit_result. run_monad.
  destruct ((200 <=? status_code put)%Z && (status_code put <=? 299)%Z);
    [|eexists; split; [reflexivity | discriminate]].
  destruct (json put) as [commit_data|];
    [|eexists; split; [reflexivity | discriminate]].
  destruct commit_data as [| | | | |cd];
    try (eexists; split; [reflexivity | discriminate]).
  destruct (match dict_get "commit" cd with Some v => v | None => JDict [] end)
    as [| | | | |c]; try (eexists; split; [reflexivity | discriminate]).
  destruct (match dict_get "content" cd with Some v => v | None => JDict [] end)
    as [| | | | |ct]; try (eexists; split; [reflexivity | discriminate]).
  eexists; split; [reflexivity|]. intros res [= <-]. reflexivity.
Qed.

Lemma commit_handler_raises (e : exn) (s : state) :
  exists detail, commit_handler e s = (inl (HTTPException 500 detail), s).
Proof.
  unfold commit_handler, raise. destruct (is_httpx_HTTPError e); eauto.
Qed.

(** The [sha] entry of the [PUT] body. *)
Lemma put_payload_sha (rdf_text record_id category : string) (sha : value) :
  get_field "sha" (put_payload rdf_text record_id category sha)
  = if truthy sha then Some sha else None.
Proof. unfold put_payload. now destruct (truthy sha). Qed.

(** From a preflight that yields [sha] to the end of the commit. *)
Lemma commit_after_preflight (rdf_text record_id category uri : string)
    (sha : value) (w w1 : World) (sent : list request) :
  env_truthy GITHUB_TOKEN = true ->
  _extract_record_info rdf_text = inr (record_id, category, uri) ->
  let url := contents_url (store_path record_id category) in
  preflight url (w, sent) = (inr sha, (w1, (sent ++ [get_request url])%list)) ->
  let put := put_request url (put_payload rdf_text record_id category sha) in
  exists outcome,
    commit_rdf_to_github rdf_text (w, sent)
    = (outcome, (snd (send put w1), (sent ++ [get_request url; put])%list)) /\
    (forall res, outcome = inr res ->
       get_field "action" res
       = Some (JStr (if truthy sha then "update" else "create"))).
Proof.
  intros Hcfg Hext url Hpre put.
  unfold commit_rdf_to_github. rewrite Hcfg, Hext.
  change (negb (true && Str.nonempty GITHUB_OWNER && Str.nonempty GITHUB_REPO))
    with false.
  fold url. unfold try_except, bind at 1. cbv beta iota. rewrite Hpre.
  unfold bind at 1, client_send. fold put.
  destruct (send put w1) as [[e | resp] w2] eqn:Hput; simpl snd.
  - destruct (commit_handler_raises e (w2, ((sent ++ [get_request url]) ++ [put])%list))
      as [detail Hd].
    rewrite Hd, <- app_assoc. simpl app.
    eexists; split; [reflexivity | discriminate].
  - destruct (commit_result_spec record_id category sha resp
                (w2, ((sent ++ [get_request url]) ++ [put])%list))
      as (outcome & Hrun & Haction).
    rewrite Hrun, <- app_assoc. simpl app.
    destruct outcome as [e | res].
    + destruct (commit_handler_raises e (w2, (sent ++ [get_request url; put])%list))
        as [detail Hd].
      rewrite Hd. eexists; split; [reflexivity | discriminate].
    + eexists; split; [reflexivity | exact Haction].
Qed.

(** *** The stored file is [{category}/{record_id}.ttl] *)

Lemma split_pieces_have_no_separator (sep : ascii) (s piece : string) :
  In piece (Str.split sep s) -> Str.has_char sep piece = false.
Proof.
  unfold Str.has_char. revert piece.
  induction s as [|c r IH]; simpl; intros piece Hin.
  - destruct Hin as [<- | []]. reflexivity.
  - destruct (Ascii.eqb c sep) eqn:Ec.
    + destruct Hin as [<- | Hin]; [reflexivity | now apply IH].
    + destruct (Str.split sep r) as [|h t].
      * destruct Hin as [<- | []]. simpl.
        rewrite Ascii.eqb_sym, Ec. reflexivity.
      * destruct Hin as [<- | Hin].
        -- simpl. rewrite Ascii.eqb_sym, Ec. simpl. apply IH. now left.
        -- apply IH. now right.
Qed.

Lemma drop_leading_absent (c : ascii) (l : list ascii) :
  existsb (Ascii.eqb c) l = false -> Str.drop_leading c l = l.
Proof.
  destruct l as [|x l]; simpl; [reflexivity|].
  intros H. apply orb_false_iff in H as [H _].
  rewrite Ascii.eqb_sym in H. now rewrite H.
Qed.

Lemma rstrip_absent (c : ascii) (s : string) :
  Str.has_char c s = false -> Str.rstrip c s = s.
Proof.
  unfold Str.has_char, Str.rstrip. intros H.
  rewrite drop_leading_absent.
  - now rewrite rev_involutive, string_of_list_ascii_of_string.
  - destruct (existsb (Ascii.eqb c) (rev (list_ascii_of_string s))) eqn:E;
      [|reflexivity].
    apply existsb_exists in E as (x & Hin & Hx). apply in_rev in Hin.
    assert (Hex : existsb (Ascii.eqb c) (list_ascii_of_string s) = true)
      by (apply existsb_exists; eauto).
    congruence.
Qed.

Lemma from_end_In (l : list string) (k : nat) :
  1 <= k <= List.length l -> In (from_end l k) l.
Proof. intros H. unfold from_end. apply nth_In. lia. Qed.

(** What a successful extraction returned. *)
Lemma extract_success_inv (rdf_text record_id category uri : string) :
  _extract_record_info rdf_text = inr (record_id, category, uri) ->
  exists path,
    urlparse_path uri = inr path /\
    2 <= List.length (path_parts path) /\
    record_id = Str.re_sub_ttl (from_end (path_parts path) 1) /\
    category = from_end (path_parts path) 2.
Proof.
  unfold _extract_record_info.
  destruct (turtle_parse rdf_text) as [msg | g]; [discriminate|].
  destruct (first_uri_subject _) as [u|]; [|discriminate].
  destruct (urlparse_path u) as [msg | path] eqn:Hpath; [discriminate|].
  destruct (List.length (path_parts path) <? 2)%nat eqn:Hlen; [discriminate|].
  intros [= <- <- <-]. exists path. apply Nat.ltb_ge in Hlen. auto.
Qed.

Lemma store_path_of_extracted (rdf_text record_id category uri : string) :
  _extract_record_info rdf_text = inr (record_id, category, uri) ->
  store_path record_id category = category ++ "/" ++ record_id ++ ".ttl".
Proof.
  intros H. apply extract_success_inv in H as (path & _ & Hlen & _ & ->).
  unfold store_path. rewrite rstrip_absent; [reflexivity|].
  apply (split_pieces_have_no_separator "/" path).
  assert (Hin : In (from_end (path_parts path) 2) (path_parts path))
    by (apply from_end_In; lia).
  unfold path_parts in Hin. now apply filter_In in Hin as [Hin _].
Qed.

(** *** The preflight read *)

Lemma preflight_found (url : string) (pre : response)
    (body : list (string * value)) (w w1 : World) (sent : list request) :
  send (get_request url) w = (inr pre, w1) ->
  status_code pre = 200%Z ->
  json pre = Some (JDict body) ->
  preflight url (w, sent)
  = (inr (match dict_get "sha" body with Some v => v | None => JNull end),
     (w1, (sent ++ [get_request url])%list)).
Proof.
  intros Hsend Hstatus Hjson. unfold preflight. run_monad.
  now rewrite Hsend, Hstatus, Hjson.
Qed.

Lemma preflight_absent (url : string) (pre : response)
    (w w1 : World) (sent : list request) :
  send (get_request url) w = (inr pre, w1) ->
  status_code pre = 404%Z ->
  preflight url (w, sent) = (inr JNull, (w1, (sent ++ [get_request url])%list)).
Proof.
  intros Hsend Hstatus. unfold preflight. run_monad.
  now rewrite Hsend, Hstatus.
Qed.

Lemma preflight_other (url : string) (pre : response)
    (w w1 : World) (sent : list request) :
  send (get_request url) w = (inr pre, w1) ->
  status_code pre <> 200%Z -> status_code pre <> 404%Z ->
  preflight url (w, sent)
  = (inl (HTTPException 500 ("GitHub preflight failed: " ++ text pre)),
     (w1, (sent ++ [get_request url])%list)).
Proof.
  intros Hsend H200 H404. unfold preflight. run_monad. rewrite Hsend.
  apply Z.eqb_neq in H200, H404. now rewrite H200, H404.
Qed.

Lemma commit_result_accepted (record_id category : string) (sha : value)
    (put : response) (s : state) :
  write_accepted put = true ->
  exists res, commit_result record_id category sha put s = (inr res, s).
Proof.
  unfold write_accepted, commit_result. run_monad. intros H.
  apply andb_prop in H as [Hstatus H]. rewrite Hstatus.
  destruct (json put) as [[| | | | |cd]|]; try discriminate H.
  apply andb_prop in H as [Hc Ht].
  destruct (dict_get "commit" cd) as [[| | | | |c]|]; try discriminate Hc;
    destruct (dict_get "content" cd) as [[| | | | |t]|]; try discriminate Ht;
    eexists; reflexivity.
Qed.

Lemma commit_preflight_raises (rdf_text record_id category uri : string)
    (e : exn) (w w1 : World) (sent sent1 : list request) :
  env_truthy GITHUB_TOKEN = true ->
  _extract_record_info rdf_text = inr (record_id, category, uri) ->
  preflight (contents_url (store_path record_id category)) (w, sent)
  = (inl e, (w1, sent1)) ->
  exists detail,
    commit_rdf_to_github rdf_text (w, sent)
    = (inl (HTTPException 500 detail), (w1, sent1)).
Proof.
  intros Hcfg Hext Hpre.
  unfold commit_rdf_to_github. rewrite Hcfg, Hext.
  change (negb (true && Str.nonempty GITHUB_OWNER && Str.nonempty GITHUB_REPO))
    with false.
  unfold try_except, bind at 1. cbv beta iota. rewrite Hpre.
  apply commit_handler_raises.
Qed.

(** C3, as the code has it.  With the configuration present and the
    identity extracted, the commit first reads
    [{category}/{record_id}.ttl].  If the read reports 200 and its body is
    an object with a [sha] that counts as true, the write that follows
    carries that [sha] and a returned result has the action "update".  If
    the read reports 404, the write carries no [sha] and a returned result
    has the action "create".  On any other status the commit raises a 500
    error and only the read has been sent. *)
Theorem commit_follows_preflight
    (rdf_text record_id category uri : string) (pre : response)
    (w w1 : World) (sent : list request) :
  env_truthy GITHUB_TOKEN = true ->
  _extract_record_info rdf_text = inr (record_id, category, uri) ->
  let url := contents_url (category ++ "/" ++ record_id ++ ".ttl") in
  send (get_request url) w = (inr pre, w1) ->
  (forall body sha,
     status_code pre = 200%Z -> json pre = Some (JDict body) ->
     dict_get "sha" body = Some sha -> truthy sha = true ->
     let payload := put_payload rdf_text record_id category sha in
     let put := put_request url payload in
     get_field "sha" payload = Some sha /\
     exists outcome,
       commit_rdf_to_github rdf_text (w, sent)
       = (outcome, (snd (send put w1), (sent ++ [get_request url; put])%list)) /\
       (forall res, outcome = inr res ->
                    get_field "action" res = Some (JStr "update")))
  /\
  (status_code pre = 404%Z ->
     let payload := put_payload rdf_text record_id category JNull in
     let put := put_request url payload in
     get_field "sha" payload = None /\
     exists outcome,
       commit_rdf_to_github rdf_text (w, sent)
       = (outcome, (snd (send put w1), (sent ++ [get_request url; put])%list)) /\
       (forall res, outcome = inr res ->
                    get_field "action" res = Some (JStr "create")))
  /\
  (status_code pre <> 200%Z -> status_code pre <> 404%Z ->
     exists detail,
       commit_rdf_to_github rdf_text (w, sent)
       = (inl (HTTPException 500 detail), (w1, (sent ++ [get_request url])%list))).
Proof.
  intros Hcfg Hext url Hsend.
  pose proof (store_path_of_extracted _ _ _ _ Hext) as Hpath.
  assert (Hurl : contents_url (store_path record_id category) = url)
    by (unfold url; now rewrite Hpath).
  split; [| split].
  - intros body sha Hstatus Hjson Hsha Htrue payload put.
    split; [unfold payload; now rewrite put_payload_sha, Htrue|].
    pose proof (preflight_found url pre body w w1 sent Hsend Hstatus Hjson)
      as Hpre.
    rewrite Hsha, <- Hurl in Hpre.
    destruct (commit_after_preflight rdf_text record_id category uri sha
                w w1 sent Hcfg Hext Hpre) as (outcome & Hrun & Haction).
    rewrite Hurl in Hrun. exists outcome. split; [exact Hrun|].
    intros res Hres. rewrite (Haction res Hres). now rewrite Htrue.
  - intros Hstatus payload put.
    split; [unfold payload; now rewrite put_payload_sha|].
    pose proof (preflight_absent url pre w w1 sent Hsend Hstatus) as Hpre.
    rewrite <- Hurl in Hpre.
    destruct (commit_after_preflight rdf_text record_id category uri JNull
                w w1 sent Hcfg Hext Hpre) as (outcome & Hrun & Haction).
    rewrite Hurl in Hrun. exists outcome. split; [exact Hrun|].
    intros res Hres. now rewrite (Haction res Hres).
  - intros H200 H404.
    pose proof (preflight_other url pre w w1 sent Hsend H200 H404) as Hpre.
    rewrite <- Hurl in Hpre at 1.
    destruct (commit_preflight_raises _ _ _ _ _ _ _ _ _ Hcfg Hext Hpre)
      as [detail Hd].
    now exists detail.
Qed.

(** C10. A preflight answered 200 with a JSON object that has no [sha]
    entry does not stop the commit: the write is sent without a [sha], a
    returned result has the action "create", and a result is returned
    whenever the store accepts the write. *)
Theorem commit_without_hash_creates
    (rdf_text record_id category uri : string) (pre : response)
    (body : list (string * value)) (w w1 : World) (sent : list request) :
  env_truthy GITHUB_TOKEN = true ->
  _extract_record_info rdf_text = inr (record_id, category, uri) ->
  let url := contents_url (category ++ "/" ++ record_id ++ ".ttl") in
  send (get_request url) w = (inr pre, w1) ->
  status_code pre = 200%Z ->
  json pre = Some (JDict body) ->
  dict_get "sha" body = None ->
  let payload := put_payload rdf_text record_id category JNull in
  let put := put_request url payload in
  get_field "sha" payload = None /\
  exists outcome,
    commit_rdf_to_github rdf_text (w, sent)
    = (outcome, (snd (send put w1), (sent ++ [get_request url; put])%list)) /\
    (forall res, outcome = inr res ->
                 get_field "action" res = Some (JStr "create")) /\
    (forall resp, fst (send put w1) = inr resp -> write_accepted resp = true ->
                  exists res, outcome = inr res).
Proof.
  intros Hcfg Hext url Hsend Hstatus Hjson Hsha payload put.
  pose proof (store_path_of_extracted _ _ _ _ Hext) as Hpath.
  assert (Hurl : contents_url (store_path record_id category) = url)
    by (unfold url; now rewrite Hpath).
  split; [unfold payload; now rewrite put_payload_sha|].
  pose proof (preflight_found url pre body w w1 sent Hsend Hstatus Hjson)
    as Hpre.
  rewrite Hsha, <- Hurl in Hpre.
  destruct (commit_after_preflight rdf_text record_id category uri JNull
              w w1 sent Hcfg Hext Hpre) as (outcome & Hrun & Haction).
  rewrite Hurl in Hrun. fold payload put in Hrun.
  exists outcome. split; [exact Hrun|]. split.
  - intros res Hres. now rewrite (Haction res Hres).
  - intros resp Hresp Hacc.
    revert Hrun. unfold commit_rdf_to_github. rewrite Hcfg, Hext.
    change (negb (true && Str.nonempty GITHUB_OWNER && Str.nonempty GITHUB_REPO))
      with false.
    unfold try_except, bind at 1. cbv beta iota. rewrite Hpre.
    unfold bind at 1, client_send. rewrite Hurl. fold payload put.
    destruct (send put w1) as [o w2]. simpl in Hresp. subst o.
    destruct (commit_result_accepted record_id category JNull resp
                (w2, ((sent ++ [get_request url]) ++ [put])%list) Hacc)
      as [res Hres].
    rewrite Hres. intros [= <- _]. now exists res.
Qed.

End GithubFacts.

(** The three cases on the scripted platform: an update, a create, and a
    refused read. *)
Lemma commit_follows_preflight_witness :
  (exists res put,
     @commit_rdf_to_github Scripted.platform Scripted.doc_record
       ([Scripted.found; Scripted.written 200], [])
     = (inr res, ([], [@get_request Scripted.platform Scripted.file_url; put])) /\
     get_field "action" res = Some (JStr "update") /\
     option_map (get_field "sha") (req_json put) = Some (Some (JStr "95b966a")))
  /\
  (exists res put,
     @commit_rdf_to_github Scripted.platform Scripted.doc_record
       ([Scripted.not_found; Scripted.written 201], [])
     = (inr res, ([], [@get_request Scripted.platform Scripted.file_url; put])) /\
     get_field "action" res = Some (JStr "create") /\
     option_map (get_field "sha") (req_json put) = Some None)
  /\
  (exists detail,
     @commit_rdf_to_github Scripted.platform Scripted.doc_record
       ([Scripted.forbidden; Scripted.written 201], [])
     = (inl (HTTPException 500 detail),
        ([Scripted.written 201],
         [@get_request Scripted.platform Scripted.file_url]))).
Proof.
  split; [| split].
  - destruct (@commit_follows_preflight Scripted.platform Scripted.doc_record
                "item123" "survey" Scripted.record_uri _
                [Scripted.found; Scripted.written 200] _ []
                eq_refl eq_refl eq_refl) as [Hfound _].
    destruct (Hfound _ (JStr "95b966a") eq_refl eq_refl eq_refl eq_refl)
      as (Hsha & outcome & Hrun & Haction).
    eexists. eexists. split; [lazy; reflexivity|]. split.
    + apply Haction. lazy in Hrun. now injection Hrun as <-.
    + exact (f_equal Some Hsha).
  - destruct (@commit_follows_preflight Scripted.platform Scripted.doc_record
                "item123" "survey" Scripted.record_uri _
                [Scripted.not_found; Scripted.written 201] _ []
                eq_refl eq_refl eq_refl) as (_ & Habsent & _).
    destruct (Habsent eq_refl) as (Hsha & outcome & Hrun & Haction).
    eexists. eexists. split; [lazy; reflexivity|]. split.
    + apply Haction. lazy in Hrun. now injection Hrun as <-.
    + exact (f_equal Some Hsha).
  - destruct (@commit_follows_preflight Scripted.platform Scripted.doc_record
                "item123" "survey" Scripted.record_uri _
                [Scripted.forbidden; Scripted.written 201] _ []
                eq_refl eq_refl eq_refl) as (_ & _ & Hother).
    apply Hother; discriminate.
Defined.

(** C3, as the claim has it, fails: the read reports that the file exists
    (200), its body has no [sha], and the commit writes without a hash and
    reports the action "create". *)
Lemma commit_found_reports_create :
  exists pre res put,
    @send Scripted.platform (@get_request Scripted.platform Scripted.file_url)
      [Scripted.found_without_hash; Scripted.written 201]
    = (inr pre, [Scripted.written 201]) /\
    status_code pre = 200%Z /\
    @commit_rdf_to_github Scripted.platform Scripted.doc_record
      ([Scripted.found_without_hash; Scripted.written 201], [])
    = (inr res, ([], [@get_request Scripted.platform Scripted.file_url; put])) /\
    get_field "action" res = Some (JStr "create") /\
    option_map (get_field "sha") (req_json put) = Some None.
Proof.
  do 3 eexists. repeat split; lazy; reflexivity.
Qed.

Lemma commit_without_hash_creates_witness :
  exists res put,
    @commit_rdf_to_github Scripted.platform Scripted.doc_record
      ([Scripted.found_without_hash; Scripted.written 201], [])
    = (inr res, ([], [@get_request Scripted.platform Scripted.file_url; put])) /\
    get_field "action" res = Some (JStr "create") /\
    option_map (get_field "sha") (req_json put) = Some None.
Proof.
  destruct (@commit_without_hash_creates Scripted.platform Scripted.doc_record
              "item123" "survey" Scripted.record_uri _ []
              [Scripted.found_without_hash; Scripted.written 201] _ []
              eq_refl eq_refl eq_refl eq_refl eq_refl eq_refl)
    as (Hsha & outcome & Hrun & Haction & Haccepted).
  destruct (Haccepted _ eq_refl eq_refl) as [res Hres].
  exists res. eexists. split; [|split].
  - refine (eq_trans Hrun _). rewrite Hres. lazy. reflexivity.
  - now apply Haction.
  - exact (f_equal Some Hsha).
Defined.

(** ** The registry *)

Section RegistryFacts.
Context {platform : Platform}.

(** One resolution: one query, never an exception, and the ID that the
    answer resolves to. *)
Lemma fetch_guarded_run (query_field : string) (iri : value)
    (w : World) (sent : list request) :
  let req := graphql_request query_field iri in
  try_except (fetch_attempt query_field iri) (fun _ => ret JNull) (w, sent)
  = (inr (resolved_id query_field (fst (send req w))),
     (snd (send req w), (sent ++ [req])%list)).
Proof.
  intros req. unfold fetch_attempt, resolved_id, first_result_id. fold req.
  run_monad. destruct (send req w) as [[e | resp] w']; simpl; [reflexivity|].
  destruct ((200 <=? status_code resp)%Z && (status_code resp <=? 299)%Z);
    [|reflexivity].
  destruct (json resp) as [[| | | | |data]|]; try reflexivity.
  destruct (dict_get "data" data) as [[| | | | |inner]|]; try reflexivity.
  destruct (dict_get query_field inner) as [[| | | |[|first rest]|]|];
    try reflexivity.
  destruct first as [| | | | |first]; try reflexivity.
  destruct (dict_get "id" first) as [id|]; [|reflexivity].
  destruct (truthy id); reflexivity.
Qed.

Lemma fetch_internal_id_run (iri : value) (type_ : string)
    (w : World) (sent : list request) :
  type_ = "subject" \/ type_ = "domain" ->
  let req := graphql_request (query_field_of type_) iri in
  fetch_internal_id iri type_ (w, sent)
  = (inr (resolved_id (query_field_of type_) (fst (send req w))),
     (snd (send req w), (sent ++ [req])%list)).
Proof.
  intros [-> | ->]; apply fetch_guarded_run.
Qed.

Lemma resolved_id_truthy (query_field : string) (outcome : exn + response) :
  resolved_id query_field outcome = JNull \/
  truthy (resolved_id query_field outcome) = true.
Proof.
  unfold resolved_id. destruct (first_result_id query_field outcome) as [id|];
    [|now left].
  destruct (truthy id) eqn:E; [now right | now left].
Qed.

(** C8, as the code has it.  A resolution of a subject or a domain sends
    one query and never raises.  It returns the ID of the first entry of
    the result list when the answer is a 2xx answer of the expected shape
    with a non-empty list and that ID counts as true; after any failure,
    with an empty list, and with a first ID that is null or counts as
    false ([0], the empty string, ...) it returns "unresolved". *)
Theorem fetch_internal_id_resolves (iri : value) (type_ : string)
    (w : World) (sent : list request) :
  type_ = "subject" \/ type_ = "domain" ->
  let req := graphql_request (query_field_of type_) iri in
  exists v,
    fetch_internal_id iri type_ (w, sent)
    = (inr v, (snd (send req w), (sent ++ [req])%list)) /\
    match first_result_id (query_field_of type_) (fst (send req w)) with
    | Some id => v = if truthy id then id else JNull
    | None => v = JNull
    end.
Proof.
  intros Hkind req. eexists. split.
  - apply fetch_internal_id_run, Hkind.
  - unfold resolved_id. fold req.
    now destruct (first_result_id (query_field_of type_) (fst (send req w))).
Qed.

End RegistryFacts.

Lemma fetch_internal_id_resolves_witness :
  @fetch_internal_id Scripted.platform (JStr "http://x/2") "subject"
    ([Scripted.answer "searchSubjects"
        [Scripted.entry (JNum 42) "http://x/2";
         Scripted.entry (JNum 43) "http://x/20"]], [])
  = (inr (JNum 42),
     ([], [@graphql_request Scripted.platform "searchSubjects"
             (JStr "http://x/2")])).
Proof.
  destruct (@fetch_internal_id_resolves Scripted.platform (JStr "http://x/2")
              "subject"
              [Scripted.answer "searchSubjects"
                 [Scripted.entry (JNum 42) "http://x/2";
                  Scripted.entry (JNum 43) "http://x/20"]] []
              (or_introl eq_refl)) as (v & Hrun & Hv).
  refine (eq_trans Hrun _). lazy in Hv. now rewrite Hv.
Defined.

(** C8, as the claim has it, fails: the result list is non-empty and its
    first entry has the non-null ID [0], yet the resolver returns
    "unresolved". *)
Lemma fetch_internal_id_drops_zero :
  first_result_id "searchSubjects"
    (Scripted.answer "searchSubjects" [Scripted.entry (JNum 0) "http://x/1"])
  = Some (JNum 0) /\
  JNum 0 <> JNull /\
  @fetch_internal_id Scripted.platform (JStr "http://x/1") "subject"
    ([Scripted.answer "searchSubjects" [Scripted.entry (JNum 0) "http://x/1"]],
     [])
  = (inr JNull,
     ([], [@graphql_request Scripted.platform "searchSubjects"
             (JStr "http://x/1")])).
Proof.
  split; [reflexivity|]. split; [discriminate|]. reflexivity.
Qed.

Section ResolutionFacts.
Context {platform : Platform}.

(** The loop appends, in input order, the outcomes that are not [None] to
    the list it was started with, and sends one query per identifier. *)
Lemma resolve_loop_run (type_ : string) (iris : list value) :
  type_ = "subject" \/ type_ = "domain" ->
  forall (resolved : list value) (s : state),
  exists outcomes s',
    fetch_each type_ iris s = (inr outcomes, s') /\
    List.length outcomes = List.length iris /\
    resolve_loop type_ iris resolved s
    = (inr (resolved ++ filter is_not_None outcomes)%list, s') /\
    snd s' = (snd s ++ map (graphql_request (query_field_of type_)) iris)%list.
Proof.
  intros Hkind. induction iris as [|iri rest IH]; intros resolved [w sent].
  - exists [], (w, sent). simpl. unfold ret.
    now rewrite !app_nil_r.
  - simpl. unfold bind at 1 3.
    rewrite (fetch_internal_id_run iri type_ w sent Hkind).
    set (req := graphql_request (query_field_of type_) iri).
    set (v := resolved_id (query_field_of type_) (fst (send req w))).
    set (s1 := (snd (send req w), (sent ++ [req])%list)).
    destruct (is_not_None v) eqn:Hv.
    + destruct (IH (resolved ++ [v])%list s1) as (outs & s' & Heach & Hlen & Hloop & Htrace).
      exists (v :: outs), s'. unfold bind, ret. rewrite Heach, Hloop.
      simpl. rewrite Hv, Hlen, Htrace. simpl.
      now rewrite <- !app_assoc.
    + destruct (IH resolved s1) as (outs & s' & Heach & Hlen & Hloop & Htrace).
      exists (v :: outs), s'. unfold bind, ret. rewrite Heach, Hloop.
      simpl. rewrite Hv, Hlen, Htrace. simpl.
      now rewrite <- !app_assoc.
Qed.

(** C4. For a sequence of identifiers of one kind, resolve each in input
    order; the batch returns the outcomes that are not "unresolved", in
    that order, and nothing else. *)
Theorem batch_resolution_in_order (type_ : string) (iris : list value)
    (s : state) :
  type_ = "subject" \/ type_ = "domain" ->
  exists outcomes s',
    fetch_each type_ iris s = (inr outcomes, s') /\
    List.length outcomes = List.length iris /\
    resolve_loop type_ iris [] s = (inr (filter is_not_None outcomes), s').
Proof.
  intros Hkind.
  destruct (resolve_loop_run type_ iris Hkind [] s)
    as (outcomes & s' & Heach & Hlen & Hloop & _).
  now exists outcomes, s'.
Qed.

End ResolutionFacts.

(** The example of the specification: of A, B and C the second does not
    resolve. *)
Lemma batch_resolution_in_order_witness :
  @resolve_loop Scripted.platform "subject" [JStr "A"; JStr "B"; JStr "C"] []
    ([Scripted.answer "searchSubjects" [Scripted.entry (JNum 1) "A"];
      Scripted.answer "searchSubjects" [];
      Scripted.answer "searchSubjects" [Scripted.entry (JNum 3) "C"]], [])
  = (inr [JNum 1; JNum 3],
     ([], map (@graphql_request Scripted.platform "searchSubjects")
            [JStr "A"; JStr "B"; JStr "C"])).
Proof.
  destruct (@batch_resolution_in_order Scripted.platform "subject"
              [JStr "A"; JStr "B"; JStr "C"]
              ([Scripted.answer "searchSubjects" [Scripted.entry (JNum 1) "A"];
                Scripted.answer "searchSubjects" [];
                Scripted.answer "searchSubjects" [Scripted.entry (JNum 3) "C"]],
               [])
              (or_introl eq_refl))
    as (outcomes & s' & Heach & _ & Hloop).
  refine (eq_trans Hloop _).
  lazy in Heach. injection Heach as <- <-. reflexivity.
Defined.

(** ** The submission flow *)

Section DictFacts.

Lemma dict_get_set_same (k : string) (v : value) (m : list (string * value)) :
  dict_get k (dict_set k v m) = Some v.
Proof.
  induction m as [|[k' v'] m IH]; simpl.
  - now rewrite String.eqb_refl.
  - destruct (String.eqb k k') eqn:E; simpl.
    + now rewrite String.eqb_refl.
    + now rewrite E.
Qed.

Lemma dict_get_set_other (k k' : string) (v : value)
    (m : list (string * value)) :
  k <> k' -> dict_get k (dict_set k' v m) = dict_get k m.
Proof.
  intros Hne. induction m as [|[k0 v0] m IH]; simpl.
  - apply String.eqb_neq in Hne. now rewrite Hne.
  - destruct (String.eqb k' k0) eqn:E; simpl.
    + apply String.eqb_eq in E. subst k0.
      apply String.eqb_neq in Hne. now rewrite Hne.
    + now rewrite IH.
Qed.

(** A key whose value survives the sanitizer is bound to the sanitized
    value afterwards. *)
Lemma dict_get_kept_items (k : string) (v : value) (m : list (string * value)) :
  dict_get k m = Some v ->
  in_empties v = false ->
  ne_empty_dict (remove_empty v) = true ->
  dict_get k (kept_items m) = Some (remove_empty v).
Proof.
  intros Hget Hv Hne. unfold kept_items.
  induction m as [|[k' v'] m IH]; simpl in *; [discriminate|].
  destruct (String.eqb k k') eqn:E.
  - injection Hget as ->. rewrite Hv, Hne. simpl. now rewrite E.
  - destruct (negb (in_empties v') && ne_empty_dict (remove_empty v')); simpl.
    + rewrite E. now apply IH.
    + now apply IH.
Qed.

Lemma remove_empty_singleton_scalar (id : value) :
  is_scalar id = true -> truthy id = true ->
  remove_empty (JList [id]) = JList [id].
Proof.
  destruct id as [| b | n | s | l | m]; try discriminate; intros _ Ht;
    try reflexivity.
  destruct s; [discriminate Ht | reflexivity].
Qed.

End DictFacts.

Section SubmissionFacts.
Context {platform : Platform}.

Lemma graphql_requests_are_queries (query_field : string) (iris : list value) :
  Forall is_registry_query (map (graphql_request query_field) iris).
Proof.
  apply Forall_forall. intros r Hin.
  apply in_map_iff in Hin as (iri & <- & _). now split.
Qed.

(** One block on a record that is a dictionary: it never raises, leaves the
    other keys alone, puts the resolved identifiers in place of a list, and
    sends queries only. *)
Lemma resolve_block_dict (key type_ : string) (record : list (string * value))
    (s : state) :
  type_ = "subject" \/ type_ = "domain" ->
  exists record' s',
    resolve_block key type_ (JDict record) s = (inr (JDict record'), s') /\
    (forall k, k <> key -> dict_get k record' = dict_get k record) /\
    (forall iris, dict_get key record = Some (JList iris) ->
       exists outcomes,
         fetch_each type_ iris s = (inr outcomes, s') /\
         dict_get key record' = Some (JList (filter is_not_None outcomes))) /\
    (exists queries,
       snd s' = (snd s ++ queries)%list /\ Forall is_registry_query queries).
Proof.
  intros Hkind. unfold resolve_block. run_monad. unfold py_contains, ret.
  destruct (dict_get key record) as [current|] eqn:Hget.
  - destruct current as [| b | n | str | iris | m];
      try (exists record, s; repeat split;
           [ discriminate
           | exists []; split; [now rewrite app_nil_r | constructor] ]).
    destruct (resolve_loop_run type_ iris Hkind [] s)
      as (outcomes & s' & Heach & _ & Hloop & Htrace).
    rewrite Hloop. unfold py_setitem, ret. simpl app.
    exists (dict_set key (JList (filter is_not_None outcomes)) record), s'.
    split; [reflexivity|]. split; [|split].
    + intros k Hk. now apply dict_get_set_other.
    + intros iris' [= <-]. exists outcomes. split; [exact Heach|].
      apply dict_get_set_same.
    + eexists. split; [exact Htrace|]. apply graphql_requests_are_queries.
  - exists record, s. repeat split.
    + discriminate.
    + exists []. split; [now rewrite app_nil_r | constructor].
Qed.

(** One block on any record: whatever happens, only queries are sent. *)
Lemma resolve_block_trace (key type_ : string) (record : value) (s s' : state)
    (outcome : exn + value) :
  type_ = "subject" \/ type_ = "domain" ->
  resolve_block key type_ record s = (outcome, s') ->
  exists queries,
    snd s' = (snd s ++ queries)%list /\ Forall is_registry_query queries.
Proof.
  intros Hkind.
  assert (Hnone : forall o : exn + value, (o, s) = (outcome, s') ->
            exists queries,
              snd s' = (snd s ++ queries)%list /\
              Forall is_registry_query queries).
  { intros o [= _ <-]. exists []. split; [now rewrite app_nil_r | constructor]. }
  destruct record as [| b | n | str | l | record];
    try (unfold resolve_block, py_contains; run_monad; now apply Hnone).
  - unfold resolve_block, py_contains. run_monad.
    destruct (Str.contains key str); now apply Hnone.
  - unfold resolve_block, py_contains. run_monad.
    destruct (existsb _ l); now apply Hnone.
  - destruct (resolve_block_dict key type_ record s Hkind)
      as (record' & s1 & Hrun & _ & _ & Htrace).
    rewrite Hrun. now intros [= _ <-].
Qed.

Lemma resolve_subject_domain_ids_trace (body_dict : list (string * value))
    (s s' : state) (outcome : exn + list (string * value)) :
  resolve_subject_domain_ids body_dict s = (outcome, s') ->
  exists queries,
    snd s' = (snd s ++ queries)%list /\ Forall is_registry_query queries.
Proof.
  unfold resolve_subject_domain_ids.
  set (record := match dict_get "fairsharing_record" body_dict with
                 | Some r => r
                 | None => JDict []
                 end).
  unfold bind at 1.
  destruct (resolve_block "subject_ids" "subject" record s) as [o1 s1] eqn:H1.
  apply resolve_block_trace in H1 as (q1 & Hq1 & HF1); [|now left].
  destruct o1 as [e | record1].
  - intros [= _ <-]. now exists q1.
  - unfold bind at 1.
    destruct (resolve_block "domain_ids" "domain" record1 s1) as [o2 s2] eqn:H2.
    apply resolve_block_trace in H2 as (q2 & Hq2 & HF2); [|now right].
    assert (Hall : snd s2 = (snd s ++ (q1 ++ q2))%list)
      by now rewrite Hq2, Hq1, app_assoc.
    destruct o2 as [e | record2]; unfold ret; intros [= _ <-];
      exists (q1 ++ q2)%list; (split; [exact Hall | now apply Forall_app]).
Qed.

(** The subjects of a resolved record are the resolved outcomes. *)
Lemma resolved_subject_ids (body_dict resolved record : list (string * value))
    (iris outcomes : list value) (s s1 s' : state) :
  resolve_subject_domain_ids body_dict s = (inr resolved, s') ->
  dict_get "fairsharing_record" body_dict = Some (JDict record) ->
  dict_get "subject_ids" record = Some (JList iris) ->
  fetch_each "subject" iris s = (inr outcomes, s1) ->
  exists record',
    dict_get "fairsharing_record" resolved = Some (JDict record') /\
    dict_get "subject_ids" record' = Some (JList (filter is_not_None outcomes)).
Proof.
  intros Hres Hrec Hsub Heach. revert Hres.
  unfold resolve_subject_domain_ids. rewrite Hrec. unfold bind at 1.
  destruct (resolve_block_dict "subject_ids" "subject" record s (or_introl eq_refl))
    as (r1 & sA & Hrun1 & _ & Hlist1 & _).
  rewrite Hrun1. destruct (Hlist1 iris Hsub) as (outs & Heach' & Hget1).
  rewrite Heach in Heach'. injection Heach' as <- <-.
  unfold bind at 1.
  destruct (resolve_block_dict "domain_ids" "domain" r1 s1 (or_intror eq_refl))
    as (r2 & sB & Hrun2 & Hother2 & _ & _).
  rewrite Hrun2. unfold ret. intros [= <- _].
  exists r2. split; [apply dict_get_set_same|].
  rewrite Hother2; [exact Hget1 | discriminate].
Qed.

(** A non-empty list of subjects that the sanitizer leaves alone is still
    there in the sanitized payload. *)
Lemma sanitized_subject_ids (resolved record : list (string * value))
    (ids : list value) :
  dict_get "fairsharing_record" resolved = Some (JDict record) ->
  dict_get "subject_ids" record = Some (JList ids) ->
  ids <> [] ->
  remove_empty (JList ids) = JList ids ->
  exists record',
    get_field "fairsharing_record" (remove_empty (JDict resolved)) = Some record' /\
    get_field "subject_ids" record' = Some (JList ids).
Proof.
  intros Hrec Hsub Hne Hfix.
  assert (H1 : dict_get "subject_ids" (kept_items record) = Some (JList ids)).
  { rewrite <- Hfix. apply dict_get_kept_items; [exact Hsub | |].
    - destruct ids; [contradiction | reflexivity].
    - now rewrite Hfix. }
  assert (H2 : dict_get "fairsharing_record" (kept_items resolved)
               = Some (remove_empty (JDict record))).
  { apply dict_get_kept_items; [exact Hrec | |].
    - destruct record; [discriminate Hsub | reflexivity].
    - rewrite remove_empty_JDict.
      destruct (kept_items record); [discriminate H1 | reflexivity]. }
  exists (JDict (kept_items record)).
  rewrite remove_empty_JDict in H2. rewrite remove_empty_JDict.
  split; [exact H2 | exact H1].
Qed.

(** *** Authentication, then the post *)

Lemma authenticate_with_token (payload : value) (auth_url data_url : string)
    (token : value) (w1 : World) (sent1 : list request) :
  AUTH_URL = Some auth_url ->
  DATA_URL = Some data_url ->
  usable_token (fst (send (auth_request auth_url) w1)) = Some token ->
  let w2 := snd (send (auth_request auth_url) w1) in
  let post := data_request data_url token payload in
  exists outcome,
    authenticate_and_send payload (w1, sent1)
    = (outcome,
       (snd (send post w2), (sent1 ++ [auth_request auth_url; post])%list)).
Proof.
  intros HA HD Htok w2 post. unfold authenticate_and_send.
  rewrite HA, HD. unfold client_request.
  change {| req_method := POST; req_url := auth_url;
            req_headers := json_headers; req_json := Some login_payload |}
    with (auth_request auth_url).
  unfold bind at 1, client_send at 1. unfold w2 in *. clear w2.
  unfold usable_token in Htok.
  destruct (send (auth_request auth_url) w1) as [[e | auth] w2];
    simpl in Htok; [discriminate|]. simpl snd.
  unfold bind at 1, raise_for_status.
  destruct ((200 <=? status_code auth)%Z && (status_code auth <=? 299)%Z);
    [|discriminate].
  unfold ret at 1. unfold bind at 1, response_json.
  destruct (json auth) as [[| | | | |body]|]; try discriminate.
  unfold ret at 1. unfold bind at 1, py_get, ret at 1.
  destruct (dict_get "jwt" body) as [t|]; [|discriminate].
  destruct (truthy t) eqn:Ht; [|discriminate].
  injection Htok as ->. change (negb true) with false. cbv beta iota.
  change {| req_method := POST; req_url := data_url;
            req_headers :=
              (json_headers ++
               [("Authorization", ("Bearer " ++ py_format token)%string)])%list;
            req_json := Some payload |}
    with post.
  unfold bind at 1, client_send.
  destruct (send post w2) as [[e | resp] w3]; simpl snd;
    rewrite <- app_assoc; simpl app.
  - eexists; reflexivity.
  - run_monad.
    destruct ((200 <=? status_code resp)%Z && (status_code resp <=? 299)%Z);
      [destruct (json resp)|]; eexists; reflexivity.
Qed.

Lemma authenticate_without_token (payload : value) (auth_url : string)
    (w1 : World) (sent1 : list request) :
  AUTH_URL = Some auth_url ->
  let login := auth_request auth_url in
  usable_token (fst (send login w1)) = None ->
  exists e,
    authenticate_and_send payload (w1, sent1)
    = (inl e, (snd (send login w1), (sent1 ++ [login])%list)) /\
    (forall auth body,
       fst (send login w1) = inr auth ->
       ((200 <=? status_code auth)%Z && (status_code auth <=? 299)%Z) = true ->
       json auth = Some (JDict body) ->
       e = HTTPException 500 "Missing jwt token").
Proof.
  intros HA login Htok. unfold authenticate_and_send.
  rewrite HA. unfold client_request.
  change {| req_method := POST; req_url := auth_url;
            req_headers := json_headers; req_json := Some login_payload |}
    with login.
  unfold bind at 1, client_send at 1. unfold usable_token in Htok.
  destruct (send login w1) as [[e | auth] w2]; simpl in Htok; simpl snd.
  - exists e. split; [reflexivity|]. intros auth body [=].
  - unfold bind at 1, raise_for_status.
    destruct ((200 <=? status_code auth)%Z && (status_code auth <=? 299)%Z)
      eqn:Hok.
    + unfold ret at 1. unfold bind at 1, response_json.
      destruct (json auth) as [[| | | | |body]|] eqn:Hjson;
        try (eexists; split; [reflexivity|];
             intros auth' body' [= <-] _ Hj; congruence).
      unfold ret at 1. unfold bind at 1, py_get, ret at 1.
      destruct (dict_get "jwt" body) as [t|].
      * destruct (truthy t) eqn:Ht; [discriminate|].
        change (negb false) with true. cbv beta iota.
        eexists; split; [reflexivity|]. reflexivity.
      * simpl. eexists; split; [reflexivity|]. reflexivity.
    + eexists; split; [reflexivity|].
      intros auth' body' [= <-] Hok'. congruence.
Qed.

(** C6. The body posted to the data endpoint is the sanitized form of the
    resolved record: [remove_empty] is applied to what
    [resolve_subject_domain_ids] returns for the raw record, and to nothing
    else.  When the raw record has the subjects [http://x/1] and
    [http://x/2], the first does not resolve and the second resolves to a
    number or string [id], the [subject_ids] of the posted body is [[id]]. *)
Theorem submit_posts_sanitized_resolved
    (body_dict resolved : list (string * value))
    (s : state) (w1 : World) (sent1 : list request) :
  resolve_subject_domain_ids body_dict s = (inr resolved, (w1, sent1)) ->
  let payload := remove_empty (JDict resolved) in
  (forall auth_url data_url token,
     AUTH_URL = Some auth_url ->
     DATA_URL = Some data_url ->
     usable_token (fst (send (auth_request auth_url) w1)) = Some token ->
     let w2 := snd (send (auth_request auth_url) w1) in
     let post := data_request data_url token payload in
     exists outcome,
       submit_record body_dict s
       = (outcome,
          (snd (send post w2),
           (sent1 ++ [auth_request auth_url; post])%list)))
  /\
  (forall record id s1 s2,
     dict_get "fairsharing_record" body_dict = Some (JDict record) ->
     dict_get "subject_ids" record
     = Some (JList [JStr "http://x/1"; JStr "http://x/2"]) ->
     fetch_internal_id (JStr "http://x/1") "subject" s = (inr JNull, s1) ->
     fetch_internal_id (JStr "http://x/2") "subject" s1 = (inr id, s2) ->
     id <> JNull ->
     is_scalar id = true ->
     exists record',
       get_field "fairsharing_record" payload = Some record' /\
       get_field "subject_ids" record' = Some (JList [id])).
Proof.
  intros Hres payload. split.
  - intros auth_url data_url token HA HD Htok w2 post.
    unfold submit_record, bind at 1. rewrite Hres.
    now apply authenticate_with_token.
  - intros record id s1 s2 Hrec Hsub H1 H2 Hid Hscalar.
    assert (Heach : fetch_each "subject" [JStr "http://x/1"; JStr "http://x/2"] s
                    = (inr [JNull; id], s2)).
    { simpl. unfold bind at 1. rewrite H1. unfold bind at 1 2. rewrite H2.
      reflexivity. }
    destruct (resolved_subject_ids _ _ _ _ _ _ _ _ Hres Hrec Hsub Heach)
      as (record' & Hrec' & Hsub').
    assert (Hnot : is_not_None id = true)
      by (destruct id; try reflexivity; now contradiction Hid).
    simpl filter in Hsub'. rewrite Hnot in Hsub'.
    assert (Htruthy : truthy id = true).
    { destruct s1 as [wa senta].
      rewrite (fetch_internal_id_run _ _ wa senta (or_introl eq_refl)) in H2.
      injection H2 as <- _.
      destruct (resolved_id_truthy (query_field_of "subject")
                  (fst (send (graphql_request (query_field_of "subject")
                                (JStr "http://x/2")) wa)))
        as [Hnull | Ht]; [contradiction | exact Ht]. }
    apply (sanitized_subject_ids resolved record' [id] Hrec' Hsub');
      [discriminate|].
    now apply remove_empty_singleton_scalar.
Qed.

(** C7. Once the record is resolved, when the authentication call raises,
    is answered with a status that is not 2xx, or with a body without a
    [jwt] that counts as true, [submit_record] raises, and the login is the
    last request it sent: after the resolver's queries and the login,
    nothing goes to the data endpoint.  For a 2xx answer with a JSON object
    the exception is the 500 error "Missing jwt token". *)
Theorem submit_stops_without_token
    (body_dict resolved : list (string * value))
    (s : state) (w1 : World) (sent1 : list request) :
  resolve_subject_domain_ids body_dict s = (inr resolved, (w1, sent1)) ->
  (exists queries,
     sent1 = (snd s ++ queries)%list /\ Forall is_registry_query queries)
  /\
  (AUTH_URL = None ->
     submit_record body_dict s = (inl TypeError, (w1, sent1)))
  /\
  (forall auth_url,
     AUTH_URL = Some auth_url ->
     let login := auth_request auth_url in
     usable_token (fst (send login w1)) = None ->
     exists e,
       submit_record body_dict s
       = (inl e, (snd (send login w1), (sent1 ++ [login])%list)) /\
       (forall auth body,
          fst (send login w1) = inr auth ->
          ((200 <=? status_code auth)%Z && (status_code auth <=? 299)%Z) = true ->
          json auth = Some (JDict body) ->
          e = HTTPException 500 "Missing jwt token")).
Proof.
  intros Hres. split; [| split].
  - exact (resolve_subject_domain_ids_trace _ _ _ _ Hres).
  - intros HA. unfold submit_record, bind at 1. rewrite Hres.
    unfold authenticate_and_send. rewrite HA. reflexivity.
  - intros auth_url HA login Htok.
    unfold submit_record, bind at 1. rewrite Hres.
    now apply authenticate_without_token.
Qed.

End SubmissionFacts.

(** Scenario 3 of the specification on the scripted platform: the first
    subject does not resolve, the second resolves to 42. *)
Lemma submit_posts_sanitized_resolved_witness :
  (exists outcome post,
     @submit_record Scripted.platform Scripted.submission
       (Scripted.tape_signed_in, [])
     = (outcome,
        ([], [@graphql_request Scripted.platform "searchSubjects"
                (JStr "http://x/1");
              @graphql_request Scripted.platform "searchSubjects"
                (JStr "http://x/2");
              @auth_request Scripted.platform
                "https://registry.example/users/sign_in";
              post])) /\
     req_url post = "https://registry.example/fairsharing_records" /\
     req_json post
     = Some (JDict [("fairsharing_record",
                     JDict [("name", JStr "Record");
                            ("subject_ids", JList [JNum 42])])]))
  /\
  (exists record',
     get_field "fairsharing_record"
       (remove_empty (JDict Scripted.submission_resolved)) = Some record' /\
     get_field "subject_ids" record' = Some (JList [JNum 42])).
Proof.
  destruct (@resolve_subject_domain_ids Scripted.platform Scripted.submission
              (Scripted.tape_signed_in, []))
    as [[e | resolved] [w1 sent1]] eqn:Hres;
    [lazy in Hres; discriminate Hres|].
  destruct (@submit_posts_sanitized_resolved Scripted.platform
              Scripted.submission resolved (Scripted.tape_signed_in, [])
              w1 sent1 Hres)
    as [Hpost Hscenario].
  lazy in Hres. injection Hres as <- <- <-. split.
  - destruct (Hpost _ _ (JStr "eyJhbGciOi") eq_refl eq_refl eq_refl)
      as [outcome Hrun].
    exists outcome. eexists. split; [exact Hrun|]. split; reflexivity.
  - refine (Hscenario _ (JNum 42) _ _ eq_refl eq_refl eq_refl eq_refl _ eq_refl).
    discriminate.
Defined.

(** Scenario 4 of the specification on the scripted platform: the
    authentication endpoint answers without a [jwt]. *)
Lemma submit_stops_without_token_witness :
  @submit_record Scripted.platform Scripted.submission
    (Scripted.tape_without_jwt, [])
  = (inl (HTTPException 500 "Missing jwt token"),
     ([Scripted.recorded],
      [@graphql_request Scripted.platform "searchSubjects" (JStr "http://x/1");
       @graphql_request Scripted.platform "searchSubjects" (JStr "http://x/2");
       @auth_request Scripted.platform
         "https://registry.example/users/sign_in"])).
Proof.
  destruct (@resolve_subject_domain_ids Scripted.platform Scripted.submission
              (Scripted.tape_without_jwt, []))
    as [[e | resolved] [w1 sent1]] eqn:Hres;
    [lazy in Hres; discriminate Hres|].
  destruct (@submit_stops_without_token Scripted.platform
              Scripted.submission resolved _ w1 sent1 Hres)
    as (_ & _ & Hstop).
  lazy in Hres. injection Hres as <- <- <-.
  destruct (Hstop _ eq_refl eq_refl) as (e & Hrun & Hmissing).
  refine (eq_trans Hrun _).
  now rewrite (Hmissing _ _ eq_refl eq_refl eq_refl).
Defined.

(* ================================================================== *)
(** * Further properties                                               *)
(* ================================================================== *)

(** ** More on the payload sanitizer *)

Section SanitizerShape.
Import Shape.

Lemma no_void_inside_JList (l : list value) :
  no_void_inside (JList l)
  = forallb (fun x => negb (is_void x) && no_void_inside x) l.
Proof.
  simpl. induction l as [|x l IH]; simpl; [reflexivity|]. now rewrite IH.
Qed.

Lemma no_void_inside_JDict (m : list (string * value)) :
  no_void_inside (JDict m)
  = forallb (fun kv => negb (is_void (snd kv)) && no_void_inside (snd kv)) m.
Proof.
  simpl. induction m as [|x m IH]; simpl; [reflexivity|]. now rewrite IH.
Qed.

Lemma tidy_JList (l : list value) :
  tidy (JList l) = forallb (fun x => negb (in_empties x) && tidy x) l.
Proof.
  simpl. induction l as [|x l IH]; simpl; [reflexivity|]. now rewrite IH.
Qed.

Lemma tidy_JDict (m : list (string * value)) :
  tidy (JDict m)
  = forallb (fun kv => negb (in_empties (snd kv)) && tidy (snd kv)) m.
Proof.
  simpl. induction m as [|x m IH]; simpl; [reflexivity|]. now rewrite IH.
Qed.

Lemma survivor_not_void (v : value) :
  in_empties v = false ->
  ne_empty_dict (remove_empty v) = true ->
  is_void (remove_empty v) = false.
Proof.
  destruct v as [| b | n | s | l | m]; try (intros H _; exact H).
  - intros _ _. now rewrite remove_empty_JList.
  - rewrite remove_empty_JDict. intros _ H.
    destruct (kept_items m); [discriminate H | reflexivity].
Qed.

(** X1. Whatever the input, the sanitized value holds no null, no empty
    string and no empty mapping as an element of a sequence or as a value
    of a mapping, at any depth. *)
Theorem remove_empty_leaves_no_void (x : value) :
  no_void_inside (remove_empty x) = true.
Proof.
  induction x as [| b | n | s | l IH | m IH] using Json.value_ind;
    try reflexivity.
  - rewrite remove_empty_JList, no_void_inside_JList. unfold cleaned_elements.
    induction IH as [|v l Hv _ IHl]; simpl; [reflexivity|].
    destruct (in_empties v) eqn:Ev; simpl; [exact IHl|].
    destruct (ne_empty_dict (remove_empty v)) eqn:En; simpl; [|exact IHl].
    now rewrite (survivor_not_void v Ev En), Hv, IHl.
  - rewrite remove_empty_JDict, no_void_inside_JDict. unfold kept_items.
    induction IH as [|[k v] m Hv _ IHm]; simpl; [reflexivity|].
    simpl in Hv.
    destruct (in_empties v) eqn:Ev; simpl; [exact IHm|].
    destruct (ne_empty_dict (remove_empty v)) eqn:En; simpl; [|exact IHm].
    now rewrite (survivor_not_void v Ev En), Hv, IHm.
Qed.

(** A tidy value is a fixed point, and a value that is not tidy shrinks. *)
Lemma tidy_fixed (x : value) : tidy x = true -> remove_empty x = x.
Proof.
  induction x as [| b | n | s | l IH | m IH] using Json.value_ind;
    try reflexivity.
  - rewrite tidy_JList, remove_empty_JList. intros H. f_equal.
    unfold cleaned_elements.
    induction IH as [|v l Hv _ IHl]; simpl in *; [reflexivity|].
    apply andb_prop in H as [H Hrest]. apply andb_prop in H as [He Ht].
    rewrite He. simpl. rewrite (Hv Ht), (IHl Hrest).
    destruct v as [| | | | |[|? ?]]; try reflexivity. discriminate He.
  - rewrite tidy_JDict, remove_empty_JDict. intros H. f_equal.
    unfold kept_items.
    induction IH as [|[k v] m Hv _ IHm]; simpl in *; [reflexivity|].
    apply andb_prop in H as [H Hrest]. apply andb_prop in H as [He Ht].
    rewrite He, (Hv Ht), (IHm Hrest).
    destruct v as [| | | | |[|? ?]]; try reflexivity. discriminate He.
Qed.

Lemma untidy_elements_shrink (l : list value) :
  Forall (fun v => tidy v = false -> size (remove_empty v) < size v) l ->
  forallb (fun x => negb (in_empties x) && tidy x) l = false ->
  list_sum (map size (filter ne_empty_dict (cleaned_elements l)))
  < list_sum (map size l).
Proof.
  induction 1 as [|v l Hv _ IHl]; simpl; [discriminate|].
  intros H.
  assert (Hrest : list_sum (map size (filter ne_empty_dict (cleaned_elements l)))
                  <= list_sum (map size l)).
  { apply cleaned_elements_size, Forall_forall.
    intros y _. apply size_remove_empty_le. }
  pose proof (size_remove_empty_le v) as Hle.
  pose proof (size_pos v) as Hpos.
  unfold cleaned_elements in *. simpl.
  apply andb_false_iff in H as [H | H].
  - apply andb_false_iff in H as [H | H].
    + apply negb_false_iff in H. rewrite H. simpl. lia.
    + specialize (Hv H).
      destruct (in_empties v); simpl; [lia|].
      destruct (ne_empty_dict (remove_empty v)); simpl; lia.
  - specialize (IHl H).
    destruct (in_empties v); simpl; [lia|].
    destruct (ne_empty_dict (remove_empty v)); simpl; lia.
Qed.

Lemma untidy_items_shrink (m : list (string * value)) :
  Forall (fun kv => tidy (snd kv) = false ->
                    size (remove_empty (snd kv)) < size (snd kv)) m ->
  forallb (fun kv => negb (in_empties (snd kv)) && tidy (snd kv)) m = false ->
  list_sum (map (fun kv => size (snd kv)) (kept_items m))
  < list_sum (map (fun kv => size (snd kv)) m).
Proof.
  induction 1 as [|[k v] m Hv _ IHm]; simpl; [discriminate|].
  intros H. simpl in Hv.
  assert (Hrest : list_sum (map (fun kv => size (snd kv)) (kept_items m))
                  <= list_sum (map (fun kv => size (snd kv)) m)).
  { apply kept_items_size, Forall_forall.
    intros y _. apply size_remove_empty_le. }
  pose proof (size_remove_empty_le v) as Hle.
  pose proof (size_pos v) as Hpos.
  unfold kept_items in *. simpl.
  apply andb_false_iff in H as [H | H].
  - apply andb_false_iff in H as [H | H].
    + apply negb_false_iff in H. rewrite H. simpl. lia.
    + specialize (Hv H).
      destruct (in_empties v); simpl; [lia|].
      destruct (ne_empty_dict (remove_empty v)); simpl; lia.
  - specialize (IHm H).
    destruct (in_empties v); simpl; [lia|].
    destruct (ne_empty_dict (remove_empty v)); simpl; lia.
Qed.

Lemma untidy_shrinks (y : value) :
  tidy y = false -> size (remove_empty y) < size y.
Proof.
  induction y as [| b | n | s | l IH | m IH] using Json.value_ind;
    try discriminate.
  - rewrite tidy_JList, remove_empty_JList, !size_JList.
    intros H. apply -> Nat.succ_lt_mono. now apply untidy_elements_shrink.
  - rewrite tidy_JDict, remove_empty_JDict, !size_JDict.
    intros H. apply -> Nat.succ_lt_mono. now apply untidy_items_shrink.
Qed.

(** X2. The sanitizer returns a value unchanged exactly when no null, empty
    string, empty sequence or empty mapping is an element of a sequence or
    a value of a mapping anywhere in it. *)
Theorem remove_empty_unchanged_iff (x : value) :
  remove_empty x = x <-> tidy x = true.
Proof.
  split.
  - intros Hfix. destruct (tidy x) eqn:E; [reflexivity|].
    apply untidy_shrinks in E. rewrite Hfix in E. lia.
  - apply tidy_fixed.
Qed.

Lemma iter_tidy (k : nat) (y : value) :
  tidy y = true -> Nat.iter k remove_empty y = y.
Proof.
  intros H. induction k as [|k IH]; simpl; [reflexivity|].
  now rewrite IH, tidy_fixed.
Qed.

(** X3. Sanitizing never makes a value larger, every pass that changes the
    value makes it strictly smaller, and therefore repeating the sanitizer
    [size x] times reaches a value that further passes leave alone. *)
Theorem remove_empty_converges (x : value) :
  size (remove_empty x) <= size x /\
  (remove_empty x <> x -> size (remove_empty x) < size x) /\
  remove_empty (Nat.iter (size x) remove_empty x)
  = Nat.iter (size x) remove_empty x.
Proof.
  split; [apply size_remove_empty_le|]. split.
  - intros Hne. destruct (tidy x) eqn:E.
    + exfalso. apply Hne. now apply tidy_fixed.
    + now apply untidy_shrinks.
  - assert (H : forall n y, size y <= n ->
                remove_empty (Nat.iter n remove_empty y)
                = Nat.iter n remove_empty y).
    { induction n as [|n IH]; intros y Hy.
      - pose proof (size_pos y). lia.
      - destruct (tidy y) eqn:E.
        + rewrite (iter_tidy (S n) y E). now apply tidy_fixed.
        + rewrite Nat.iter_succ_r. apply IH.
          apply untidy_shrinks in E. lia. }
    now apply H.
Qed.

End SanitizerShape.

Section SanitizerKeys.
Import Shape.

Lemma kept_items_keys (m : list (string * value)) (k : string) :
  In k (map fst (kept_items m)) -> In k (map fst m).
Proof.
  unfold kept_items. induction m as [|[k' v] m IH]; simpl; [trivial|].
  destruct (negb (in_empties v) && ne_empty_dict (remove_empty v)); simpl.
  - intros [H | H]; [now left | right; now apply IH].
  - intros H. right. now apply IH.
Qed.

Lemma kept_items_NoDup (m : list (string * value)) :
  NoDup (map fst m) -> NoDup (map fst (kept_items m)).
Proof.
  induction m as [|[k v] m IH]; simpl; [trivial|].
  intros H. inversion H as [|? ? Hnotin Hrest]; subst.
  change (kept_items ((k, v) :: m))
    with ((if negb (in_empties v) && ne_empty_dict (remove_empty v)
           then [(k, remove_empty v)] else []) ++ kept_items m)%list.
  destruct (negb (in_empties v) && ne_empty_dict (remove_empty v)); simpl.
  - constructor; [|now apply IH].
    intros Hin. apply Hnotin. now apply kept_items_keys.
  - now apply IH.
Qed.

Lemma dict_get_absent (m : list (string * value)) (k : string) :
  ~ In k (map fst m) -> dict_get k m = None.
Proof.
  induction m as [|[k' v] m IH]; simpl; [reflexivity|].
  intros H. destruct (String.eqb k k') eqn:E.
  - apply String.eqb_eq in E. exfalso. apply H. now left.
  - apply IH. intros Hin. apply H. now right.
Qed.

Lemma kept_items_lookup (m : list (string * value)) (k : string) :
  NoDup (map fst m) ->
  dict_get k (kept_items m)
  = match dict_get k m with
    | Some v =>
        if in_empties v || negb (ne_empty_dict (remove_empty v))
        then None else Some (remove_empty v)
    | None => None
    end.
Proof.
  induction m as [|[k' v] m IH]; simpl; [reflexivity|].
  intros H. inversion H as [|? ? Hnotin Hrest]; subst.
  change (kept_items ((k', v) :: m))
    with ((if negb (in_empties v) && ne_empty_dict (remove_empty v)
           then [(k', remove_empty v)] else []) ++ kept_items m)%list.
  destruct (String.eqb k k') eqn:E.
  - apply String.eqb_eq in E. subst k'.
    destruct (in_empties v); simpl.
    + apply dict_get_absent. intros Hin. apply Hnotin.
      now apply kept_items_keys.
    + destruct (ne_empty_dict (remove_empty v)); simpl.
      * now rewrite String.eqb_refl.
      * apply dict_get_absent. intros Hin. apply Hnotin.
        now apply kept_items_keys.
  - destruct (negb (in_empties v) && ne_empty_dict (remove_empty v)); simpl.
    + rewrite E. now apply IH.
    + now apply IH.
Qed.

(** X4. In a dictionary with distinct keys, a field is present after
    sanitizing exactly when its value is not null, the empty string, the
    empty sequence or the empty mapping and does not sanitize to the empty
    mapping; it is then bound to its sanitized value. *)
Theorem sanitized_field (m : list (string * value)) (k : string) :
  NoDup (map fst m) ->
  get_field k (remove_empty (JDict m))
  = match dict_get k m with
    | Some v =>
        if in_empties v || negb (ne_empty_dict (remove_empty v))
        then None else Some (remove_empty v)
    | None => None
    end.
Proof.
  intros H. rewrite remove_empty_JDict. simpl get_field.
  now apply kept_items_lookup.
Qed.

(** X5. Sanitizing keeps dictionaries well formed: when the keys of every
    dictionary inside a value are distinct, so are they in the sanitized
    value. *)
Theorem remove_empty_keeps_keys_distinct (x : value) :
  distinct_keys x -> distinct_keys (remove_empty x).
Proof.
  induction x as [| b | n | s | l IH | m IH] using Json.value_ind;
    try (intros; exact I).
  - rewrite remove_empty_JList. unfold cleaned_elements. simpl.
    induction IH as [|v l Hv _ IHl]; simpl; [trivial|].
    intros [Hd Hrest].
    destruct (in_empties v); simpl; [now apply IHl|].
    destruct (ne_empty_dict (remove_empty v)); simpl; [|now apply IHl].
    split; [now apply Hv | now apply IHl].
  - rewrite remove_empty_JDict. intros [Hnodup Hall].
    split; [now apply kept_items_NoDup|].
    clear Hnodup. unfold kept_items.
    induction IH as [|[k v] m Hv _ IHm]; simpl; [trivial|].
    destruct Hall as [Hd Hrest]. simpl in Hv, Hd.
    destruct (negb (in_empties v) && ne_empty_dict (remove_empty v)); simpl.
    + split; [now apply Hv | now apply IHm].
    + now apply IHm.
Qed.

End SanitizerKeys.

Lemma sanitized_field_witness :
  get_field "homepage" (remove_empty (JDict Cases.record)) = None /\
  get_field "support" (remove_empty (JDict Cases.record)) = None /\
  get_field "subject_ids" (remove_empty (JDict Cases.record))
  = Some (JList [JNum 42]).
Proof.
  assert (H : NoDup (map fst Cases.record)).
  { simpl. repeat constructor; simpl; intuition discriminate. }
  split; [|split].
  - exact (sanitized_field Cases.record "homepage" H).
  - exact (sanitized_field Cases.record "support" H).
  - exact (sanitized_field Cases.record "subject_ids" H).
Defined.

Lemma remove_empty_keeps_keys_distinct_witness :
  Shape.distinct_keys (remove_empty (JDict Cases.record)).
Proof.
  apply remove_empty_keeps_keys_distinct. simpl.
  repeat split; try (repeat constructor; simpl; intuition discriminate).
Defined.

(** ** More on the identity extractor *)

Section ExtractorEdges.
Context {platform : Platform}.

(** X6. A document that rdflib cannot parse is refused with the 400 error
    "Invalid RDF format: ..." carrying the parser's message, and the push
    flow ends without having sent anything. *)
Theorem invalid_rdf_rejected (rdf_text msg : string) :
  turtle_parse rdf_text = inl msg ->
  _extract_record_info rdf_text
  = inl (HTTPException 400 ("Invalid RDF format: " ++ msg)) /\
  fails_offline rdf_text (HTTPException 400 ("Invalid RDF format: " ++ msg)).
Proof.
  intros Hparse.
  assert (E : _extract_record_info rdf_text
              = inl (HTTPException 400 ("Invalid RDF format: " ++ msg)))
    by (unfold _extract_record_info; now rewrite Hparse).
  split; [exact E | now apply commit_stops_at_extraction].
Qed.

Lemma first_uri_subject_skips (pre post : list triple) (u : string) (p o : node) :
  (forall s' p' o', In (URIRef s', p', o') pre -> False) ->
  first_uri_subject (pre ++ (URIRef u, p, o) :: post) = Some u.
Proof.
  induction pre as [|[[s q] r] pre IH]; simpl; [reflexivity|].
  intros H. destruct s as [iri | label | lexical].
  - exfalso. apply (H iri q r). now left.
  - apply IH. intros s' p' o' Hin. apply (H s' p' o'). now right.
  - apply IH. intros s' p' o' Hin. apply (H s' p' o'). now right.
Qed.

(** X7. The extractor takes the first URI subject of an identifier triple
    in the order in which the graph enumerates its triples: identifier
    triples on blank nodes in front of it are skipped, and further URI
    subjects behind it are ignored, not refused. *)
Theorem first_identifier_subject_wins
    (rdf_text : string) (pre post : graph) (u : string) (o : node) :
  turtle_parse rdf_text = inr (pre ++ (URIRef u, DCTERMS_identifier, o) :: post)%list ->
  (forall s' o', ~ In (URIRef s', DCTERMS_identifier, o') pre) ->
  _extract_record_info rdf_text
  <> inl (HTTPException 400 "No valid identifier or subject URI found in RDF.")
  /\
  (forall record_id category uri,
     _extract_record_info rdf_text = inr (record_id, category, uri) -> uri = u).
Proof.
  intros Hparse Hpre.
  assert (Hfirst : first_uri_subject
                     (triples_with_predicate DCTERMS_identifier
                        (pre ++ (URIRef u, DCTERMS_identifier, o) :: post)%list)
                   = Some u).
  { unfold triples_with_predicate. rewrite filter_app. simpl.
    replace (node_eqb DCTERMS_identifier DCTERMS_identifier) with true
      by (symmetry; now apply node_eqb_eq).
    apply first_uri_subject_skips.
    intros s' p' o' Hin. apply filter_In in Hin as [Hin Hp]. simpl in Hp.
    apply node_eqb_eq in Hp. subst p'. exact (Hpre s' o' Hin). }
  unfold _extract_record_info. rewrite Hparse, Hfirst.
  destruct (urlparse_path u) as [msg | path]; [split; [discriminate|]; discriminate|].
  destruct (List.length (path_parts path) <? 2)%nat.
  - split; [simpl; discriminate | discriminate].
  - split; [discriminate|]. now intros rid cat uri [= _ _ <-].
Qed.

End ExtractorEdges.

Lemma invalid_rdf_rejected_witness :
  @_extract_record_info Scripted.platform "not turtle"
  = inl (HTTPException 400 "Invalid RDF format: Bad syntax") /\
  @commit_rdf_to_github Scripted.platform "not turtle" ([Scripted.found], [])
  = (inl (HTTPException 400 "Invalid RDF format: Bad syntax"),
     ([Scripted.found], [])).
Proof.
  destruct (@invalid_rdf_rejected Scripted.platform "not turtle" "Bad syntax"
              eq_refl) as [Hextract Hoffline].
  split; [exact Hextract|].
  destruct (Hoffline ([Scripted.found], [])) as (e & Hrun & He).
  refine (eq_trans Hrun _). now rewrite (He eq_refl).
Defined.

Lemma first_identifier_subject_wins_witness :
  @_extract_record_info Cases.platform Cases.doc_two_subjects
  = inr ("first", "survey", "https://example.org/records/survey/first.TTL") /\
  (forall record_id category uri,
     @_extract_record_info Cases.platform Cases.doc_two_subjects
     = inr (record_id, category, uri) ->
     uri = "https://example.org/records/survey/first.TTL").
Proof.
  split; [reflexivity|].
  refine (proj2 (@first_identifier_subject_wins Cases.platform
                   Cases.doc_two_subjects
                   [(BNode "b", DCTERMS_identifier, URIRef "urn:b")]
                   [(URIRef "https://example.org/records/tool/second.ttl",
                     DCTERMS_identifier, URIRef "urn:2")]
                   "https://example.org/records/survey/first.TTL"
                   (URIRef "urn:1") eq_refl _)).
  intros s' o' [H | []]. discriminate H.
Defined.

Section IdentityShape.
Context {platform : Platform}.





(** X9. The record is stored under the last two segments of its URI, with
    the extension in lower case: the path is the category, a slash, the
    last segment without a trailing [.ttl] of any case, and [.ttl]; for a
    last segment that ends in [.ttl] it is category, slash, last segment. *)
Theorem stored_under_last_two_segments
    (rdf_text : string) (g : graph) (uri path : string)
    (front : list string) (cat file : string) :
  turtle_parse rdf_text = inr g ->
  first_uri_subject (triples_with_predicate DCTERMS_identifier g) = Some uri ->
  urlparse_path uri = inr path ->
  path_parts path = (front ++ [cat; file])%list ->
  Str.has_char Str.LF file = false ->
  exists record_id,
    _extract_record_info rdf_text = inr (record_id, cat, uri) /\
    store_path record_id cat = cat ++ "/" ++ Str.strip_ttl_suffix file ++ ".ttl" /\
    (forall id, file = id ++ ".ttl" -> store_path record_id cat = cat ++ "/" ++ file).
Proof.
  intros Hparse Hfirst Hpath Hparts Hlf.
  assert (E : _extract_record_info rdf_text
              = inr (Str.strip_ttl_suffix file, cat, uri)).
  { rewrite (extract_after_parse rdf_text g uri path Hparse Hfirst Hpath).
    rewrite Hparts, from_end_last, from_end_before_last.
    rewrite (re_sub_ttl_strips_suffix file Hlf).
    replace (List.length (front ++ [cat; file]) <? 2)%nat with false;
      [reflexivity|].
    symmetry. apply Nat.ltb_ge. rewrite length_app. simpl. lia. }
  exists (Str.strip_ttl_suffix file). split; [exact E|].
  pose proof (store_path_of_extracted _ _ _ _ E) as Hstore.
  split; [exact Hstore|].
  intros id ->. rewrite Hstore.
  now rewrite (strip_ttl_suffix_extension id ".ttl" eq_refl).
Qed.

(** X10. A subject URI that [urlparse] refuses makes the extractor raise
    the [ValueError] itself, not a 400 error, and the push flow ends
    without having sent anything. *)
Theorem urlparse_error_escapes (rdf_text : string) (g : graph)
    (uri msg : string) :
  turtle_parse rdf_text = inr g ->
  first_uri_subject (triples_with_predicate DCTERMS_identifier g) = Some uri ->
  urlparse_path uri = inl msg ->
  _extract_record_info rdf_text = inl (ValueError msg) /\
  fails_offline rdf_text (ValueError msg).
Proof.
  intros Hparse Hfirst Hpath.
  assert (E : _extract_record_info rdf_text = inl (ValueError msg))
    by (unfold _extract_record_info; now rewrite Hparse, Hfirst, Hpath).
  split; [exact E | now apply commit_stops_at_extraction].
Qed.

End IdentityShape.


Lemma stored_under_last_two_segments_witness :
  exists record_id,
    @_extract_record_info Cases.platform Cases.doc_two_subjects
    = inr (record_id, "survey",
           "https://example.org/records/survey/first.TTL") /\
    store_path record_id "survey" = "survey/first.ttl".
Proof.
  destruct (@stored_under_last_two_segments Cases.platform
              Cases.doc_two_subjects _
              "https://example.org/records/survey/first.TTL"
              "/records/survey/first.TTL" ["records"] "survey" "first.TTL"
              eq_refl eq_refl eq_refl eq_refl eq_refl)
    as (record_id & Hextract & Hstore & _).
  exists record_id. split; [exact Hextract | exact Hstore].
Defined.

Lemma urlparse_error_escapes_witness :
  @commit_rdf_to_github Cases.platform Cases.doc_bad_host ([Scripted.found], [])
  = (inl (ValueError "Invalid IPv6 URL"), ([Scripted.found], [])).
Proof.
  destruct (@urlparse_error_escapes Cases.platform Cases.doc_bad_host _
              "http://[::1/records/survey/item123.ttl" "Invalid IPv6 URL"
              eq_refl eq_refl eq_refl) as [_ Hoffline].
  destruct (Hoffline ([Scripted.found], [])) as (e & Hrun & He).
  refine (eq_trans Hrun _). now rewrite (He eq_refl).
Defined.

(** ** More on the content store *)

Section CommitEdges.
Context {platform : Platform}.

Lemma preflight_sends_one (url : string) (w : World) (sent : list request) :
  exists outcome,
    preflight url (w, sent)
    = (outcome, (snd (send (get_request url) w), (sent ++ [get_request url])%list)).
Proof.
  unfold preflight. run_monad.
  destruct (send (get_request url) w) as [[e | pre] w1]; simpl;
    [eexists; reflexivity|].
  destruct (status_code pre =? 200)%Z.
  - destruct (json pre) as [[| | | | |body]|]; eexists; reflexivity.
  - destruct (negb (status_code pre =? 404)%Z); eexists; reflexivity.
Qed.

(** The [try] block and its handler, from a state on. *)
Lemma commit_run (rdf_text record_id category uri : string)
    (w : World) (sent : list request) :
  env_truthy GITHUB_TOKEN = true ->
  _extract_record_info rdf_text = inr (record_id, category, uri) ->
  let url := contents_url (store_path record_id category) in
  forall outcome s',
    commit_rdf_to_github rdf_text (w, sent) = (outcome, s') ->
    (exists detail,
       outcome = inl (HTTPException 500 detail) /\
       s' = (snd (send (get_request url) w), (sent ++ [get_request url])%list))
    \/
    (exists sha,
       let put := put_request url (put_payload rdf_text record_id category sha) in
       preflight url (w, sent)
       = (inr sha, (snd (send (get_request url) w),
                    (sent ++ [get_request url])%list)) /\
       s' = (snd (send put (snd (send (get_request url) w))),
             (sent ++ [get_request url; put])%list) /\
       ((exists detail, outcome = inl (HTTPException 500 detail)) \/
        (exists res, outcome = inr res))).
Proof.
  intros Hcfg Hext url outcome s'.
  unfold commit_rdf_to_github. rewrite Hcfg, Hext.
  change (negb (true && Str.nonempty GITHUB_OWNER && Str.nonempty GITHUB_REPO))
    with false.
  fold url. unfold try_except, bind at 1. cbv beta iota.
  destruct (preflight_sends_one url w sent) as [pre Hpre]. rewrite Hpre.
  set (w1 := snd (send (get_request url) w)) in *.
  destruct pre as [e | sha].
  - destruct (commit_handler_raises e (w1, (sent ++ [get_request url])%list))
      as [detail Hd].
    rewrite Hd. intros [= <- <-]. left. now exists detail.
  - unfold bind at 1, client_send.
    set (put := put_request url (put_payload rdf_text record_id category sha)).
    destruct (send put w1) as [[e | resp] w2] eqn:Hput.
    + destruct (commit_handler_raises e
                  (w2, ((sent ++ [get_request url]) ++ [put])%list))
        as [detail Hd].
      rewrite Hd, <- app_assoc. simpl app. intros [= <- <-].
      right. exists sha. cbv zeta. fold put. rewrite Hput.
      split; [reflexivity|]. split; [reflexivity|].
      left. now exists detail.
    + destruct (commit_result_spec record_id category sha resp
                  (w2, ((sent ++ [get_request url]) ++ [put])%list))
        as (o & Hrun & _).
      rewrite Hrun, <- app_assoc. simpl app.
      destruct o as [e | res].
      * destruct (commit_handler_raises e
                    (w2, (sent ++ [get_request url; put])%list))
          as [detail Hd].
        rewrite Hd. intros [= <- <-].
        right. exists sha. cbv zeta. fold put. rewrite Hput.
        split; [reflexivity|]. split; [reflexivity|].
        left. now exists detail.
      * intros [= <- <-].
        right. exists sha. cbv zeta. fold put. rewrite Hput.
        split; [reflexivity|]. split; [reflexivity|].
        right. now exists res.
Qed.

(** The whole commit, step by step. *)
Lemma commit_steps (rdf_text record_id category uri : string) (s : state) :
  env_truthy GITHUB_TOKEN = true ->
  _extract_record_info rdf_text = inr (record_id, category, uri) ->
  let url := contents_url (store_path record_id category) in
  commit_rdf_to_github rdf_text s
  = match preflight url s with
    | (inl e, s1) => commit_handler e s1
    | (inr sha, s1) =>
        match client_send
                (put_request url (put_payload rdf_text record_id category sha))
                s1 with
        | (inl e, s2) => commit_handler e s2
        | (inr put, s2) =>
            match commit_result record_id category sha put s2 with
            | (inl e, s3) => commit_handler e s3
            | (inr res, s3) => (inr res, s3)
            end
        end
    end.
Proof.
  intros Hcfg Hext url.
  unfold commit_rdf_to_github. rewrite Hcfg, Hext.
  change (negb (true && Str.nonempty GITHUB_OWNER && Str.nonempty GITHUB_REPO))
    with false.
  fold url. unfold try_except, bind at 1. cbv beta iota.
  destruct (preflight url s) as [[e | sha] s1]; [reflexivity|].
  unfold bind at 1.
  destruct (client_send _ s1) as [[e | put] s2]; reflexivity.
Qed.

Lemma extract_errors (rdf_text : string) (e : exn) :
  _extract_record_info rdf_text = inl e ->
  (exists detail, e = HTTPException 400 detail) \/ (exists msg, e = ValueError msg).
Proof.
  unfold _extract_record_info.
  destruct (turtle_parse rdf_text) as [msg | g]; [intros [= <-]; eauto|].
  destruct (first_uri_subject _) as [u|]; [|intros [= <-]; eauto].
  destruct (urlparse_path u) as [msg | path]; [intros [= <-]; eauto|].
  destruct (List.length (path_parts path) <? 2)%nat; [intros [= <-]; eauto|].
  discriminate.
Qed.

(** X11. Every exception of a commit is structured.  If nothing was sent,
    it is the 500 configuration error, a 400 validation error, or the
    [ValueError] of [urlparse]; once a request has been sent, it is a 500
    error. *)
Theorem commit_errors_are_structured (rdf_text : string) (e : exn)
    (s s' : state) :
  commit_rdf_to_github rdf_text s = (inl e, s') ->
  (s' = s /\
   (e = HTTPException 500 "GitHub credentials or configuration missing." \/
    (exists detail, e = HTTPException 400 detail) \/
    (exists msg, e = ValueError msg)))
  \/
  (exists detail new,
     e = HTTPException 500 detail /\ new <> [] /\
     snd s' = (snd s ++ new)%list).
Proof.
  intros Hrun. destruct (env_truthy GITHUB_TOKEN) eqn:Hcfg.
  - destruct (_extract_record_info rdf_text) as [e0 | [[rid cat] uri]] eqn:Hext.
    + left. revert Hrun. unfold commit_rdf_to_github. rewrite Hcfg, Hext.
      intros [= <- <-]. split; [reflexivity|]. right.
      now apply (extract_errors rdf_text).
    + right. destruct s as [w sent].
      destruct (commit_run rdf_text rid cat uri w sent Hcfg Hext _ _ Hrun)
        as [(detail & He & ->) | (sha & _ & -> & [(detail & He) | (res & He)])];
        try discriminate He; injection He as ->;
        eexists; eexists; (split; [reflexivity|]); (split; [|reflexivity]);
        discriminate.
  - left. revert Hrun. unfold commit_rdf_to_github. rewrite Hcfg.
    intros [= <- <-]. split; [reflexivity|]. now left.
Qed.

(** X12. Whatever the input and the answers, a commit sends nothing, or
    the read, or the read followed by one write to the same URL; it
    returns a result only after both. *)
Theorem commit_sends_at_most_two (rdf_text : string)
    (outcome : exn + value) (s s' : state) :
  commit_rdf_to_github rdf_text s = (outcome, s') ->
  (exists new, snd s' = (snd s ++ new)%list /\ Answer.commit_trace new) /\
  (forall res, outcome = inr res ->
     exists url payload,
       snd s' = (snd s ++ [get_request url; put_request url payload])%list).
Proof.
  intros Hrun.
  assert (Hnone : forall e, (inl e, s) = (outcome, s') ->
            (exists new, snd s' = (snd s ++ new)%list /\ Answer.commit_trace new) /\
            (forall res, outcome = inr res ->
               exists url payload,
                 snd s' = (snd s ++ [get_request url; put_request url payload])%list)).
  { intros e [= <- <-]. split; [|discriminate].
    exists []. split; [now rewrite app_nil_r | now left]. }
  destruct (env_truthy GITHUB_TOKEN) eqn:Hcfg.
  - destruct (_extract_record_info rdf_text) as [e0 | [[rid cat] uri]] eqn:Hext.
    + revert Hrun. unfold commit_rdf_to_github. rewrite Hcfg, Hext.
      apply Hnone.
    + destruct s as [w sent].
      destruct (commit_run rdf_text rid cat uri w sent Hcfg Hext _ _ Hrun)
        as [(detail & He & ->) | (sha & _ & -> & Hout)].
      * split; [|subst outcome; discriminate].
        eexists. split; [reflexivity|]. right. left. eauto.
      * split.
        -- eexists. split; [reflexivity|]. right. right. eauto.
        -- intros res _. do 2 eexists. reflexivity.
  - revert Hrun. unfold commit_rdf_to_github. rewrite Hcfg. apply Hnone.
Qed.

(** X13. When the read itself raises (no connection, time-out, ...), the
    commit raises a 500 error that carries the text of the exception,
    "GitHub request failed" for an [httpx.HTTPError] and "Unexpected error
    during GitHub commit" otherwise, and no write is sent. *)
Theorem commit_read_failure (rdf_text record_id category uri : string)
    (e : exn) (w w1 : World) (sent : list request) :
  env_truthy GITHUB_TOKEN = true ->
  _extract_record_info rdf_text = inr (record_id, category, uri) ->
  let url := contents_url (store_path record_id category) in
  send (get_request url) w = (inl e, w1) ->
  commit_rdf_to_github rdf_text (w, sent)
  = (inl (HTTPException 500
            ((if is_httpx_HTTPError e
              then "GitHub request failed: "
              else "Unexpected error during GitHub commit: ") ++ str_of_exn e)),
     (w1, (sent ++ [get_request url])%list)).
Proof.
  intros Hcfg Hext url Hsend.
  rewrite (commit_steps _ _ _ _ _ Hcfg Hext). fold url.
  unfold preflight. run_monad. rewrite Hsend.
  unfold commit_handler, raise. now destruct (is_httpx_HTTPError e).
Qed.

(** X14. A read answered 200 whose body is not a JSON object (not JSON at
    all, or a JSON array as for a directory) makes the commit raise the
    500 error "Unexpected error during GitHub commit: ...", and no write
    is sent. *)
Theorem commit_read_body_not_object
    (rdf_text record_id category uri : string) (pre : response)
    (w w1 : World) (sent : list request) :
  env_truthy GITHUB_TOKEN = true ->
  _extract_record_info rdf_text = inr (record_id, category, uri) ->
  let url := contents_url (store_path record_id category) in
  send (get_request url) w = (inr pre, w1) ->
  status_code pre = 200%Z ->
  (forall body, json pre <> Some (JDict body)) ->
  commit_rdf_to_github rdf_text (w, sent)
  = (inl (HTTPException 500
            ("Unexpected error during GitHub commit: " ++
             str_of_exn (match json pre with
                         | None => JSONDecodeError
                         | Some _ => AttributeError
                         end))),
     (w1, (sent ++ [get_request url])%list)).
Proof.
  intros Hcfg Hext url Hsend Hstatus Hbody.
  rewrite (commit_steps _ _ _ _ _ Hcfg Hext). fold url.
  unfold preflight. run_monad. rewrite Hsend, Hstatus. simpl.
  destruct (json pre) as [[| | | | |body]|]; try reflexivity.
  now contradiction (Hbody body).
Qed.

(** X15. A write that the store refuses (a status that is not 2xx, such as
    the 409 of a stale hash) makes the commit raise the 500 error "GitHub
    request failed: ..." after the read and the one write; the write is not
    repeated. *)
Theorem commit_write_refused (rdf_text record_id category uri : string)
    (sha : value) (resp : response) (w w1 w2 : World) (sent : list request) :
  env_truthy GITHUB_TOKEN = true ->
  _extract_record_info rdf_text = inr (record_id, category, uri) ->
  let url := contents_url (store_path record_id category) in
  let put := put_request url (put_payload rdf_text record_id category sha) in
  preflight url (w, sent) = (inr sha, (w1, (sent ++ [get_request url])%list)) ->
  send put w1 = (inr resp, w2) ->
  ((200 <=? status_code resp)%Z && (status_code resp <=? 299)%Z) = false ->
  commit_rdf_to_github rdf_text (w, sent)
  = (inl (HTTPException 500
            ("GitHub request failed: " ++ str_of_exn (HTTPStatusError resp))),
     (w2, (sent ++ [get_request url; put])%list)).
Proof.
  intros Hcfg Hext url put Hpre Hsend Hstatus.
  rewrite (commit_steps _ _ _ _ _ Hcfg Hext). fold url. rewrite Hpre.
  fold put. unfold client_send. rewrite Hsend.
  unfold commit_result. run_monad. rewrite Hstatus.
  unfold commit_handler, raise. simpl. now rewrite <- app_assoc.
Qed.

(** X16. When the store accepts the write, the commit returns the record
    id and the category it extracted, the status "success", and the two
    [html_url] of the store's answer, null where the answer has none. *)
Theorem commit_success_result (rdf_text record_id category uri : string)
    (sha : value) (resp : response) (w w1 w2 : World) (sent : list request) :
  env_truthy GITHUB_TOKEN = true ->
  _extract_record_info rdf_text = inr (record_id, category, uri) ->
  let url := contents_url (store_path record_id category) in
  let put := put_request url (put_payload rdf_text record_id category sha) in
  preflight url (w, sent) = (inr sha, (w1, (sent ++ [get_request url])%list)) ->
  send put w1 = (inr resp, w2) ->
  write_accepted resp = true ->
  exists res,
    commit_rdf_to_github rdf_text (w, sent)
    = (inr res, (w2, (sent ++ [get_request url; put])%list)) /\
    get_field "status" res = Some (JStr "success") /\
    get_field "record_id" res = Some (JStr record_id) /\
    get_field "category" res = Some (JStr category) /\
    get_field "commit_url" res = Some (Answer.html_url_of "commit" resp) /\
    get_field "file_url" res = Some (Answer.html_url_of "content" resp).
Proof.
  intros Hcfg Hext url put Hpre Hsend Hacc.
  rewrite (commit_steps _ _ _ _ _ Hcfg Hext). fold url. rewrite Hpre.
  fold put. unfold client_send. rewrite Hsend. rewrite <- app_assoc. simpl app.
  unfold write_accepted in Hacc. unfold Answer.html_url_of.
  unfold commit_result. run_monad.
  apply andb_prop in Hacc as [Hstatus Hacc]. rewrite Hstatus.
  destruct (json resp) as [[| | | | |cd]|]; try discriminate Hacc.
  apply andb_prop in Hacc as [Hc Ht].
  destruct (dict_get "commit" cd) as [[| | | | |c]|]; try discriminate Hc;
    destruct (dict_get "content" cd) as [[| | | | |t]|]; try discriminate Ht;
    eexists; (split; [reflexivity|]); repeat split.
Qed.

End CommitEdges.

Lemma commit_errors_are_structured_witness :
  exists detail,
    fst (@commit_rdf_to_github Scripted.platform Scripted.doc_record
           ([Scripted.forbidden], []))
    = inl (HTTPException 500 detail).
Proof.
  destruct (@commit_rdf_to_github Scripted.platform Scripted.doc_record
              ([Scripted.forbidden], [])) as [[e | res] s'] eqn:Hrun;
    [|lazy in Hrun; discriminate Hrun].
  destruct (@commit_errors_are_structured Scripted.platform _ _ _ _ Hrun)
    as [[Hs _] | (detail & new & -> & _)].
  - lazy in Hrun. subst s'. discriminate Hrun.
  - now exists detail.
Defined.

Lemma commit_sends_at_most_two_witness :
  exists url payload,
    snd (snd (@commit_rdf_to_github Scripted.platform Scripted.doc_record
                ([Scripted.found; Scripted.written 200], [])))
    = [@get_request Scripted.platform url;
       @put_request Scripted.platform url payload].
Proof.
  destruct (@commit_rdf_to_github Scripted.platform Scripted.doc_record
              ([Scripted.found; Scripted.written 200], []))
    as [[e | res] s'] eqn:Hrun; [lazy in Hrun; discriminate Hrun|].
  destruct (@commit_sends_at_most_two Scripted.platform _ _ _ _ Hrun)
    as [_ Hboth].
  exact (Hboth res eq_refl).
Defined.

Lemma commit_read_failure_witness :
  @commit_rdf_to_github Scripted.platform Scripted.doc_record
    ([inl (TransportError "timed out"); Scripted.written 201], [])
  = (inl (HTTPException 500 "GitHub request failed: error"),
     ([Scripted.written 201],
      [@get_request Scripted.platform Scripted.file_url])).
Proof.
  exact (@commit_read_failure Scripted.platform Scripted.doc_record
           "item123" "survey" Scripted.record_uri (TransportError "timed out")
           [inl (TransportError "timed out"); Scripted.written 201]
           [Scripted.written 201] [] eq_refl eq_refl eq_refl).
Defined.

Lemma commit_read_body_not_object_witness :
  @commit_rdf_to_github Scripted.platform Scripted.doc_record
    ([Scripted.ok 200 (JList [JDict [("name", JStr "item123.ttl")]]);
      Scripted.written 201], [])
  = (inl (HTTPException 500 "Unexpected error during GitHub commit: error"),
     ([Scripted.written 201],
      [@get_request Scripted.platform Scripted.file_url])).
Proof.
  refine (@commit_read_body_not_object Scripted.platform Scripted.doc_record
            "item123" "survey" Scripted.record_uri _
            [Scripted.ok 200 (JList [JDict [("name", JStr "item123.ttl")]]);
             Scripted.written 201]
            [Scripted.written 201] [] eq_refl eq_refl eq_refl eq_refl _).
  intros body H. discriminate H.
Defined.

Lemma commit_write_refused_witness :
  exists put,
    @commit_rdf_to_github Scripted.platform Scripted.doc_record
      ([Scripted.found; Scripted.ok 409 (JDict [("message", JStr "conflict")])],
       [])
    = (inl (HTTPException 500 "GitHub request failed: error"),
       ([], [@get_request Scripted.platform Scripted.file_url; put])).
Proof.
  eexists.
  exact (@commit_write_refused Scripted.platform Scripted.doc_record
           "item123" "survey" Scripted.record_uri (JStr "95b966a") _
           [Scripted.found; Scripted.ok 409 (JDict [("message", JStr "conflict")])]
           [Scripted.ok 409 (JDict [("message", JStr "conflict")])] [] []
           eq_refl eq_refl eq_refl eq_refl eq_refl).
Defined.

Lemma commit_success_result_witness :
  exists res,
    fst (@commit_rdf_to_github Scripted.platform Scripted.doc_record
           ([Scripted.not_found; Scripted.written 201], [])) = inr res /\
    get_field "record_id" res = Some (JStr "item123") /\
    get_field "category" res = Some (JStr "survey") /\
    get_field "commit_url" res = Some (JStr "https://github.com/c") /\
    get_field "file_url" res = Some (JStr "https://github.com/f").
Proof.
  destruct (@commit_success_result Scripted.platform Scripted.doc_record
              "item123" "survey" Scripted.record_uri JNull _
              [Scripted.not_found; Scripted.written 201]
              [Scripted.written 201] [] []
              eq_refl eq_refl eq_refl eq_refl eq_refl)
    as (res & Hrun & _ & Hid & Hcat & Hcommit & Hfile).
  exists res. split; [exact (f_equal fst Hrun)|]. now repeat split.
Defined.

(** ** More on the registry flow *)

Section ResolutionEdges.
Context {platform : Platform}.

Lemma dict_set_keys (k : string) (v : value) (m : list (string * value)) :
  dict_get k m <> None -> map fst (dict_set k v m) = map fst m.
Proof.
  induction m as [|[k' v'] m IH]; simpl; [congruence|].
  destruct (String.eqb k k') eqn:E; simpl.
  - apply String.eqb_eq in E. now subst.
  - intros H. now rewrite IH.
Qed.

Lemma dict_set_absent (k : string) (v : value) (m : list (string * value)) :
  dict_get k m = None -> dict_set k v m = (m ++ [(k, v)])%list.
Proof.
  induction m as [|[k' v'] m IH]; simpl; [reflexivity|].
  destruct (String.eqb k k'); [discriminate|]. intros H. now rewrite IH.
Qed.

(** One block on a dictionary, in full. *)
Lemma resolve_block_full (key type_ : string) (record : list (string * value))
    (s : state) :
  type_ = "subject" \/ type_ = "domain" ->
  exists record' s',
    resolve_block key type_ (JDict record) s = (inr (JDict record'), s') /\
    map fst record' = map fst record /\
    (forall k, k <> key -> dict_get k record' = dict_get k record) /\
    snd s' = (snd s ++ map (graphql_request (query_field_of type_))
                         (Flow.ids_of key record))%list /\
    (exists outcomes,
       fetch_each type_ (Flow.ids_of key record) s = (inr outcomes, s') /\
       ((forall iris, dict_get key record <> Some (JList iris)) ->
        record' = record) /\
       (forall iris, dict_get key record = Some (JList iris) ->
        dict_get key record' = Some (JList (filter is_not_None outcomes)))).
Proof.
  intros Hkind. unfold resolve_block, Flow.ids_of. run_monad.
  unfold py_contains, ret.
  assert (Hsame : forall current,
            (forall iris, current <> Some (JList iris)) ->
            dict_get key record = current ->
            exists record' s',
              (inr (JDict record) : exn + value, s) = (inr (JDict record'), s') /\
              map fst record' = map fst record /\
              (forall k, k <> key -> dict_get k record' = dict_get k record) /\
              snd s' = (snd s ++ map (graphql_request (query_field_of type_)) [])%list /\
              (exists outcomes,
                 fetch_each type_ [] s = (inr outcomes, s') /\
                 ((forall iris, current <> Some (JList iris)) -> record' = record) /\
                 (forall iris, current = Some (JList iris) ->
                  dict_get key record' = Some (JList (filter is_not_None outcomes))))).
  { intros current Hnot _. exists record, s. repeat split.
    - simpl. now rewrite app_nil_r.
    - exists []. repeat split. intros iris H. now contradiction (Hnot iris). }
  destruct (dict_get key record) as [current|] eqn:Hget.
  - destruct current as [| b | n | str | iris | m];
      try (refine (Hsame _ _ eq_refl); intros iris0; discriminate).
    destruct (resolve_loop_run type_ iris Hkind [] s)
      as (outcomes & s' & Heach & _ & Hloop & Htrace).
    rewrite Hloop. unfold py_setitem, ret. simpl app.
    exists (dict_set key (JList (filter is_not_None outcomes)) record), s'.
    split; [reflexivity|]. split; [|split; [|split]].
    + apply dict_set_keys. congruence.
    + intros k Hk. now apply dict_get_set_other.
    + exact Htrace.
    + exists outcomes. split; [exact Heach|]. split.
      * intros H. now contradiction (H iris).
      * intros iris' _. apply dict_get_set_same.
  - refine (Hsame None _ eq_refl). intros iris0. discriminate.
Qed.

(** Both blocks on a record that is a dictionary. *)
Lemma resolve_dict_full (body_dict record : list (string * value)) (s : state) :
  dict_get "fairsharing_record" body_dict = Some (JDict record) ->
  exists record' s1 s' subjects domains,
    resolve_subject_domain_ids body_dict s
    = (inr (dict_set "fairsharing_record" (JDict record') body_dict), s') /\
    map fst record' = map fst record /\
    (forall k, k <> "subject_ids" -> k <> "domain_ids" ->
               dict_get k record' = dict_get k record) /\
    snd s' = (snd s
              ++ map (graphql_request "searchSubjects")
                     (Flow.ids_of "subject_ids" record)
              ++ map (graphql_request "searchDomains")
                     (Flow.ids_of "domain_ids" record))%list /\
    fetch_each "subject" (Flow.ids_of "subject_ids" record) s = (inr subjects, s1) /\
    fetch_each "domain" (Flow.ids_of "domain_ids" record) s1 = (inr domains, s') /\
    (forall iris, dict_get "subject_ids" record = Some (JList iris) ->
       dict_get "subject_ids" record'
       = Some (JList (filter is_not_None subjects))) /\
    (forall iris, dict_get "domain_ids" record = Some (JList iris) ->
       dict_get "domain_ids" record'
       = Some (JList (filter is_not_None domains))).
Proof.
  intros Hrec. unfold resolve_subject_domain_ids. rewrite Hrec.
  destruct (resolve_block_full "subject_ids" "subject" record s (or_introl eq_refl))
    as (r1 & s1 & Hrun1 & Hkeys1 & Hother1 & Htrace1 & subjects & Heach1 & _ & Hlist1).
  destruct (resolve_block_full "domain_ids" "domain" r1 s1 (or_intror eq_refl))
    as (r2 & s2 & Hrun2 & Hkeys2 & Hother2 & Htrace2 & domains & Heach2 & _ & Hlist2).
  assert (Hids : Flow.ids_of "domain_ids" r1 = Flow.ids_of "domain_ids" record).
  { unfold Flow.ids_of. rewrite Hother1; [reflexivity | discriminate]. }
  rewrite Hids in Htrace2, Heach2.
  exists r2, s1, s2, subjects, domains.
  unfold bind at 1. rewrite Hrun1. unfold bind at 1. rewrite Hrun2.
  split; [reflexivity|]. split; [congruence|]. split; [|split; [|split; [|split; [|split]]]].
  - intros k Hs Hd. rewrite Hother2, Hother1; auto.
  - rewrite Htrace2, Htrace1. now rewrite <- app_assoc.
  - exact Heach1.
  - exact Heach2.
  - intros iris H. rewrite Hother2; [|discriminate]. now apply (Hlist1 iris).
  - intros iris H. apply (Hlist2 iris). rewrite Hother1; [exact H | discriminate].
Qed.

(** X17. Resolution touches nothing else.  For a record that is a
    dictionary it never raises, the top-level keys and the keys of the
    record keep their order, every other top-level field is unchanged, and
    so is every field of the record other than [subject_ids] and
    [domain_ids]. *)
Theorem resolution_keeps_other_fields
    (body_dict record : list (string * value)) (s : state) :
  dict_get "fairsharing_record" body_dict = Some (JDict record) ->
  exists resolved record' s',
    resolve_subject_domain_ids body_dict s = (inr resolved, s') /\
    map fst resolved = map fst body_dict /\
    (forall k, k <> "fairsharing_record" ->
               dict_get k resolved = dict_get k body_dict) /\
    dict_get "fairsharing_record" resolved = Some (JDict record') /\
    map fst record' = map fst record /\
    (forall k, k <> "subject_ids" -> k <> "domain_ids" ->
               dict_get k record' = dict_get k record).
Proof.
  intros Hrec.
  destruct (resolve_dict_full body_dict record s Hrec)
    as (record' & s1 & s' & subjects & domains & Hrun & Hkeys & Hother & _).
  exists (dict_set "fairsharing_record" (JDict record') body_dict), record', s'.
  split; [exact Hrun|]. split; [|split; [|split; [|split]]].
  - apply dict_set_keys. congruence.
  - intros k Hk. now apply dict_get_set_other.
  - apply dict_get_set_same.
  - exact Hkeys.
  - exact Hother.
Qed.

(** X18. Resolution sends exactly one query per identifier: first one
    [searchSubjects] query for every element of [subject_ids], in order,
    then one [searchDomains] query for every element of [domain_ids], in
    order; a key that is missing or not bound to a list costs no query. *)
Theorem resolution_queries_in_order
    (body_dict record : list (string * value)) (s : state) :
  dict_get "fairsharing_record" body_dict = Some (JDict record) ->
  snd (snd (resolve_subject_domain_ids body_dict s))
  = (snd s
     ++ map (graphql_request "searchSubjects") (Flow.ids_of "subject_ids" record)
     ++ map (graphql_request "searchDomains") (Flow.ids_of "domain_ids" record))%list.
Proof.
  intros Hrec.
  destruct (resolve_dict_full body_dict record s Hrec)
    as (record' & s1 & s' & subjects & domains & Hrun & _ & _ & Htrace & _).
  now rewrite Hrun.
Qed.

(** X19. A body without [fairsharing_record] is resolved without any
    query: the key is added with an empty record, which the sanitizer
    takes out again, so that what is posted is the sanitized body. *)
Theorem resolution_without_record (body_dict : list (string * value))
    (s : state) :
  dict_get "fairsharing_record" body_dict = None ->
  resolve_subject_domain_ids body_dict s
  = (inr (body_dict ++ [("fairsharing_record", JDict [])])%list, s) /\
  remove_empty (JDict (body_dict ++ [("fairsharing_record", JDict [])])%list)
  = remove_empty (JDict body_dict).
Proof.
  intros Hnone. split.
  - unfold resolve_subject_domain_ids. rewrite Hnone.
    unfold resolve_block, py_contains. run_monad. simpl.
    now rewrite (dict_set_absent _ _ _ Hnone).
  - rewrite !remove_empty_JDict. f_equal. unfold kept_items.
    rewrite flat_map_app. simpl. now rewrite app_nil_r.
Qed.

(** X20. A [fairsharing_record] that is null, a number or a boolean makes
    the resolution, and with it [submit_record], raise a [TypeError] before
    any request is sent. *)
Theorem resolution_of_non_container
    (body_dict : list (string * value)) (record : value) (s : state) :
  dict_get "fairsharing_record" body_dict = Some record ->
  (record = JNull \/ (exists n, record = JNum n) \/ (exists b, record = JBool b)) ->
  resolve_subject_domain_ids body_dict s = (inl TypeError, s) /\
  submit_record body_dict s = (inl TypeError, s).
Proof.
  intros Hrec Hkind.
  assert (E : resolve_subject_domain_ids body_dict s = (inl TypeError, s)).
  { unfold resolve_subject_domain_ids. rewrite Hrec.
    destruct Hkind as [-> | [[n ->] | [b ->]]]; reflexivity. }
  split; [exact E|].
  unfold submit_record, bind at 1. now rewrite E.
Qed.

End ResolutionEdges.

Lemma resolution_keeps_other_fields_witness :
  exists resolved record',
    fst (@resolve_subject_domain_ids Cases.platform Cases.body_with_domains
           (Cases.tape_domains, [])) = inr resolved /\
    map fst resolved = ["curator"; "fairsharing_record"] /\
    dict_get "curator" resolved = Some (JStr "ana") /\
    dict_get "fairsharing_record" resolved = Some (JDict record') /\
    map fst record' = ["name"; "subject_ids"; "domain_ids"] /\
    dict_get "name" record' = Some (JStr "Record").
Proof.
  destruct (@resolution_keeps_other_fields Cases.platform
              Cases.body_with_domains _ (Cases.tape_domains, []) eq_refl)
    as (resolved & record' & s' & Hrun & Hkeys & Htop & Hrec & Hrkeys & Hother).
  exists resolved, record'.
  split; [exact (f_equal fst Hrun)|]. split; [exact Hkeys|].
  split; [apply Htop; discriminate|]. split; [exact Hrec|].
  split; [exact Hrkeys|]. apply Hother; discriminate.
Defined.

Lemma resolution_queries_in_order_witness :
  snd (snd (@resolve_subject_domain_ids Cases.platform Cases.body_with_domains
              (Cases.tape_domains, [])))
  = [ @graphql_request Cases.platform "searchSubjects" (JStr "http://s/1");
      @graphql_request Cases.platform "searchDomains" (JStr "http://d/1");
      @graphql_request Cases.platform "searchDomains" (JStr "http://d/2") ].
Proof.
  exact (@resolution_queries_in_order Cases.platform Cases.body_with_domains
           _ (Cases.tape_domains, []) eq_refl).
Defined.

Lemma resolution_without_record_witness :
  @resolve_subject_domain_ids Cases.platform Cases.body_without_record
    (Cases.tape_domains, [])
  = (inr [("curator", JStr "ana"); ("fairsharing_record", JDict [])],
     (Cases.tape_domains, [])) /\
  remove_empty (JDict [("curator", JStr "ana"); ("fairsharing_record", JDict [])])
  = remove_empty (JDict Cases.body_without_record).
Proof.
  exact (@resolution_without_record Cases.platform Cases.body_without_record
           (Cases.tape_domains, []) eq_refl).
Defined.

Lemma resolution_of_non_container_witness :
  @submit_record Cases.platform Cases.body_null_record (Cases.tape_domains, [])
  = (inl TypeError, (Cases.tape_domains, [])).
Proof.
  exact (proj2 (@resolution_of_non_container Cases.platform
                  Cases.body_null_record JNull (Cases.tape_domains, [])
                  eq_refl (or_introl eq_refl))).
Defined.

Section SubmissionEdges.
Context {platform : Platform}.

(** X21. When none of the subjects resolves, the resolved record has the
    empty list under [subject_ids], and the sanitized payload has no
    [subject_ids] at all. *)
Theorem unresolved_subjects_leave_payload
    (body_dict record : list (string * value)) (iris outcomes : list value)
    (s s1 : state) :
  NoDup (map fst body_dict) ->
  NoDup (map fst record) ->
  dict_get "fairsharing_record" body_dict = Some (JDict record) ->
  dict_get "subject_ids" record = Some (JList iris) ->
  fetch_each "subject" iris s = (inr outcomes, s1) ->
  Forall (fun v => v = JNull) outcomes ->
  exists resolved record' s',
    resolve_subject_domain_ids body_dict s = (inr resolved, s') /\
    dict_get "fairsharing_record" resolved = Some (JDict record') /\
    dict_get "subject_ids" record' = Some (JList []) /\
    (forall sanitized,
       get_field "fairsharing_record" (remove_empty (JDict resolved))
       = Some sanitized ->
       get_field "subject_ids" sanitized = None).
Proof.
  intros Hnd Hndr Hrec Hsub Heach Hall.
  destruct (resolve_dict_full body_dict record s Hrec)
    as (record' & sa & s' & subjects & domains & Hrun & Hkeys & _ & _
        & Heach' & _ & Hlist & _).
  assert (Hids : Flow.ids_of "subject_ids" record = iris)
    by (unfold Flow.ids_of; now rewrite Hsub).
  rewrite Hids, Heach in Heach'. injection Heach' as <- <-.
  assert (Hnone : filter is_not_None outcomes = []).
  { clear -Hall. induction Hall as [|v l -> _ IH]; simpl; [reflexivity | exact IH]. }
  pose proof (Hlist iris Hsub) as Hsub'. rewrite Hnone in Hsub'.
  exists (dict_set "fairsharing_record" (JDict record') body_dict), record', s'.
  split; [exact Hrun|]. split; [apply dict_get_set_same|]. split; [exact Hsub'|].
  intros sanitized. rewrite remove_empty_JDict. simpl get_field.
  rewrite kept_items_lookup, dict_get_set_same.
  - rewrite (remove_empty_JDict record').
    destruct (in_empties (JDict record')
              || negb (ne_empty_dict (JDict (kept_items record'))));
      [discriminate|].
    intros [= <-]. simpl get_field.
    rewrite kept_items_lookup, Hsub'; [reflexivity | now rewrite Hkeys].
  - rewrite dict_set_keys; [exact Hnd | congruence].
Qed.

(** The second half of [submit_record] once the token is there. *)
Lemma authenticate_then_post (payload : value) (auth_url : string)
    (token : value) (w1 : World) (sent1 : list request) :
  AUTH_URL = Some auth_url ->
  usable_token (fst (send (auth_request auth_url) w1)) = Some token ->
  authenticate_and_send payload (w1, sent1)
  = (data_response <-
       client_request POST DATA_URL
         (json_headers ++
          [("Authorization", ("Bearer " ++ py_format token)%string)])%list
         (Some payload) ;;
     raise_for_status data_response ;;;
     response_body <- response_json data_response ;;
     ret (JDict [ ("status", JStr "success");
                  ("data_status_code", JNum (status_code data_response));
                  ("response", response_body) ]))%py
      (snd (send (auth_request auth_url) w1),
       (sent1 ++ [auth_request auth_url])%list).
Proof.
  intros HA Htok. unfold authenticate_and_send.
  rewrite HA. unfold client_request at 1.
  change {| req_method := POST; req_url := auth_url;
            req_headers := json_headers; req_json := Some login_payload |}
    with (auth_request auth_url).
  unfold bind at 1, client_send at 1. unfold usable_token in Htok.
  destruct (send (auth_request auth_url) w1) as [[e | auth] w2];
    simpl in Htok; [discriminate|]. simpl snd.
  unfold bind at 1, raise_for_status at 1.
  destruct ((200 <=? status_code auth)%Z && (status_code auth <=? 299)%Z);
    [|discriminate].
  unfold ret at 1. unfold bind at 1, response_json at 1.
  destruct (json auth) as [[| | | | |body]|]; try discriminate.
  unfold ret at 1. unfold bind at 1, py_get, ret at 1.
  destruct (dict_get "jwt" body) as [t|]; [|discriminate].
  destruct (truthy t) eqn:Ht; [|discriminate].
  injection Htok as ->. reflexivity.
Qed.

(** X22. A submission that the registry accepts: the data endpoint answers
    the post with a 2xx status and a JSON body, and [submit_record] returns
    the status "success", that status code and that body. *)
Theorem submit_success_result
    (body_dict resolved : list (string * value)) (s : state)
    (w1 w3 : World) (sent1 : list request)
    (auth_url data_url : string) (token body : value) (resp : response) :
  resolve_subject_domain_ids body_dict s = (inr resolved, (w1, sent1)) ->
  AUTH_URL = Some auth_url ->
  DATA_URL = Some data_url ->
  usable_token (fst (send (auth_request auth_url) w1)) = Some token ->
  let post := data_request data_url token (remove_empty (JDict resolved)) in
  send post (snd (send (auth_request auth_url) w1)) = (inr resp, w3) ->
  ((200 <=? status_code resp)%Z && (status_code resp <=? 299)%Z) = true ->
  json resp = Some body ->
  submit_record body_dict s
  = (inr (JDict [ ("status", JStr "success");
                  ("data_status_code", JNum (status_code resp));
                  ("response", body) ]),
     (w3, (sent1 ++ [auth_request auth_url; post])%list)).
Proof.
  intros Hres HA HD Htok post Hsend Hstatus Hjson.
  unfold submit_record, bind at 1. rewrite Hres.
  rewrite (authenticate_then_post _ _ _ _ _ HA Htok), HD.
  unfold client_request. fold post. run_monad.
  fold (data_request data_url token (remove_empty (JDict resolved))).
  fold post. rewrite Hsend, Hstatus, Hjson.
  now rewrite <- app_assoc.
Qed.

(** X23. A post that the registry refuses with a status that is not 2xx
    makes [submit_record] raise the [HTTPStatusError] of that answer; the
    post is not repeated. *)
Theorem submit_post_refused
    (body_dict resolved : list (string * value)) (s : state)
    (w1 w3 : World) (sent1 : list request)
    (auth_url data_url : string) (token : value) (resp : response) :
  resolve_subject_domain_ids body_dict s = (inr resolved, (w1, sent1)) ->
  AUTH_URL = Some auth_url ->
  DATA_URL = Some data_url ->
  usable_token (fst (send (auth_request auth_url) w1)) = Some token ->
  let post := data_request data_url token (remove_empty (JDict resolved)) in
  send post (snd (send (auth_request auth_url) w1)) = (inr resp, w3) ->
  ((200 <=? status_code resp)%Z && (status_code resp <=? 299)%Z) = false ->
  submit_record body_dict s
  = (inl (HTTPStatusError resp),
     (w3, (sent1 ++ [auth_request auth_url; post])%list)).
Proof.
  intros Hres HA HD Htok post Hsend Hstatus.
  unfold submit_record, bind at 1. rewrite Hres.
  rewrite (authenticate_then_post _ _ _ _ _ HA Htok), HD.
  unfold client_request. run_monad.
  fold (data_request data_url token (remove_empty (JDict resolved))).
  fold post. rewrite Hsend, Hstatus.
  now rewrite <- app_assoc.
Qed.

(** X24. Without a data URL in the environment the flow still resolves and
    logs in, sending the credentials, and only then raises a [TypeError]:
    the missing setting is not noticed before the login. *)
Theorem submit_without_data_url
    (body_dict resolved : list (string * value)) (s : state)
    (w1 : World) (sent1 : list request) (auth_url : string) (token : value) :
  resolve_subject_domain_ids body_dict s = (inr resolved, (w1, sent1)) ->
  AUTH_URL = Some auth_url ->
  DATA_URL = None ->
  usable_token (fst (send (auth_request auth_url) w1)) = Some token ->
  submit_record body_dict s
  = (inl TypeError,
     (snd (send (auth_request auth_url) w1),
      (sent1 ++ [auth_request auth_url])%list)) /\
  req_json (auth_request auth_url)
  = Some (JDict [("user", JDict [("login", env_json USERNAME);
                                 ("password", env_json PASSWORD)])]).
Proof.
  intros Hres HA HD Htok. split; [|reflexivity].
  unfold submit_record, bind at 1. rewrite Hres.
  rewrite (authenticate_then_post _ _ _ _ _ HA Htok), HD.
  reflexivity.
Qed.

End SubmissionEdges.

Lemma unresolved_subjects_leave_payload_witness :
  exists resolved,
    fst (@resolve_subject_domain_ids Scripted.platform Scripted.submission
           (Cases.tape_none_resolves, [])) = inr resolved /\
    remove_empty (JDict resolved)
    = JDict [("fairsharing_record", JDict [("name", JStr "Record")])].
Proof.
  assert (Htop : NoDup (map fst Scripted.submission))
    by (simpl; repeat constructor; simpl; intuition discriminate).
  assert (Hrec : NoDup ["name"; "homepage"; "subject_ids"])
    by (repeat constructor; simpl; intuition discriminate).
  destruct (@unresolved_subjects_leave_payload Scripted.platform
              Scripted.submission
              [ ("name", JStr "Record"); ("homepage", JStr "");
                ("subject_ids", JList [JStr "http://x/1"; JStr "http://x/2"]) ]
              _ [JNull; JNull]
              (Cases.tape_none_resolves, []) _
              Htop Hrec eq_refl eq_refl eq_refl
              (Forall_cons _ eq_refl (Forall_cons _ eq_refl (Forall_nil _))))
    as (resolved & record' & s' & Hrun & _).
  exists resolved. split; [exact (f_equal fst Hrun)|].
  lazy in Hrun. now injection Hrun as <- _.
Defined.

Lemma submit_success_result_witness :
  exists post,
    @submit_record Scripted.platform Scripted.submission
      (Scripted.tape_signed_in, [])
    = (inr (JDict [ ("status", JStr "success");
                    ("data_status_code", JNum 201);
                    ("response", JDict [("id", JNum 7)]) ]),
       ([], [@graphql_request Scripted.platform "searchSubjects"
               (JStr "http://x/1");
             @graphql_request Scripted.platform "searchSubjects"
               (JStr "http://x/2");
             @auth_request Scripted.platform
               "https://registry.example/users/sign_in";
             post])).
Proof.
  eexists.
  exact (@submit_success_result Scripted.platform Scripted.submission
           Scripted.submission_resolved (Scripted.tape_signed_in, [])
           _ [] _ _ _ (JStr "eyJhbGciOi") (JDict [("id", JNum 7)]) _
           eq_refl eq_refl eq_refl eq_refl eq_refl eq_refl eq_refl).
Defined.

Lemma submit_post_refused_witness :
  exists resp,
    fst (@submit_record Scripted.platform Scripted.submission
           (Cases.tape_refused, [])) = inl (HTTPStatusError resp) /\
    status_code resp = 422%Z /\
    List.length (snd (snd (@submit_record Scripted.platform Scripted.submission
                             (Cases.tape_refused, [])))) = 4.
Proof.
  eexists. split; [|split].
  - exact (f_equal fst
             (@submit_post_refused Scripted.platform Scripted.submission
                Scripted.submission_resolved (Cases.tape_refused, [])
                _ [] _ _ _ (JStr "eyJhbGciOi") _
                eq_refl eq_refl eq_refl eq_refl eq_refl eq_refl)).
  - reflexivity.
  - reflexivity.
Defined.

Lemma submit_without_data_url_witness :
  exists login,
    @submit_record Cases.unconfigured Scripted.submission
      (Scripted.tape_signed_in, [])
    = (inl TypeError,
       ([Scripted.recorded],
        [@graphql_request Cases.unconfigured "searchSubjects" (JStr "http://x/1");
         @graphql_request Cases.unconfigured "searchSubjects" (JStr "http://x/2");
         login])) /\
    req_json login
    = Some (JDict [("user", JDict [("login", JStr "user");
                                   ("password", JStr "secret")])]).
Proof.
  eexists.
  exact (@submit_without_data_url Cases.unconfigured Scripted.submission
           Scripted.submission_resolved (Scripted.tape_signed_in, [])
           _ _ "https://registry.example/users/sign_in" (JStr "eyJhbGciOi")
           eq_refl eq_refl eq_refl eq_refl).
Defined.

Section SubmissionTrace.
Context {platform : Platform}.

Lemma authenticate_tail (payload : value) (w1 : World) (sent1 : list request)
    (outcome : exn + value) (s' : state) :
  authenticate_and_send payload (w1, sent1) = (outcome, s') ->
  exists rest,
    snd s' = (sent1 ++ rest)%list /\
    Flow.submission_tail rest /\
    (forall res, outcome = inr res ->
       exists auth_url data_url token body,
         rest = [auth_request auth_url; data_request data_url token body]).
Proof.
  destruct AUTH_URL as [auth_url|] eqn:HA.
  - destruct (usable_token (fst (send (auth_request auth_url) w1)))
      as [token|] eqn:Htok.
    + rewrite (authenticate_then_post _ _ _ _ _ HA Htok).
      destruct DATA_URL as [data_url|] eqn:HD.
      * unfold client_request. run_monad.
        fold (data_request data_url token payload).
        destruct (send (data_request data_url token payload) _)
          as [[e | resp] w3].
        -- intros [= <- <-]. eexists. rewrite <- app_assoc.
           split; [reflexivity|]. split; [|discriminate].
           right. right. simpl. eauto.
        -- assert (Hfull : exists a d t b,
                     [auth_request auth_url; data_request data_url token payload]
                     = [auth_request a; data_request d t b]) by eauto.
           destruct ((200 <=? status_code resp)%Z && (status_code resp <=? 299)%Z);
             [destruct (json resp)|];
             intros [= <- <-]; eexists; rewrite <- app_assoc;
             (split; [reflexivity|]); (split; [right; right; exact Hfull|]);
             intros res Hres; try discriminate Hres; exact Hfull.
      * unfold client_request, bind at 1, raise. intros [= <- <-].
        eexists. split; [reflexivity|]. split; [|discriminate].
        right. left. eauto.
    + destruct (authenticate_without_token payload auth_url w1 sent1 HA Htok)
        as (e & Hrun & _).
      rewrite Hrun. intros [= <- <-].
      eexists. split; [reflexivity|]. split; [|discriminate].
      right. left. eauto.
  - unfold authenticate_and_send. rewrite HA.
    unfold client_request, bind at 1, raise. intros [= <- <-].
    exists []. split; [now rewrite app_nil_r|]. split; [now left | discriminate].
Qed.

(** X25. Whatever the record and the answers, [submit_record] sends the
    resolver's queries, then at most the login, then at most one post to
    the data endpoint, in this order, and it returns a result only after
    the post. *)
Theorem submit_sends_queries_login_post
    (body_dict : list (string * value)) (outcome : exn + value) (s s' : state) :
  submit_record body_dict s = (outcome, s') ->
  exists queries rest,
    snd s' = (snd s ++ queries ++ rest)%list /\
    Forall is_registry_query queries /\
    Flow.submission_tail rest /\
    (forall res, outcome = inr res ->
       exists auth_url data_url token body,
         rest = [auth_request auth_url; data_request data_url token body]).
Proof.
  unfold submit_record, bind at 1.
  destruct (resolve_subject_domain_ids body_dict s)
    as [[e | resolved] [w1 sent1]] eqn:Hres;
    destruct (resolve_subject_domain_ids_trace _ _ _ _ Hres)
      as (queries & Hq & HF); simpl in Hq.
  - intros [= <- <-]. exists queries, []. rewrite app_nil_r.
    split; [exact Hq|]. split; [exact HF|]. split; [now left | discriminate].
  - intros Hrun.
    destruct (authenticate_tail _ _ _ _ _ Hrun) as (rest & Hrest & Htail & Hfull).
    exists queries, rest. rewrite Hrest, Hq, app_assoc. auto.
Qed.

End SubmissionTrace.

Lemma submit_sends_queries_login_post_witness :
  exists queries auth_url data_url token body,
    snd (snd (@submit_record Scripted.platform Scripted.submission
                (Scripted.tape_signed_in, [])))
    = (queries ++ [@auth_request Scripted.platform auth_url;
                   @data_request Scripted.platform data_url token body])%list /\
    Forall is_registry_query queries.
Proof.
  destruct (@submit_record Scripted.platform Scripted.submission
              (Scripted.tape_signed_in, [])) as [[e | res] s'] eqn:Hrun;
    [lazy in Hrun; discriminate Hrun|].
  destruct (@submit_sends_queries_login_post Scripted.platform _ _ _ _ Hrun)
    as (queries & rest & Htrace & HF & _ & Hfull).
  destruct (Hfull res eq_refl) as (a & d & t & b & ->).
  exists queries, a, d, t, b. split; [exact Htrace | exact HF].
Defined.

(** ** The push endpoint *)

Section StripFacts.

Lemma chars_groups_nonempty (l : list ascii) (g : list ascii) :
  In g (PyStr.chars l) -> g <> [].
Proof.
  revert g. induction l as [|b r IH]; simpl; [contradiction|].
  intros g. destruct r as [|c r'].
  - intros [<- | []]. discriminate.
  - destruct (PyStr.is_continuation c).
    + destruct (PyStr.chars (c :: r')) as [|g0 gs].
      * intros [<- | []]. discriminate.
      * intros [<- | Hin]; [discriminate|]. apply IH. now right.
    + intros [<- | Hin]; [discriminate | now apply IH].
Qed.

Lemma drop_spaces_all (cs : list (list ascii)) :
  forallb PyStr.is_space cs = true -> PyStr.drop_spaces cs = [].
Proof.
  induction cs as [|c cs IH]; simpl; [reflexivity|].
  intros H. apply andb_prop in H as [Hc Hrest]. now rewrite Hc, IH.
Qed.

Lemma drop_spaces_some (cs : list (list ascii)) :
  forallb PyStr.is_space cs = false ->
  exists c rest,
    PyStr.drop_spaces cs = c :: rest /\ PyStr.is_space c = false /\ In c cs.
Proof.
  induction cs as [|c cs IH]; simpl; [discriminate|].
  destruct (PyStr.is_space c) eqn:Hc; simpl.
  - intros H. destruct (IH H) as (c' & rest & Hd & Hs & Hin).
    exists c', rest. auto.
  - intros _. exists c, cs. auto.
Qed.

Lemma drop_spaces_incl (cs : list (list ascii)) (x : list ascii) :
  In x (PyStr.drop_spaces cs) -> In x cs.
Proof.
  induction cs as [|c cs IH]; simpl; [trivial|].
  destruct (PyStr.is_space c); [intros H; right; now apply IH | trivial].
Qed.

(** [text.strip()] is empty exactly for a text of white space only. *)
Lemma strip_empty_iff (text : string) :
  Str.nonempty (PyStr.strip text) = negb (PyStr.all_spaces text).
Proof.
  unfold PyStr.strip, PyStr.all_spaces.
  set (cs := PyStr.chars (list_ascii_of_string text)).
  destruct (forallb PyStr.is_space cs) eqn:Hall.
  - now rewrite (drop_spaces_all cs Hall).
  - destruct (drop_spaces_some cs Hall) as (c & rest & Hd & Hc & Hin).
    rewrite Hd.
    assert (Hrev : forallb PyStr.is_space (rev (c :: rest)) = false).
    { destruct (forallb PyStr.is_space (rev (c :: rest))) eqn:E; [|reflexivity].
      rewrite forallb_forall in E.
      rewrite (E c) in Hc; [discriminate|].
      apply (proj1 (in_rev _ _)). now left. }
    destruct (drop_spaces_some _ Hrev) as (c' & rest' & Hd' & _ & Hin').
    rewrite Hd'. simpl rev. rewrite concat_app. simpl.
    assert (Hne : c' <> []).
    { apply (chars_groups_nonempty (list_ascii_of_string text)).
      fold cs. apply in_rev in Hin'.
      apply drop_spaces_incl. rewrite Hd. exact Hin'. }
    destruct c' as [|a c'']; [contradiction|].
    destruct (List.concat (rev rest')); reflexivity.
Qed.

Lemma last_five_suffix (l : list string) :
  List.length (last_five l) <= 5 /\ exists front, l = (front ++ last_five l)%list.
Proof.
  unfold last_five. split.
  - rewrite length_skipn. lia.
  - exists (firstn (List.length l - 5) l). now rewrite firstn_skipn.
Qed.

End StripFacts.

Section PushFacts.
Context {platform : Platform} {runtime : Runtime}.


(** X26. A body that consists of white space only, the empty body
    included, is answered with status 400 and the message "Empty RDF body
    received." without any request being sent; every other body goes to
    the commit as it was received, not stripped. *)
Theorem push_refuses_blank_body (body text : string) (s : state) :
  decode_utf8 body = inr text ->
  (PyStr.all_spaces text = true ->
   githubpush body s
   = ({| response_status := 400;
         content := JDict [("status", JStr "error");
                           ("message", JStr "Empty RDF body received.")] |},
      s))
  /\
  (PyStr.all_spaces text = false ->
   push_attempt body s = commit_rdf_to_github text s).
Proof.
  intros Hdec. split; intros Hall.
  - unfold githubpush, push_attempt.
    now rewrite Hdec, strip_empty_iff, Hall.
  - unfold push_attempt. now rewrite Hdec, strip_empty_iff, Hall.
Qed.


(** X28. A body that is not UTF-8 is answered with status 500, the message
    "Unexpected internal error: ..." and, as trace, the last lines of the
    traceback, five at most; nothing is sent. *)
Theorem push_undecodable_body (body msg : string) (s : state) :
  decode_utf8 body = inl msg ->
  let lines := format_exc_lines (ValueError msg) in
  githubpush body s
  = ({| response_status := 500;
        content :=
          JDict [("status", JStr "error");
                 ("message",
                  JStr ("Unexpected internal error: " ++
                        str_of_exn (ValueError msg)));
                 ("trace", JList (map JStr (last_five lines)))] |}, s) /\
  List.length (last_five lines) <= 5 /\
  exists front, lines = (front ++ last_five lines)%list.
Proof.
  intros Hdec lines. split.
  - unfold githubpush, push_attempt. now rewrite Hdec.
  - apply last_five_suffix.
Qed.

End PushFacts.

Example strip_examples :
  PyStr.strip ("  ab c " ++ Str.nl) = "ab c" /\
  PyStr.strip Cases.blank_body = "" /\
  PyStr.strip "" = "" /\
  PyStr.all_spaces Cases.blank_body = true.
Proof. repeat split. Qed.

Lemma push_refuses_blank_body_witness :
  @githubpush Scripted.platform Cases.runtime Cases.blank_body
    ([Scripted.found], [])
  = ({| response_status := 400;
        content := JDict [("status", JStr "error");
                          ("message", JStr "Empty RDF body received.")] |},
     ([Scripted.found], [])) /\
  @push_attempt Scripted.platform Cases.runtime Scripted.doc_record
    ([Scripted.found], [])
  = @commit_rdf_to_github Scripted.platform Scripted.doc_record
      ([Scripted.found], []).
Proof.
  split.
  - exact (proj1 (@push_refuses_blank_body Scripted.platform Cases.runtime
                    Cases.blank_body Cases.blank_body ([Scripted.found], [])
                    eq_refl) eq_refl).
  - exact (proj2 (@push_refuses_blank_body Scripted.platform Cases.runtime
                    Scripted.doc_record Scripted.doc_record
                    ([Scripted.found], []) eq_refl) eq_refl).
Defined.


Lemma push_undecodable_body_witness :
  @githubpush Scripted.platform Cases.runtime Cases.undecodable_body
    ([Scripted.found], [])
  = ({| response_status := 500;
        content :=
          JDict [("status", JStr "error");
                 ("message", JStr "Unexpected internal error: error");
                 ("trace",
                  JList [JStr "line 3"; JStr "line 4"; JStr "line 5";
                         JStr "line 6"; JStr "ValueError"])] |},
     ([Scripted.found], [])).
Proof.
  exact (proj1 (@push_undecodable_body Scripted.platform Cases.runtime
                  Cases.undecodable_body "invalid start byte"
                  ([Scripted.found], []) eq_refl)).
Defined.
